(** * Flipper: a shallow embedding of the store, the drawing surface and the
      broadcast recolour transform, with the properties of the specification.

    The development follows the TypeScript sources:
    - [Broadcast]     the canvas effect of [BroadcastPage] (recolour transform);
    - [DrawingCanvas] the undo history of the drawing component;
    - [Firestore]     the store operations of [lib/firestore] over a model of
                      the document database and the blob store;
    - [HostPage]      the handlers of the host page that drive the store;
    - [Session]       one session run on the model, for the examples.

    The definitions come first; the properties follow them. *)

From Stdlib Require Import ZArith QArith Qround String Ascii Sorted.
From stdpp Require Import base list strings gmap pretty.

Local Open Scope Z_scope.

(* ===================================================================== *)
(** * The broadcast page: recolouring a revealed answer *)
(* ===================================================================== *)

Module Broadcast.

(** [ImageData.data]: a flat array of bytes, four per pixel (r, g, b, a). *)
Abbreviation ImageDataArray := (list Z) (only parsing).

(** [x < 128] where [x] is read from the array: an index past the end reads
    [undefined], and [undefined < 128] is false. *)
Definition lt128 (x : option Z) : bool :=
  match x with
  | Some v => v <? 128
  | None => false
  end.

(** The body of the loop at offset [i]. A write past the end of a typed
    array is ignored, which is what the list insert does. *)
Definition recolorStep (i : nat) (data : ImageDataArray) : ImageDataArray :=
  let r := data !! i in
  let g := data !! (i + 1)%nat in
  let b := data !! (i + 2)%nat in
  if lt128 r && lt128 g && lt128 b
  then <[(i + 2)%nat := 255]> (<[(i + 1)%nat := 255]> (<[i := 255]> data))
  else <[(i + 3)%nat := 0]> data.

(** [for (let i = 0; i < data.length; i += 4) { ... }], with the number of
    remaining iterations as fuel. *)
Fixpoint recolorLoop (fuel : nat) (i : nat) (data : ImageDataArray)
  : ImageDataArray :=
  match fuel with
  | O => data
  | S fuel' =>
      if (i <? length data)%nat
      then recolorLoop fuel' (i + 4)%nat (recolorStep i data)
      else data
  end.

(** The whole loop; [length data] iterations are more than it ever takes. *)
Definition recolor (data : ImageDataArray) : ImageDataArray :=
  recolorLoop (length data) 0%nat data.

(** A pixel of a flat array. *)
Definition Pixel := (Z * Z * Z * Z)%type.

Definition pixelAt (data : ImageDataArray) (p : nat) : option Pixel :=
  match data !! (4 * p)%nat, data !! (4 * p + 1)%nat,
        data !! (4 * p + 2)%nat, data !! (4 * p + 3)%nat with
  | Some r, Some g, Some b, Some a => Some (r, g, b, a)
  | _, _, _, _ => None
  end.

(** The classification of the source: "ink" when the three colour channels
    are all below the threshold. *)
Definition isInk (px : Pixel) : bool :=
  let '(r, g, b, _) := px in (r <? 128) && (g <? 128) && (b <? 128).

Definition recolorPixel (px : Pixel) : Pixel :=
  let '(r, g, b, a) := px in
  if isInk px then (255, 255, 255, a) else (r, g, b, 0).

(** A canvas (or a decoded image): its dimensions and its raster. *)
Record Canvas := mkCanvas {
  width : Z;
  height : Z;
  data : ImageDataArray;
}.

(** The two background colours, as opaque pixels. *)
Definition correctColor : Pixel := (220, 38, 38, 255).     (* #dc2626 *)
Definition incorrectColor : Pixel := (37, 99, 235, 255).   (* #2563eb *)

Definition pixelBytes (px : Pixel) : list Z :=
  let '(r, g, b, a) := px in [r; g; b; a].

(** [ctx.fillRect(0, 0, width, height)] with an opaque fill style, on a
    canvas of that very size: every pixel takes the colour. *)
Definition fillRect (colour : Pixel) (c : Canvas) : Canvas :=
  {| width := width c;
     height := height c;
     data := mjoin (replicate (Z.to_nat (width c * height c)) (pixelBytes colour)) |}.

(** [<canvas width={320} height={240} />] of a revealed answer card. *)
Definition answerCanvas : Canvas :=
  {| width := 320;
     height := 240;
     data := replicate (4 * 320 * 240)%nat 0 |}.

Section Render.

(** The browser's scaling and compositing of [drawImage(src, 0, 0, w, h)]:
    the raster that results on a destination of size [w] x [h]. *)
Variable composite : Canvas -> Z -> Z -> ImageDataArray -> ImageDataArray.

(** [ctx.drawImage(src, 0, 0, w, h)]: it paints on the destination and
    leaves the destination's dimensions alone. *)
Definition drawImage (src : Canvas) (w h : Z) (dst : Canvas) : Canvas :=
  {| width := width dst;
     height := height dst;
     data := composite src w h (data dst) |}.

(** The temporary canvas after [tempCtx.drawImage(img, 0, 0)],
    the loop and [putImageData]. *)
Definition tempCanvas (img : Canvas) : Canvas :=
  {| width := width img;
     height := height img;
     data := recolor (data img) |}.

(** [img.onload] of the effect: background, recolour, composite. *)
Definition onload (isCorrect : bool) (img : Canvas) (canvas : Canvas) : Canvas :=
  let w := width canvas in
  let h := height canvas in
  let painted := fillRect (if isCorrect then correctColor else incorrectColor) canvas in
  drawImage (tempCanvas img) w h painted.

(** The body of [answers.forEach] for one answer whose canvas is mounted.
    [roomOpen] is [room?.status === 'open']; [img] is the decoded drawing,
    [None] when it never loads and [onload] never runs. *)
Definition drawAnswer (roomOpen isRevealed isCorrect : bool) (canvasData : string)
    (img : option Canvas) (canvas : Canvas) : Canvas :=
  (* Only draw if room is open and answer is revealed *)
  if negb roomOpen || negb isRevealed then canvas
  else match canvasData with
       | EmptyString => canvas
       | String _ _ =>
           match img with
           | Some image => onload isCorrect image canvas
           | None => canvas
           end
       end.

End Render.

End Broadcast.

(* ===================================================================== *)
(** * The drawing surface and its undo history *)
(* ===================================================================== *)

Module DrawingCanvas.

(** The raster of the canvas, and of an [ImageData] snapshot of it. *)
Abbreviation ImageData := (list Z) (only parsing).

(** [arr.slice(0, end)]: a negative [end] counts from the end of the array,
    and the result never reaches past it. *)
Definition slice0 {A} (e : Z) (arr : list A) : list A :=
  let len := Z.of_nat (length arr) in
  let stop := if e <? 0 then Z.max (len + e) 0 else Z.min e len in
  take (Z.to_nat stop) arr.

(** [arr.shift()], for the array that is left. *)
Definition shift {A} (arr : list A) : list A := tail arr.

(** The props of the component the model depends on. *)
Record Props := mkProps {
  width : Z;
  height : Z;
  backgroundColor : string;
  strokeColor : string;
  lineWidth : Z;
  onChange : bool;       (* whether the host page passed a callback *)
  disabled : bool;
}.

(** The defaults of the destructured props. *)
Definition defaultProps : Props :=
  {| width := 400; height := 300;
     backgroundColor := "#ffffff"; strokeColor := "#000000";
     lineWidth := 4; onChange := false; disabled := false |}.

Section Component.

(** A position on the canvas, as [getCoordinates] computes it from a
    pointer or touch event. *)
Variable Point : Type.

(** The 2D context: its styles and the current path. *)
Record Context := mkContext {
  fillStyle : string;
  strokeStyle : string;
  ctxLineWidth : Z;
  path : list Point;
}.

(** What the browser paints: [ctx.fillRect(0, 0, w, h)], [ctx.stroke()],
    and the encoding [canvas.toDataURL()]. *)
Variable fillRect : Context -> Z -> Z -> ImageData -> ImageData.
Variable stroke : Context -> ImageData -> ImageData.
Variable toDataURL : ImageData -> string.

(** The refs and the state of one mounted component; [emitted] collects
    the arguments of the [onChange] calls, oldest first. *)
Record State := mkState {
  contextRef : option Context;
  canvas : ImageData;
  isDrawing : bool;
  historyRef : list ImageData;
  historyIndexRef : Z;
  emitted : list string;
}.

Definition setContext (c : option Context) (st : State) : State :=
  mkState c (canvas st) (isDrawing st) (historyRef st) (historyIndexRef st) (emitted st).
Definition setCanvas (r : ImageData) (st : State) : State :=
  mkState (contextRef st) r (isDrawing st) (historyRef st) (historyIndexRef st) (emitted st).
Definition setIsDrawing (b : bool) (st : State) : State :=
  mkState (contextRef st) (canvas st) b (historyRef st) (historyIndexRef st) (emitted st).
Definition setHistory (h : list ImageData) (i : Z) (st : State) : State :=
  mkState (contextRef st) (canvas st) (isDrawing st) h i (emitted st).
Definition setIndex (i : Z) (st : State) : State :=
  mkState (contextRef st) (canvas st) (isDrawing st) (historyRef st) i (emitted st).
Definition emit (s : string) (st : State) : State :=
  mkState (contextRef st) (canvas st) (isDrawing st) (historyRef st) (historyIndexRef st)
          (emitted st ++ [s]).

(** Before the first effect runs: no context, an empty history at -1.
    A new canvas is transparent black. *)
Definition initial (p : Props) : State :=
  {| contextRef := None;
     canvas := replicate (Z.to_nat (4 * width p * height p)) 0;
     isDrawing := false;
     historyRef := [];
     historyIndexRef := -1;
     emitted := [] |}.

(** The initialising effect, once it has a canvas and its 2D context. *)
Definition initialize (p : Props) (st : State) : State :=
  let ctx0 := {| fillStyle := backgroundColor p; strokeStyle := "#000000";
                 ctxLineWidth := 1; path := [] |} in
  let painted := fillRect ctx0 (width p) (height p) (canvas st) in
  let ctx := {| fillStyle := backgroundColor p; strokeStyle := strokeColor p;
                ctxLineWidth := lineWidth p; path := [] |} in
  let initialState := painted in
  setHistory [initialState] 0 (setContext (Some ctx) (setCanvas painted st)).

Definition saveToHistory (st : State) : State :=
  match contextRef st with
  | None => st
  | Some _ =>
      let imageData := canvas st in
      (* Remove any redo states *)
      let h1 := slice0 (historyIndexRef st + 1) (historyRef st) in
      let h2 := h1 ++ [imageData] in
      let i2 := Z.of_nat (length h2) - 1 in
      (* Limit history size *)
      if 50 <? Z.of_nat (length h2)
      then setHistory (shift h2) (i2 - 1) st
      else setHistory h2 i2 st
  end.

(** [if (onChange && canvasRef.current) onChange(canvas.toDataURL())]. *)
Definition notify (p : Props) (st : State) : State :=
  if onChange p then emit (toDataURL (canvas st)) st else st.

Definition startDrawing (p : Props) (coords : option Point) (st : State) : State :=
  match contextRef st with
  | None => st
  | Some ctx =>
      if disabled p then st
      else match coords with
           | None => st
           | Some c =>
               setContext (Some (mkContext (fillStyle ctx) (strokeStyle ctx)
                                           (ctxLineWidth ctx) [c]))
                          (setIsDrawing true st)
           end
  end.

Definition draw (p : Props) (coords : option Point) (st : State) : State :=
  match contextRef st with
  | None => st
  | Some ctx =>
      if negb (isDrawing st) || disabled p then st
      else match coords with
           | None => st
           | Some c =>
               let ctx' := mkContext (fillStyle ctx) (strokeStyle ctx)
                                     (ctxLineWidth ctx) (path ctx ++ [c]) in
               setCanvas (stroke ctx' (canvas st)) (setContext (Some ctx') st)
           end
  end.

Definition stopDrawing (p : Props) (st : State) : State :=
  if negb (isDrawing st) then st
  else notify p (saveToHistory (setIsDrawing false st)).

(** The index is decremented before the snapshot is read; were the slot
    empty, [putImageData] would throw and leave the canvas as it was. *)
Definition handleUndo (p : Props) (st : State) : State :=
  match contextRef st with
  | None => st
  | Some _ =>
      if historyIndexRef st <=? 0 then st
      else
        let i := historyIndexRef st - 1 in
        match historyRef st !! Z.to_nat i with
        | Some imageData => notify p (setCanvas imageData (setIndex i st))
        | None => setIndex i st
        end
  end.

Definition handleClear (p : Props) (st : State) : State :=
  match contextRef st with
  | None => st
  | Some ctx =>
      let ctx1 := mkContext (backgroundColor p) (strokeStyle ctx)
                            (ctxLineWidth ctx) (path ctx) in
      let painted := fillRect ctx1 (width p) (height p) (canvas st) in
      let ctx2 := mkContext (backgroundColor p) (strokeColor p)
                            (ctxLineWidth ctx) (path ctx) in
      notify p (saveToHistory (setCanvas painted (setContext (Some ctx2) st)))
  end.

(** What can happen to a component: the effect and the five handlers. *)
Inductive Event :=
| Mount (available : bool)
| StartDrawing (coords : option Point)
| Draw (coords : option Point)
| StopDrawing
| Undo
| Clear.

Definition step (p : Props) (st : State) (ev : Event) : State :=
  match ev with
  | Mount available =>
      (* [if (!canvas) return; ... if (!ctx) return;] *)
      if available then initialize p st else st
  | StartDrawing c => startDrawing p c st
  | Draw c => draw p c st
  | StopDrawing => stopDrawing p st
  | Undo => handleUndo p st
  | Clear => handleClear p st
  end.

Definition run (p : Props) (evs : list Event) (st : State) : State :=
  foldl (step p) st evs.

(** The live part of the history: the snapshots up to the index (what is
    above it are redo states, dropped by the next [saveToHistory]). *)
Definition undoStack (st : State) : list ImageData :=
  take (Z.to_nat (historyIndexRef st + 1)) (historyRef st).

(** The history is never longer than 50, the index points into it (or is
    -1 while it is empty), and a stroke is only ever open on a context. *)
Definition historyInv (st : State) : Prop :=
  -1 ≤ historyIndexRef st
  ∧ historyIndexRef st < Z.of_nat (length (historyRef st))
  ∧ (length (historyRef st) ≤ 50)%nat
  ∧ (isDrawing st = true → is_Some (contextRef st))
  ∧ (is_Some (contextRef st) → 0 ≤ historyIndexRef st).

(** At rest (no stroke open) a mounted surface shows the snapshot the
    index points at. *)
Definition restInv (st : State) : Prop :=
  isDrawing st = false -> is_Some (contextRef st) ->
  historyRef st !! Z.to_nat (historyIndexRef st) = Some (canvas st).

(** The events of the pointer, as against the effect and the buttons. *)
Definition isPointerEvent (ev : Event) : bool :=
  match ev with
  | StartDrawing _ | Draw _ | StopDrawing => true
  | Mount _ | Undo | Clear => false
  end.

(** The pointer goes up (or leaves the surface). *)
Definition isPointerUp (ev : Event) : bool :=
  match ev with
  | StopDrawing => true
  | _ => false
  end.

End Component.

Arguments mkContext {Point} _ _ _ _.
Arguments fillStyle {Point} _.
Arguments strokeStyle {Point} _.
Arguments ctxLineWidth {Point} _.
Arguments path {Point} _.
Arguments mkState {Point} _ _ _ _ _ _.
Arguments contextRef {Point} _.
Arguments canvas {Point} _.
Arguments isDrawing {Point} _.
Arguments historyRef {Point} _.
Arguments historyIndexRef {Point} _.
Arguments emitted {Point} _.
Arguments setContext {Point} _ _.
Arguments setCanvas {Point} _ _.
Arguments setIsDrawing {Point} _ _.
Arguments setHistory {Point} _ _ _.
Arguments setIndex {Point} _ _.
Arguments emit {Point} _ _.
Arguments initial {Point} _.
Arguments initialize {Point} _ _ _.
Arguments saveToHistory {Point} _.
Arguments notify {Point} _ _ _.
Arguments startDrawing {Point} _ _ _.
Arguments draw {Point} _ _ _ _.
Arguments stopDrawing {Point} _ _ _.
Arguments handleUndo {Point} _ _ _.
Arguments handleClear {Point} _ _ _ _.
Arguments Mount {Point} _.
Arguments StartDrawing {Point} _.
Arguments Draw {Point} _.
Arguments StopDrawing {Point}.
Arguments Undo {Point}.
Arguments Clear {Point}.
Arguments step {Point} _ _ _ _ _ _.
Arguments run {Point} _ _ _ _ _ _.
Arguments undoStack {Point} _.
Arguments historyInv {Point} _.
Arguments restInv {Point} _.
Arguments isPointerEvent {Point} _.
Arguments isPointerUp {Point} _.

End DrawingCanvas.

(* ===================================================================== *)
(** * The store: documents, collections and the operations on them *)
(* ===================================================================== *)

Module Firestore.

(** Strings stand for JavaScript strings, one character per code unit.
    Document ids are the names Firestore gives documents. *)
Abbreviation DocId := string (only parsing).

(** A server or client time, in milliseconds. *)
Abbreviation Timestamp := Z (only parsing).

(** ** Types *)

(** [Room['status']] *)
Inductive RoomStatus := waiting | questioning | open | ended.

(** [RoomParticipant['status']] *)
Inductive ParticipantStatus := pending | approved | rejected.

#[global] Instance RoomStatus_eq_dec : EqDecision RoomStatus.
Proof. solve_decision. Defined.

(** The records below are the data of a document; its id is kept beside
    it, as the collection does. *)
Module Room.
Record t := mk {
  hostId : string;
  roomCode : string;
  status : RoomStatus;
  currentQuestionId : option DocId;
  maxParticipants : Z;
  createdAt : Timestamp;
}.
End Room.

Module RoomParticipant.
Record t := mk {
  roomId : DocId;
  odId : string;
  displayName : string;
  photoURL : option string;
  status : ParticipantStatus;
  joinedAt : Timestamp;
}.
End RoomParticipant.

Module BannedUser.
Record t := mk {
  odId : string;
  displayName : string;
  photoURL : option string;
  bannedAt : Timestamp;
}.
End BannedUser.

Module Question.
Record t := mk {
  roomId : DocId;
  text : string;
  imageURL : option string;
  createdAt : Timestamp;
}.
End Question.

Module Answer.
Record t := mk {
  questionId : DocId;
  odId : string;
  displayName : string;
  canvasData : string;  (* base64 *)
  isCorrect : bool;
  isRevealed : bool;
  updatedAt : Timestamp;
}.
End Answer.

Module GameResultAnswer.
Record t := mk {
  odId : string;
  displayName : string;
  photoURL : option string;
  imageURL : string;  (* Saved to storage *)
  isCorrect : bool;
}.
End GameResultAnswer.

Module GameResult.
Record t := mk {
  roomId : DocId;
  roomCode : string;
  hostId : string;
  questionText : string;
  questionImageURL : option string;
  answers : list GameResultAnswer.t;
  createdAt : Timestamp;
}.
End GameResult.

(** A [Blob] and a [File] of the browser. *)
Record Blob := mkBlob {
  type : string;
  bytes : string;
}.

Record File := mkFile {
  name : string;
  content : Blob;
}.

(** Maximum number of participants allowed *)
Definition MAX_PARTICIPANTS : Z := 15.

(** ** Collections

    A collection is the list of its documents in the order a query returns
    them, which is the order of their names. *)
Abbreviation Coll A := (list (string * A)) (only parsing).

Section Collections.
Context {A : Type}.

(** The data of the document named [id], if it exists. *)
Fixpoint docData (id : DocId) (c : Coll A) : option A :=
  match c with
  | [] => None
  | (k, v) :: c' => if String.eqb k id then Some v else docData id c'
  end.

(** A new document takes its place in the order of names. *)
Fixpoint insertDoc (id : DocId) (v : A) (c : Coll A) : Coll A :=
  match c with
  | [] => [(id, v)]
  | (k, x) :: c' =>
      if String.ltb id k then (id, v) :: (k, x) :: c'
      else (k, x) :: insertDoc id v c'
  end.

(** The fields written by an update replace the old ones in place. *)
Definition modifyDoc (id : DocId) (f : A -> A) (c : Coll A) : Coll A :=
  List.map (fun kv : string * A => if String.eqb (fst kv) id then (fst kv, f (snd kv)) else kv) c.

Definition removeDoc (id : DocId) (c : Coll A) : Coll A :=
  List.filter (fun kv : string * A => negb (String.eqb (fst kv) id)) c.

(** [query(collection, where(...))]: the documents that pass the filter. *)
Definition whereDocs (p : A -> bool) (c : Coll A) : Coll A :=
  List.filter (fun kv : string * A => p (snd kv)) c.

Definition docIds (c : Coll A) : list DocId := List.map fst c.
End Collections.

(** ** The world: the database, the blob store and a log of the writes

    The world is that of a configured backend: [getDb] and
    [getStorageInstance] return it, and throw only where there is none. *)

Inductive CollPath :=
| Rooms
| Participants (roomId : DocId)
| BannedUsers (roomId : DocId)
| Questions (roomId : DocId)
| Answers (roomId : DocId)
| GameResults.

(** A write that reached the backend. *)
Inductive Effect :=
| Added (c : CollPath) (id : DocId)
| Updated (c : CollPath) (id : DocId)
| Deleted (c : CollPath) (id : DocId)
| Uploaded (path : string).

Record World := mkWorld {
  rooms : Coll Room.t;
  participants : gmap string (Coll RoomParticipant.t);
  bannedUsers : gmap string (Coll BannedUser.t);
  questions : gmap string (Coll Question.t);
  answers : gmap string (Coll Answer.t);
  gameResults : Coll GameResult.t;
  storage : gmap string Blob;
  log : list Effect;
}.

Definition emptyWorld : World :=
  mkWorld [] ∅ ∅ ∅ ∅ [] ∅ [].

Definition setRooms (c : Coll Room.t) (w : World) : World :=
  mkWorld c (participants w) (bannedUsers w) (questions w) (answers w)
          (gameResults w) (storage w) (log w).
Definition setParticipants (roomId : DocId) (c : Coll RoomParticipant.t) (w : World) : World :=
  mkWorld (rooms w) (<[roomId := c]> (participants w)) (bannedUsers w) (questions w)
          (answers w) (gameResults w) (storage w) (log w).
Definition setBannedUsers (roomId : DocId) (c : Coll BannedUser.t) (w : World) : World :=
  mkWorld (rooms w) (participants w) (<[roomId := c]> (bannedUsers w)) (questions w)
          (answers w) (gameResults w) (storage w) (log w).
Definition setQuestions (roomId : DocId) (c : Coll Question.t) (w : World) : World :=
  mkWorld (rooms w) (participants w) (bannedUsers w) (<[roomId := c]> (questions w))
          (answers w) (gameResults w) (storage w) (log w).
Definition setAnswers (roomId : DocId) (c : Coll Answer.t) (w : World) : World :=
  mkWorld (rooms w) (participants w) (bannedUsers w) (questions w)
          (<[roomId := c]> (answers w)) (gameResults w) (storage w) (log w).
Definition setGameResults (c : Coll GameResult.t) (w : World) : World :=
  mkWorld (rooms w) (participants w) (bannedUsers w) (questions w) (answers w)
          c (storage w) (log w).
Definition setStorage (s : gmap string Blob) (w : World) : World :=
  mkWorld (rooms w) (participants w) (bannedUsers w) (questions w) (answers w)
          (gameResults w) s (log w).
Definition record (e : Effect) (w : World) : World :=
  mkWorld (rooms w) (participants w) (bannedUsers w) (questions w) (answers w)
          (gameResults w) (storage w) (log w ++ [e]).

(** [collection(database, ...)]: where the documents of a collection live
    in the world. *)
Record CollectionReference (A : Type) := mkRef {
  path : CollPath;
  docs : World -> Coll A;
  setDocs : Coll A -> World -> World;
}.
Arguments path {A} _.
Arguments docs {A} _ _.
Arguments setDocs {A} _ _ _.

Definition roomsRef : CollectionReference Room.t :=
  mkRef _ Rooms rooms setRooms.
Definition participantsRef (roomId : DocId) : CollectionReference RoomParticipant.t :=
  mkRef _ (Participants roomId) (fun w => participants w !!! roomId) (setParticipants roomId).
Definition bannedUsersRef (roomId : DocId) : CollectionReference BannedUser.t :=
  mkRef _ (BannedUsers roomId) (fun w => bannedUsers w !!! roomId) (setBannedUsers roomId).
Definition questionsRef (roomId : DocId) : CollectionReference Question.t :=
  mkRef _ (Questions roomId) (fun w => questions w !!! roomId) (setQuestions roomId).
Definition answersRef (roomId : DocId) : CollectionReference Answer.t :=
  mkRef _ (Answers roomId) (fun w => answers w !!! roomId) (setAnswers roomId).
Definition gameResultsRef : CollectionReference GameResult.t :=
  mkRef _ GameResults gameResults setGameResults.

(** ** Errors and the monad of an asynchronous operation

    An operation runs on the world and either returns or throws; what it
    wrote before it threw stays written. *)
Inductive Error :=
| ErrBanned
| ErrRoomFull (maxParticipants : Z)
| ErrAlreadyExists
| ErrNotFound
| ErrUpload (path : string)
| ErrObjectNotFound (path : string)
| ErrInvalidCharacter.

(** The text of [new Error(...)] for the two business-rule rejections. *)
Definition message (e : Error) : string :=
  match e with
  | ErrBanned => "このルームから退室させられています"
  | ErrRoomFull m => "参加者数が上限(" +:+ pretty m +:+ "人)に達しています"
  | ErrAlreadyExists => "already-exists"
  | ErrNotFound => "not-found"
  | ErrUpload _ => "storage/unknown"
  | ErrObjectNotFound _ => "storage/object-not-found"
  | ErrInvalidCharacter => "InvalidCharacterError"
  end.

Inductive Outcome (A : Type) :=
| Ok (a : A)
| Throw (e : Error).
Arguments Ok {A} a.
Arguments Throw {A} e.

Definition M (A : Type) : Type := World -> Outcome A * World.

Definition ret {A} (a : A) : M A := fun w => (Ok a, w).
Definition throw {A} (e : Error) : M A := fun w => (Throw e, w).
Definition bind {A B} (m : M A) (k : A -> M B) : M B :=
  fun w => match m w with
           | (Ok a, w') => k a w'
           | (Throw e, w') => (Throw e, w')
           end.

Notation "x <- m ;; k" := (bind m (fun x => k))
  (at level 100, m at next level, right associativity).
Notation "m ;;; k" := (bind m (fun _ => k))
  (at level 100, right associativity).

(** A synchronous call that throws [e] where it has no value. *)
Definition orThrow {A} (e : Error) (x : option A) : M A :=
  match x with
  | Some a => ret a
  | None => throw e
  end.

(** [try { body } catch (err) { console.error(...) }] of a handler. *)
Definition tryCatch (body : M unit) : M unit :=
  fun w => match body w with
           | (Ok _, w') => (Ok tt, w')
           | (Throw _, w') => (Ok tt, w')
           end.

(** [Promise.all(ps)]: every promise runs; the result is the list of their
    values, or the first rejection. *)
Fixpoint promiseAll {A} (ps : list (M A)) : M (list A) :=
  match ps with
  | [] => ret []
  | p :: ps' =>
      fun w =>
        let (r, w1) := p w in
        let (rs, w2) := promiseAll ps' w1 in
        (match r, rs with
         | Ok a, Ok l => Ok (a :: l)
         | Throw e, _ => Throw e
         | Ok _, Throw e => Throw e
         end, w2)
  end.

(** ** The SDK calls *)

(** [addDoc]: the document gets the auto-generated name [autoId]; the write
    is refused when a document of that name is already there. *)
Definition addDoc {A} (ref : CollectionReference A) (autoId : DocId) (d : A) : M DocId :=
  fun w =>
    match docData autoId (docs ref w) with
    | Some _ => (Throw ErrAlreadyExists, w)
    | None =>
        (Ok autoId,
         record (Added (path ref) autoId) (setDocs ref (insertDoc autoId d (docs ref w)) w))
    end.

(** [getDoc]: [None] when the snapshot does not exist. *)
Definition getDoc {A} (ref : CollectionReference A) (id : DocId) : M (option A) :=
  fun w => (Ok (docData id (docs ref w)), w).

(** [getDocs(query(ref, where ...))]: the matching documents, in order. *)
Definition getDocs {A} (ref : CollectionReference A) (p : A -> bool) : M (Coll A) :=
  fun w => (Ok (whereDocs p (docs ref w)), w).

(** [updateDoc]: fails when the document does not exist. *)
Definition updateDoc {A} (ref : CollectionReference A) (id : DocId) (f : A -> A) : M unit :=
  fun w =>
    match docData id (docs ref w) with
    | None => (Throw ErrNotFound, w)
    | Some _ =>
        (Ok tt, record (Updated (path ref) id) (setDocs ref (modifyDoc id f (docs ref w)) w))
    end.

(** [deleteDoc]: succeeds whether or not the document exists. *)
Definition deleteDoc {A} (ref : CollectionReference A) (id : DocId) : M unit :=
  fun w => (Ok tt, record (Deleted (path ref) id) (setDocs ref (removeDoc id (docs ref w)) w)).

(** [uploadBytes(ref(storage, path), blob)]; [ok] is whether the blob store
    accepts the upload. *)
Definition uploadBytes (ok : bool) (path : string) (blob : Blob) : M unit :=
  fun w =>
    if ok then (Ok tt, record (Uploaded path) (setStorage (<[path := blob]> (storage w)) w))
    else (Throw (ErrUpload path), w).

(** [for (const x of xs) { await f(x) }] *)
Fixpoint forEach {A} (xs : list A) (f : A -> M unit) : M unit :=
  match xs with
  | [] => ret tt
  | x :: xs' => f x ;;; forEach xs' f
  end.

(** ** Strings and numbers of the language *)

(** [s.charAt(k)]: the empty string when [k] is out of range. *)
Definition charAt (k : Z) (s : string) : string :=
  if k <? 0 then ""
  else match String.get (Z.to_nat k) s with
       | Some c => String c ""
       | None => ""
       end.

(** [s.toUpperCase()], on the letters a to z; other characters stay. *)
Definition upperChar (c : ascii) : ascii :=
  let n := nat_of_ascii c in
  if (97 <=? n)%nat && (n <=? 122)%nat then ascii_of_nat (n - 32) else c.

Fixpoint toUpperCase (s : string) : string :=
  match s with
  | EmptyString => EmptyString
  | String c s' => String (upperChar c) (toUpperCase s')
  end.

(** [s.split(sep)] for a separator of one character. *)
Fixpoint split (sep : ascii) (s : string) : list string :=
  match s with
  | EmptyString => [EmptyString]
  | String c s' =>
      if Ascii.eqb c sep then EmptyString :: split sep s'
      else match split sep s' with
           | h :: t => String c h :: t
           | [] => [String c EmptyString]
           end
  end.

(** [x || d] for a number that may be missing: 0 is falsy. *)
Definition orNumber (x : option Z) (d : Z) : Z :=
  match x with
  | Some v => if v =? 0 then d else v
  | None => d
  end.

(** [s || d] for a string that may be missing: the empty string is falsy. *)
Definition orString (x : option string) (d : string) : string :=
  match x with
  | Some EmptyString => d
  | Some v => v
  | None => d
  end.

(** ** Room functions *)

Definition chars : string := "ABCDEFGHJKLMNPQRSTUVWXYZ23456789".

(** Generate random 6-character room code. [random i] is the value of the
    i-th call of [Math.random()], a number at least 0 and below 1; its
    product with the length, a power of two, is exact. *)
Fixpoint generateRoomCodeLoop (random : nat -> Q) (n i : nat) (code : string) : string :=
  match n with
  | O => code
  | S n' =>
      generateRoomCodeLoop random n' (S i)
        (code +:+ charAt (Qfloor (random i * inject_Z (Z.of_nat (String.length chars)))) chars)
  end.

Definition generateRoomCode (random : nat -> Q) : string :=
  generateRoomCodeLoop random 6 0 "".

Definition createRoom (autoId : DocId) (random : nat -> Q) (now : Timestamp)
    (hostId : string) (maxParticipants : option Z) : M (DocId * option Room.t) :=
  let maxParticipants := default 100 maxParticipants in
  let roomCode := generateRoomCode random in
  roomRef <- addDoc roomsRef autoId
               {| Room.hostId := hostId;
                  Room.roomCode := roomCode;
                  Room.status := waiting;
                  Room.currentQuestionId := None;
                  Room.maxParticipants := maxParticipants;
                  Room.createdAt := now |} ;;
  roomDoc <- getDoc roomsRef roomRef ;;
  ret (roomRef, roomDoc).

(** [where('roomCode', '==', roomCode.toUpperCase())] *)
Definition hasRoomCode (roomCode : string) (r : Room.t) : bool :=
  String.eqb (Room.roomCode r) (toUpperCase roomCode).

Definition getRoomByCode (roomCode : string) : M (option (DocId * Room.t)) :=
  snapshot <- getDocs roomsRef (hasRoomCode roomCode) ;;
  ret (head snapshot).

Definition getRoom (roomId : DocId) : M (option (DocId * Room.t)) :=
  roomDoc <- getDoc roomsRef roomId ;;
  ret (pair roomId <$> roomDoc).

Definition withStatus (s : RoomStatus) (r : Room.t) : Room.t :=
  Room.mk (Room.hostId r) (Room.roomCode r) s (Room.currentQuestionId r)
          (Room.maxParticipants r) (Room.createdAt r).

Definition withCurrentQuestion (q : option DocId) (s : RoomStatus) (r : Room.t) : Room.t :=
  Room.mk (Room.hostId r) (Room.roomCode r) s q
          (Room.maxParticipants r) (Room.createdAt r).

Definition updateRoomStatus (roomId : DocId) (status : RoomStatus) : M unit :=
  updateDoc roomsRef roomId (withStatus status).

Definition resetRoomToWaiting (roomId : DocId) : M unit :=
  updateDoc roomsRef roomId (withCurrentQuestion None waiting).

(** [where('odId', '==', odId)] on the ban list and on the participants. *)
Definition isBanned (odId : string) (b : BannedUser.t) : bool :=
  String.eqb (BannedUser.odId b) odId.

Definition isParticipant (odId : string) (p : RoomParticipant.t) : bool :=
  String.eqb (RoomParticipant.odId p) odId.

(** Check if user is banned from room *)
Definition isUserBanned (roomId : DocId) (odId : string) : M bool :=
  snapshot <- getDocs (bannedUsersRef roomId) (isBanned odId) ;;
  ret (match snapshot with [] => false | _ :: _ => true end).

Definition endRoom (roomId : DocId) : M unit :=
  updateDoc roomsRef roomId (withStatus ended).

(** Get banned users list *)
Definition getBannedUsers (roomId : DocId) : M (list BannedUser.t) :=
  snapshot <- getDocs (bannedUsersRef roomId) (fun _ => true) ;;
  ret (List.map snd snapshot).

(** ** Participant functions - Free join (no approval needed) *)

Definition requestJoinRoom (autoId : DocId) (now : Timestamp)
    (roomId : DocId) (odId displayName : string) (photoURL : option string)
  : M (DocId * option RoomParticipant.t) :=
  (* Check if banned *)
  banned <- isUserBanned roomId odId ;;
  if banned : bool then throw ErrBanned
  else
    (* Check if already a participant *)
    existingSnapshot <- getDocs (participantsRef roomId) (isParticipant odId) ;;
    match existingSnapshot with
    | existingDoc :: _ => ret (fst existingDoc, Some (snd existingDoc))
    | [] =>
        (* Check participant count *)
        allParticipantsSnapshot <- getDocs (participantsRef roomId) (fun _ => true) ;;
        let activeCount := Z.of_nat (length allParticipantsSnapshot) in
        (* Get room to check maxParticipants *)
        roomDoc <- getDoc roomsRef roomId ;;
        let maxParticipants := orNumber (Room.maxParticipants <$> roomDoc) MAX_PARTICIPANTS in
        if activeCount >=? maxParticipants then throw (ErrRoomFull maxParticipants)
        else
          participantRef <- addDoc (participantsRef roomId) autoId
                              {| RoomParticipant.roomId := roomId;
                                 RoomParticipant.odId := odId;
                                 RoomParticipant.displayName := displayName;
                                 RoomParticipant.photoURL := photoURL;
                                 RoomParticipant.status := approved;
                                 RoomParticipant.joinedAt := now |} ;;
          participantDoc <- getDoc (participantsRef roomId) participantRef ;;
          ret (participantRef, participantDoc)
    end.

(** Kick a participant and add to ban list *)
Definition kickParticipant (autoId : DocId) (now : Timestamp)
    (roomId participantId : DocId) (odId displayName : string)
    (photoURL : option string) : M unit :=
  (* Add to banned users *)
  addDoc (bannedUsersRef roomId) autoId
    {| BannedUser.odId := odId;
       BannedUser.displayName := displayName;
       BannedUser.photoURL := photoURL;
       BannedUser.bannedAt := now |} ;;;
  (* Remove from participants *)
  deleteDoc (participantsRef roomId) participantId.

(** Unban a user (remove from ban list) *)
Definition unbanUser (roomId : DocId) (odId : string) : M unit :=
  snapshot <- getDocs (bannedUsersRef roomId) (isBanned odId) ;;
  forEach snapshot (fun docSnap => deleteDoc (bannedUsersRef roomId) (fst docSnap)).

Definition getMyParticipation (roomId : DocId) (odId : string)
  : M (option (DocId * RoomParticipant.t)) :=
  snapshot <- getDocs (participantsRef roomId) (isParticipant odId) ;;
  ret (head snapshot).

(** ** Answer functions *)

Definition sameAnswer (questionId : DocId) (odId : string) (a : Answer.t) : bool :=
  String.eqb (Answer.questionId a) questionId && String.eqb (Answer.odId a) odId.

Definition withCanvasData (canvasData : string) (now : Timestamp) (a : Answer.t) : Answer.t :=
  Answer.mk (Answer.questionId a) (Answer.odId a) (Answer.displayName a)
            canvasData (Answer.isCorrect a) (Answer.isRevealed a) now.

Definition withIsCorrect (isCorrect : bool) (a : Answer.t) : Answer.t :=
  Answer.mk (Answer.questionId a) (Answer.odId a) (Answer.displayName a)
            (Answer.canvasData a) isCorrect (Answer.isRevealed a) (Answer.updatedAt a).

Definition withIsRevealed (isRevealed : bool) (a : Answer.t) : Answer.t :=
  Answer.mk (Answer.questionId a) (Answer.odId a) (Answer.displayName a)
            (Answer.canvasData a) (Answer.isCorrect a) isRevealed (Answer.updatedAt a).

(** The document [addDoc] writes for a first submission. *)
Definition newAnswer (now : Timestamp) (questionId : DocId)
    (odId displayName canvasData : string) : Answer.t :=
  {| Answer.questionId := questionId;
     Answer.odId := odId;
     Answer.displayName := displayName;
     Answer.canvasData := canvasData;
     Answer.isCorrect := false;
     Answer.isRevealed := false;
     Answer.updatedAt := now |}.

Definition submitAnswer (autoId : DocId) (now : Timestamp)
    (roomId questionId : DocId) (odId displayName canvasData : string)
  : M (DocId * option Answer.t) :=
  (* Check if answer already exists *)
  existingAnswers <- getDocs (answersRef roomId) (sameAnswer questionId odId) ;;
  match existingAnswers with
  | existingDoc :: _ =>
      (* Update existing answer *)
      updateDoc (answersRef roomId) (fst existingDoc) (withCanvasData canvasData now) ;;;
      updatedDoc <- getDoc (answersRef roomId) (fst existingDoc) ;;
      ret (fst existingDoc, updatedDoc)
  | [] =>
      (* Create new answer *)
      answerRef <- addDoc (answersRef roomId) autoId
                     (newAnswer now questionId odId displayName canvasData) ;;
      answerDoc <- getDoc (answersRef roomId) answerRef ;;
      ret (answerRef, answerDoc)
  end.

Definition toggleAnswerCorrect (roomId answerId : DocId) (isCorrect : bool) : M unit :=
  updateDoc (answersRef roomId) answerId (withIsCorrect isCorrect).

Definition toggleAnswerReveal (roomId answerId : DocId) (isRevealed : bool) : M unit :=
  updateDoc (answersRef roomId) answerId (withIsRevealed isRevealed).

Definition revealAllAnswers (roomId questionId : DocId) : M unit :=
  snapshot <- getDocs (answersRef roomId)
                (fun a => String.eqb (Answer.questionId a) questionId) ;;
  promiseAll (List.map (fun docSnap : string * Answer.t =>
                          updateDoc (answersRef roomId) (fst docSnap) (withIsRevealed true))
                       snapshot) ;;;
  ret tt.

Definition getAnswersForQuestion (roomId questionId : DocId) : M (Coll Answer.t) :=
  getDocs (answersRef roomId) (fun a => String.eqb (Answer.questionId a) questionId).

(** Open answers (reveal all) *)
Definition openAnswers (roomId : DocId) : M unit :=
  updateDoc roomsRef roomId (withStatus open).

Definition getQuestion (roomId questionId : DocId) : M (option (DocId * Question.t)) :=
  questionDoc <- getDoc (questionsRef roomId) questionId ;;
  ret (pair questionId <$> questionDoc).

(** Legacy function - kept for compatibility *)
Definition withParticipantStatus (s : ParticipantStatus) (p : RoomParticipant.t)
  : RoomParticipant.t :=
  RoomParticipant.mk (RoomParticipant.roomId p) (RoomParticipant.odId p)
                     (RoomParticipant.displayName p) (RoomParticipant.photoURL p)
                     s (RoomParticipant.joinedAt p).

Definition updateParticipantStatus (roomId participantId : DocId)
    (status : ParticipantStatus) : M unit :=
  updateDoc (participantsRef roomId) participantId (withParticipantStatus status).

(** Get game history for a user (as host) *)
Definition isHostedBy (hostId : string) (g : GameResult.t) : bool :=
  String.eqb (GameResult.hostId g) hostId.

Definition getGameHistory (hostId : string) : M (Coll GameResult.t) :=
  getDocs gameResultsRef (isHostedBy hostId).

(** Get a single game result *)
Definition getGameResult (resultId : DocId) : M (option (DocId * GameResult.t)) :=
  resultDoc <- getDoc gameResultsRef resultId ;;
  ret (pair resultId <$> resultDoc).

(** ** Operations that use the blob store *)

(** [/:(.*?);/] from just after a colon: the shortest run of characters,
    none a line terminator, that a semicolon follows. *)
Fixpoint untilSemicolon (s : string) : option string :=
  match s with
  | EmptyString => None
  | String c s' =>
      if Ascii.eqb c ";" then Some EmptyString
      else if Ascii.eqb c "010" || Ascii.eqb c "013" then None
      else String c <$> untilSemicolon s'
  end.

(** [s.match(/:(.*?);/)?.[1]]: the group of the leftmost match. *)
Fixpoint matchMime (s : string) : option string :=
  match s with
  | EmptyString => None
  | String c s' =>
      if Ascii.eqb c ":" then
        match untilSemicolon s' with
        | Some g => Some g
        | None => matchMime s'
        end
      else matchMime s'
  end.

Section Backend.

(** [atob] of the browser: the decoded bytes, or [None] where it throws. *)
Variable atob : string -> option string.

(** The fetch URL the blob store hands out for a path. *)
Variable downloadURL : string -> string.

Definition getDownloadURL (path : string) : M string :=
  fun w =>
    match storage w !! path with
    | Some _ => (Ok (downloadURL path), w)
    | None => (Throw (ErrObjectNotFound path), w)
    end.

(** ** Question functions. [uploadOk] is whether the blob store accepts
    the image, [dateNow] the value of [Date.now()]. *)
Definition createQuestion (uploadOk : bool) (dateNow : Timestamp)
    (autoId : DocId) (now : Timestamp)
    (roomId : DocId) (text : string) (imageFile : option File)
  : M (DocId * option Question.t) :=
  imageURL <- match imageFile with
              | Some file =>
                  let imagePath := "rooms/" +:+ roomId +:+ "/questions/"
                                   +:+ pretty dateNow +:+ "_" +:+ name file in
                  uploadBytes uploadOk imagePath (content file) ;;;
                  url <- getDownloadURL imagePath ;;
                  ret (Some url)
              | None => ret None
              end ;;
  questionRef <- addDoc (questionsRef roomId) autoId
                   {| Question.roomId := roomId;
                      Question.text := text;
                      Question.imageURL := imageURL;
                      Question.createdAt := now |} ;;
  (* Set as current question *)
  updateDoc roomsRef roomId (withCurrentQuestion (Some questionRef) questioning) ;;;
  questionDoc <- getDoc (questionsRef roomId) questionRef ;;
  ret (questionRef, questionDoc).

(** Convert base64 to Blob for upload; [None] where [atob] throws. A data
    URL without a comma has no second part, and [atob(undefined)] decodes
    the text "undefined". *)
Definition base64ToBlob (base64 : string) : option Blob :=
  let parts := split "," base64 in
  let mime := orString (matchMime (default EmptyString (parts !! 0%nat))) "image/png" in
  match atob (default "undefined" (parts !! 1%nat)) with
  | Some byteString => Some (mkBlob mime byteString)
  | None => None
  end.

(** [`history/${roomId}/${question.id}/${answer.odId}_${Date.now()}.png`] *)
Definition historyFileName (dateNow : Timestamp) (roomId : DocId)
    (question : DocId * Question.t) (answer : DocId * Answer.t) : string :=
  "history/" +:+ roomId +:+ "/" +:+ fst question +:+ "/"
  +:+ Answer.odId (snd answer) +:+ "_" +:+ pretty dateNow +:+ ".png".

(** The body of the [answers.map(async (answer) => ...)] closure. *)
Definition uploadAnswer (uploadOk : string -> bool) (dateNow : Timestamp)
    (roomId : DocId) (question : DocId * Question.t) (answer : DocId * Answer.t)
  : M GameResultAnswer.t :=
  blob <- orThrow ErrInvalidCharacter (base64ToBlob (Answer.canvasData (snd answer))) ;;
  let fileName := historyFileName dateNow roomId question answer in
  uploadBytes (uploadOk fileName) fileName blob ;;;
  imageURL <- getDownloadURL fileName ;;
  ret {| GameResultAnswer.odId := Answer.odId (snd answer);
         GameResultAnswer.displayName := Answer.displayName (snd answer);
         GameResultAnswer.photoURL := None;
         GameResultAnswer.imageURL := imageURL;
         GameResultAnswer.isCorrect := Answer.isCorrect (snd answer) |}.

(** Whether that closure runs to its end: the drawing decodes and the
    blob store accepts it. *)
Definition uploadSucceeds (uploadOk : string -> bool) (roomId : DocId)
    (question : DocId * Question.t) (dateNow : Timestamp)
    (answer : DocId * Answer.t) : bool :=
  match base64ToBlob (Answer.canvasData (snd answer)) with
  | Some _ => uploadOk (historyFileName dateNow roomId question answer)
  | None => false
  end.

(** What it then returns. *)
Definition savedAnswer (roomId : DocId) (question : DocId * Question.t)
    (dateNow : Timestamp) (answer : DocId * Answer.t) : GameResultAnswer.t :=
  {| GameResultAnswer.odId := Answer.odId (snd answer);
     GameResultAnswer.displayName := Answer.displayName (snd answer);
     GameResultAnswer.photoURL := None;
     GameResultAnswer.imageURL :=
       downloadURL (historyFileName dateNow roomId question answer);
     GameResultAnswer.isCorrect := Answer.isCorrect (snd answer) |}.

(** Save game result to history. [dateNow i] is what [Date.now()] reads
    in the closure of the i-th answer. *)
Definition saveGameResult (uploadOk : string -> bool) (dateNow : nat -> Timestamp)
    (autoId : DocId) (now : Timestamp)
    (roomId : DocId) (roomCode hostId : string)
    (question : DocId * Question.t) (answers : Coll Answer.t)
  : M (DocId * option GameResult.t) :=
  (* Upload each answer's canvas to storage *)
  savedAnswers <- promiseAll
                    (imap (fun i answer =>
                             uploadAnswer uploadOk (dateNow i) roomId question answer)
                          answers) ;;
  resultRef <- addDoc gameResultsRef autoId
                 {| GameResult.roomId := roomId;
                    GameResult.roomCode := roomCode;
                    GameResult.hostId := hostId;
                    GameResult.questionText := Question.text (snd question);
                    GameResult.questionImageURL := Question.imageURL (snd question);
                    GameResult.answers := savedAnswers;
                    GameResult.createdAt := now |} ;;
  resultDoc <- getDoc gameResultsRef resultRef ;;
  ret (resultRef, resultDoc).

(** ** The operations that write the status of a room *)





(** ** Every operation of the module that writes, with its arguments and
    what the environment supplies to it *)

Inductive Call :=
| CreateRoom (autoId : DocId) (random : nat -> Q) (now : Timestamp)
             (hostId : string) (maxParticipants : option Z)
| UpdateRoomStatus (roomId : DocId) (status : RoomStatus)
| ResetRoomToWaiting (roomId : DocId)
| EndRoom (roomId : DocId)
| RequestJoinRoom (autoId : DocId) (now : Timestamp) (roomId : DocId)
                  (odId displayName : string) (photoURL : option string)
| KickParticipant (autoId : DocId) (now : Timestamp) (roomId participantId : DocId)
                  (odId displayName : string) (photoURL : option string)
| UnbanUser (roomId : DocId) (odId : string)
| UpdateParticipantStatus (roomId participantId : DocId) (status : ParticipantStatus)
| CreateQuestion (uploadOk : bool) (dateNow : Timestamp) (autoId : DocId) (now : Timestamp)
                 (roomId : DocId) (text : string) (imageFile : option File)
| SubmitAnswer (autoId : DocId) (now : Timestamp) (roomId questionId : DocId)
               (odId displayName canvasData : string)
| ToggleAnswerCorrect (roomId answerId : DocId) (isCorrect : bool)
| ToggleAnswerReveal (roomId answerId : DocId) (isRevealed : bool)
| RevealAllAnswers (roomId questionId : DocId)
| OpenAnswers (roomId : DocId)
| SaveGameResult (uploadOk : string -> bool) (dateNow : nat -> Timestamp)
                 (autoId : DocId) (now : Timestamp) (roomId : DocId)
                 (roomCode hostId : string) (question : DocId * Question.t)
                 (answers : Coll Answer.t).

(** The world a call leaves, whether it returns or throws. *)
Definition call (w : World) (c : Call) : World :=
  match c with
  | CreateRoom autoId random now hostId maxParticipants =>
      snd (createRoom autoId random now hostId maxParticipants w)
  | UpdateRoomStatus roomId status => snd (updateRoomStatus roomId status w)
  | ResetRoomToWaiting roomId => snd (resetRoomToWaiting roomId w)
  | EndRoom roomId => snd (endRoom roomId w)
  | RequestJoinRoom autoId now roomId odId displayName photoURL =>
      snd (requestJoinRoom autoId now roomId odId displayName photoURL w)
  | KickParticipant autoId now roomId participantId odId displayName photoURL =>
      snd (kickParticipant autoId now roomId participantId odId displayName photoURL w)
  | UnbanUser roomId odId => snd (unbanUser roomId odId w)
  | UpdateParticipantStatus roomId participantId status =>
      snd (updateParticipantStatus roomId participantId status w)
  | CreateQuestion uploadOk dateNow autoId now roomId text imageFile =>
      snd (createQuestion uploadOk dateNow autoId now roomId text imageFile w)
  | SubmitAnswer autoId now roomId questionId odId displayName canvasData =>
      snd (submitAnswer autoId now roomId questionId odId displayName canvasData w)
  | ToggleAnswerCorrect roomId answerId isCorrect =>
      snd (toggleAnswerCorrect roomId answerId isCorrect w)
  | ToggleAnswerReveal roomId answerId isRevealed =>
      snd (toggleAnswerReveal roomId answerId isRevealed w)
  | RevealAllAnswers roomId questionId => snd (revealAllAnswers roomId questionId w)
  | OpenAnswers roomId => snd (openAnswers roomId w)
  | SaveGameResult uploadOk dateNow autoId now roomId roomCode hostId question answers =>
      snd (saveGameResult uploadOk dateNow autoId now roomId roomCode hostId question answers w)
  end.

Definition calls (cs : list Call) (w : World) : World :=
  foldl call w cs.

End Backend.

(** ** Vocabulary of the properties *)

(** [roomData?.maxParticipants || MAX_PARTICIPANTS] for the room as it is
    in the world. *)
Definition effectiveMax (roomId : DocId) (w : World) : Z :=
  orNumber (Room.maxParticipants <$> docData roomId (rooms w)) MAX_PARTICIPANTS.

(** At most one participant record per identity in the room. *)
Definition oneRecordEach (roomId : DocId) (w : World) : Prop :=
  forall odId,
    (length (whereDocs (isParticipant odId) (participants w !!! roomId)) <= 1)%nat.

(** No identity on the ban list of the room has a participant record. *)
Definition bannedAreOut (roomId : DocId) (w : World) : Prop :=
  forall odId,
    whereDocs (isBanned odId) (bannedUsers w !!! roomId) <> [] ->
    whereDocs (isParticipant odId) (participants w !!! roomId) = [].

(** The current question of every room is a question of that room. *)
Definition currentQuestionsExist (w : World) : Prop :=
  forall roomId r q,
    docData roomId (rooms w) = Some r ->
    Room.currentQuestionId r = Some q ->
    is_Some (docData q (questions w !!! roomId)).

(** What a room keeps for life: its host, its code, its capacity and the
    time of its creation. *)
Definition sameRoom (r r' : Room.t) : Prop :=
  Room.hostId r' = Room.hostId r /\ Room.roomCode r' = Room.roomCode r
  /\ Room.maxParticipants r' = Room.maxParticipants r
  /\ Room.createdAt r' = Room.createdAt r.

(** The documents left once those of a snapshot are updated one by one. *)
Definition modifyDocs {A B} (snapshot : list (string * B)) (f : A -> A) (c : Coll A)
  : Coll A :=
  foldl (fun c d => modifyDoc (fst d) f c) c snapshot.

(** What an operation may do to the world [w] it finds: a room stays, with
    its host, code, capacity and date, and its current question stays, is
    cleared, or is a question of the room; a room that is new has no
    current question; questions and game results stay as they are; and the
    participants of a room that is within its maximum stay within it. *)
Definition keeps (w w' : World) : Prop :=
  (forall id r, docData id (rooms w) = Some r ->
     exists r', docData id (rooms w') = Some r' /\ sameRoom r r'
           /\ (Room.currentQuestionId r' = Room.currentQuestionId r
                \/ Room.currentQuestionId r' = None
                \/ exists q, Room.currentQuestionId r' = Some q
                             /\ is_Some (docData q (questions w' !!! id))))
  /\ (forall id r', docData id (rooms w') = Some r' -> docData id (rooms w) = None ->
                    Room.currentQuestionId r' = None)
  /\ (forall roomId q x, docData q (questions w !!! roomId) = Some x ->
                         docData q (questions w' !!! roomId) = Some x)
  /\ (forall id g, docData id (gameResults w) = Some g ->
                   docData id (gameResults w') = Some g)
  /\ (forall roomId, is_Some (docData roomId (rooms w)) ->
         Z.of_nat (length (participants w !!! roomId)) <= effectiveMax roomId w ->
         Z.of_nat (length (participants w' !!! roomId)) <= effectiveMax roomId w).

(** The answers of a room once those of a question are revealed. *)
Definition revealed (questionId : DocId) (c : Coll Answer.t) : Coll Answer.t :=
  List.map (fun kv : string * Answer.t =>
              if String.eqb (Answer.questionId (snd kv)) questionId
              then (fst kv, withIsRevealed true (snd kv)) else kv) c.



(** A call of [submitAnswer] with what the environment supplies to it. *)
Record SubmitCall := mkSubmitCall {
  callAutoId : DocId;
  callNow : Timestamp;
  callRoomId : DocId;
  callQuestionId : DocId;
  callOdId : string;
  callDisplayName : string;
  callCanvasData : string;
}.

Definition submitCall (w : World) (c : SubmitCall) : World :=
  snd (submitAnswer (callAutoId c) (callNow c) (callRoomId c) (callQuestionId c)
         (callOdId c) (callDisplayName c) (callCanvasData c) w).

Definition submitCalls (cs : list SubmitCall) (w : World) : World :=
  foldl submitCall w cs.

(** At most one answer per (question, identity), in every room. *)
Definition oneAnswerEach (w : World) : Prop :=
  forall roomId questionId odId,
    (length (whereDocs (sameAnswer questionId odId) (answers w !!! roomId)) <= 1)%nat.

(** The documents left once those of a snapshot are deleted. *)
Definition removeDocs {A B} (snapshot : list (string * B)) (c : Coll A) : Coll A :=
  fold_left (fun c d => removeDoc (fst d) c) snapshot c.

(** The documents of two worlds are the same (the blob store and the log
    of writes may differ). *)
Definition sameDocuments (w w' : World) : Prop :=
  rooms w' = rooms w /\ participants w' = participants w
  /\ bannedUsers w' = bannedUsers w /\ questions w' = questions w
  /\ answers w' = answers w /\ gameResults w' = gameResults w.

(** The characters left out of the alphabet of room codes because they are
    easily mistaken for others. *)
Definition ambiguous : list ascii := ["I"; "O"; "0"; "1"]%char.

(** Every character of a code is of the alphabet, and none is ambiguous. *)
Definition codeChars (code : string) : Prop :=
  forall c, In c (list_ascii_of_string code) ->
            In c (list_ascii_of_string chars) /\ ~ In c ambiguous.

End Firestore.

(* ===================================================================== *)
(** * The host page: the handlers that drive the store *)
(* ===================================================================== *)

Module HostPage.
Import Firestore.

(** A non-empty id: [room?.currentQuestionId] used as a condition. *)
Definition truthy (x : option string) : bool :=
  match x with
  | Some EmptyString => false
  | Some _ => true
  | None => false
  end.

Section Page.

Variable atob : string -> option string.
Variable downloadURL : string -> string.

(** The room of the page and the signed-in user ([user.uid]). *)
Variable roomId : DocId.
Variable user : option string.

(** The state the subscriptions keep in step with the store. *)
Definition room (w : World) : option (DocId * Room.t) :=
  pair roomId <$> docData roomId (rooms w).

Definition currentQuestionId (w : World) : option DocId :=
  match room w with
  | Some r => Room.currentQuestionId (snd r)
  | None => None
  end.

Definition roomStatus (w : World) : option RoomStatus :=
  Room.status <$> docData roomId (rooms w).


(** Delivered by [subscribeToAnswers] for the current question. *)
Definition answers (w : World) : Coll Answer.t :=
  match currentQuestionId w with
  | Some qid =>
      whereDocs (fun a => String.eqb (Answer.questionId a) qid) (answers w !!! roomId)
  | None => []
  end.

Definition handleKick (confirmed : bool) (autoId : DocId) (now : Timestamp)
    (participant : DocId * RoomParticipant.t) (w : World) : World :=
  if negb confirmed then w
  else snd (tryCatch (kickParticipant autoId now roomId (fst participant)
                        (RoomParticipant.odId (snd participant))
                        (RoomParticipant.displayName (snd participant))
                        (RoomParticipant.photoURL (snd participant))) w).

Definition handleUnban (confirmed : bool) (odId : string) (w : World) : World :=
  if negb confirmed then w
  else snd (tryCatch (unbanUser roomId odId) w).


(** ** Loading the page *)

(** What [loadRoom] leaves: a redirection to the home page (no user), an
    error, the room of the host, or the loading screen for good where
    [getRoom] rejects (nothing catches it). *)
Inductive Loaded :=
| Redirected
| Refused (error : string)
| Hosting (roomData : DocId * Room.t)
| Loading.

Definition loadRoom (w : World) : Loaded :=
  match user with
  | None => Redirected
  | Some uid =>
      match fst (getRoom roomId w) with
      | Ok (Some roomData) =>
          if negb (String.eqb (Room.hostId (snd roomData)) uid)
          then Refused "このルームの司会者ではありません"
          else Hosting roomData
      | Ok None => Refused "ルームが見つかりません"
      | Throw _ => Loading
      end
  end.

(** ** The lists of the page and their buttons *)

(** Delivered by [subscribeToParticipants] and [subscribeToBannedUsers]. *)
Definition participants (w : World) : Coll RoomParticipant.t :=
  Firestore.participants w !!! roomId.

Definition bannedUsers (w : World) : list BannedUser.t :=
  List.map snd (Firestore.bannedUsers w !!! roomId).

Definition handleToggleCorrect (answerId : DocId) (currentState : bool) (w : World) : World :=
  snd (toggleAnswerCorrect roomId answerId (negb currentState) w).

Definition handleToggleReveal (answerId : DocId) (currentState : bool) (w : World) : World :=
  snd (toggleAnswerReveal roomId answerId (negb currentState) w).

Definition handleRevealAll (confirmed : bool) (w : World) : World :=
  match currentQuestionId w with
  | Some qid =>
      if negb (truthy (Some qid)) then w
      else if negb confirmed then w
      else snd (revealAllAnswers roomId qid w)
  | None => w
  end.

(** [handleCopyCode]: the text written to the clipboard, if any. *)
Definition handleCopyCode (origin : string) (w : World) : option string :=
  match room w with
  | Some r =>
      match Room.roomCode (snd r) with
      | EmptyString => None
      | code => Some (origin +:+ "/?code=" +:+ code)
      end
  | None => None
  end.

(** The two buttons of the i-th answer card; the grid is rendered when
    the room has a current question, and the reveal button is disabled
    while the room is 'questioning'. *)
Definition clickToggleCorrect (i : nat) (w : World) : World :=
  if truthy (currentQuestionId w) then
    match answers w !! i with
    | Some answer => handleToggleCorrect (fst answer) (Answer.isCorrect (snd answer)) w
    | None => w
    end
  else w.

Definition clickToggleReveal (i : nat) (w : World) : World :=
  if truthy (currentQuestionId w) && negb (bool_decide (roomStatus w = Some questioning)) then
    match answers w !! i with
    | Some answer => handleToggleReveal (fst answer) (Answer.isRevealed (snd answer)) w
    | None => w
    end
  else w.

(** What happens to the people of a room: a visitor asks to join (from the
    home page or the answer page, which both catch the rejection), the host
    clicks the kick button of the i-th participant listed, or the unban
    button of the i-th banned user listed. *)
Inductive Visit :=
| Join (autoId : DocId) (now : Timestamp) (odId displayName : string)
       (photoURL : option string)
| KickClick (i : nat) (confirmed : bool) (autoId : DocId) (now : Timestamp)
| UnbanClick (i : nat) (confirmed : bool).

Definition visit (w : World) (v : Visit) : World :=
  match v with
  | Join autoId now odId displayName photoURL =>
      snd (requestJoinRoom autoId now roomId odId displayName photoURL w)
  | KickClick i confirmed autoId now =>
      match participants w !! i with
      | Some p => handleKick confirmed autoId now p w
      | None => w
      end
  | UnbanClick i confirmed =>
      match bannedUsers w !! i with
      | Some b => handleUnban confirmed (BannedUser.odId b) w
      | None => w
      end
  end.

Definition visits (vs : list Visit) (w : World) : World :=
  foldl visit w vs.

End Page.

End HostPage.

(* ===================================================================== *)
(** * The home page: creating a room, pasting an invitation *)
(* ===================================================================== *)

Module HomePage.
Import Firestore.

(** ** The number field of the room size *)

(** White space that [parseInt] skips, among the characters below 256. *)
Definition isStrWhiteSpace (c : ascii) : bool :=
  let n := nat_of_ascii c in
  (n =? 32)%nat || ((9 <=? n)%nat && (n <=? 13)%nat) || (n =? 160)%nat.

Fixpoint skipWhiteSpace (s : string) : string :=
  match s with
  | EmptyString => EmptyString
  | String c s' => if isStrWhiteSpace c then skipWhiteSpace s' else s
  end.

(** The value of a digit in the radix, if it is one. *)
Definition digitValue (radix : Z) (c : ascii) : option Z :=
  let n := Z.of_nat (nat_of_ascii c) in
  let v := if (48 <=? n) && (n <=? 57) then Some (n - 48)
           else if (97 <=? n) && (n <=? 122) then Some (n - 87)
           else if (65 <=? n) && (n <=? 90) then Some (n - 55)
           else None in
  match v with
  | Some d => if d <? radix then Some d else None
  | None => None
  end.

(** The digits at the front of [s]; [acc] is the number read so far,
    [None] while no digit has been read. *)
Fixpoint parseDigits (radix : Z) (s : string) (acc : option Z) : option Z :=
  match s with
  | EmptyString => acc
  | String c s' =>
      match digitValue radix c with
      | Some d => parseDigits radix s' (Some (radix * default 0 acc + d))
      | None => acc
      end
  end.

(** [parseInt(s)]: white space, a sign, [0x] for radix 16, then digits;
    [None] is NaN. The integer is exact here where the language rounds it
    to a double, which happens above 2^53 only. *)
Definition parseInt (s : string) : option Z :=
  let s1 := skipWhiteSpace s in
  let '(sign, s2) := match s1 with
                     | String "-" t => (-1, t)
                     | String "+" t => (1, t)
                     | _ => (1, s1)
                     end in
  let '(radix, s3) := match s2 with
                      | String "0" (String x t) =>
                          if Ascii.eqb x "x" || Ascii.eqb x "X" then (16, t) else (10, s2)
                      | _ => (10, s2)
                      end in
  match parseDigits radix s3 None with
  | Some n => Some (sign * n)
  | None => None
  end.

(** [useState(10)] *)
Definition initialMaxParticipants : Z := 10.

(** [Math.min(100, Math.max(1, parseInt(e.target.value) || 1))] *)
Definition setMaxParticipants (value : string) : Z :=
  Z.min 100 (Z.max 1 (orNumber (parseInt value) 1)).

(** The state after the field has taken the values, oldest first. *)
Definition maxParticipants (values : list string) : Z :=
  foldl (fun _ value => setMaxParticipants value) initialMaxParticipants values.

(** ** The two handlers *)

(** What the page does next: nothing, a navigation, or an error shown. *)
Inductive Reaction :=
| Stay
| Push (route : string)
| ShowError (text : string).

Definition handleCreateRoom (user : option string) (userProfile : bool)
    (maxParticipants : Z) (autoId : DocId) (random : nat -> Q) (now : Timestamp)
    (w : World) : Reaction * World :=
  match user with
  | Some uid =>
      if negb userProfile then (Stay, w)
      else match createRoom autoId random now uid (Some maxParticipants) w with
           | (Ok room, w') => (Push ("/room/" +:+ fst room +:+ "/host"), w')
           | (Throw _, w') => (ShowError "ルームの作成に失敗しました", w')
           end
  | None => (Stay, w)
  end.

(** ** Pasting into the code field *)

(** A character of [[A-Z0-9]] under the flag [i]. *)
Definition isAlnum (c : ascii) : bool :=
  let n := nat_of_ascii c in
  ((48 <=? n)%nat && (n <=? 57)%nat) || ((65 <=? n)%nat && (n <=? 90)%nat)
  || ((97 <=? n)%nat && (n <=? 122)%nat).

(** [[A-Z0-9]{6}] at the front of [s]: the six characters. *)
Definition sixAlnum (s : string) : option string :=
  let g := substring 0 6 s in
  if (String.length g =? 6)%nat && forallb isAlnum (list_ascii_of_string g)
  then Some g else None.

(** [s.match(/[?&]code=([A-Z0-9]{6})/i)]: group 1 of the leftmost match. *)
Fixpoint matchCode (s : string) : option string :=
  match s with
  | EmptyString => None
  | String c s' =>
      let here :=
        if (Ascii.eqb c "?" || Ascii.eqb c "&")
           && String.eqb (toUpperCase (substring 0 5 s')) "CODE="
        then sixAlnum (substring 5 (String.length s') s')
        else None in
      match here with
      | Some g => Some g
      | None => matchCode s'
      end
  end.

(** [/^[A-Z0-9]{6}$/i.test(s)] *)
Definition isCode (s : string) : bool :=
  (String.length s =? 6)%nat && forallb isAlnum (list_ascii_of_string s).

Fixpoint includesChar (c : ascii) (s : string) : bool :=
  match s with
  | EmptyString => false
  | String c' s' => Ascii.eqb c' c || includesChar c s'
  end.

(** [handlePaste]: the room code it sets (and then prevents the default
    paste), or [None] where it leaves the paste to the field. *)
Definition handlePaste (pastedText : string) : option string :=
  (* Extract room code from URL like ...?code=ABC123 or just the code at the end *)
  match matchCode pastedText with
  | Some g => Some (toUpperCase g)
  | None =>
      if includesChar "/" pastedText && (6 <? String.length pastedText)%nat then
        (* If it looks like a URL but doesn't have ?code=, try to find a 6-char code *)
        let possibleCode :=
          default EmptyString
            (head (split "?" (default EmptyString (last (split "/" pastedText))))) in
        if negb (String.eqb possibleCode EmptyString) && isCode possibleCode
        then Some (toUpperCase possibleCode)
        else None
      else None
  end.

(** A decimal digit. *)
Definition isDecimalDigit (c : ascii) : bool :=
  let n := nat_of_ascii c in (48 <=? n)%nat && (n <=? 57)%nat.

(** An upper-case letter or a digit. *)
Definition isUpperOrDigit (c : ascii) : bool :=
  let n := nat_of_ascii c in
  ((48 <=? n)%nat && (n <=? 57)%nat) || ((65 <=? n)%nat && (n <=? 90)%nat).

End HomePage.

(* ===================================================================== *)
(** * The profile of the user: signing in, saving the settings *)
(* ===================================================================== *)

Module AuthContext.

(** The user of the identity provider. *)
Record User := mkUser {
  uid : string;
  email : option string;
  displayName : option string;
  photoURL : option string;
}.

(** A profile as a document holds it and as the state holds it: a field
    may be missing ([None]), and [email], [displayName] and [photoURL] may
    be null ([Some None]). [Partial<UserProfile>] is of the same shape. *)
Record UserProfile := mkUserProfile {
  profileUid : option string;
  profileEmail : option (option string);
  profileDisplayName : option (option string);
  profilePhotoURL : option (option string);
  createdAt : option Z;
}.

(** [{ ...prev, ...data }], and what [setDoc] with [merge] leaves. *)
Definition merge (prev data : UserProfile) : UserProfile :=
  {| profileUid := match profileUid data with Some x => Some x | None => profileUid prev end;
     profileEmail :=
       match profileEmail data with Some x => Some x | None => profileEmail prev end;
     profileDisplayName :=
       match profileDisplayName data with
       | Some x => Some x
       | None => profileDisplayName prev
       end;
     profilePhotoURL :=
       match profilePhotoURL data with Some x => Some x | None => profilePhotoURL prev end;
     createdAt := match createdAt data with Some x => Some x | None => createdAt prev end |}.

Definition noFields : UserProfile := mkUserProfile None None None None None.

(** The collection [users], and the state of the provider. *)
Record State := mkState {
  users : gmap string UserProfile;
  user : option User;
  userProfile : option UserProfile;
  loading : bool;
}.

Definition initial (users : gmap string UserProfile) : State :=
  mkState users None None true.

(** The callback of [onAuthStateChanged]; [now] is the server time. *)
Definition onAuthStateChanged (now : Z) (firebaseUser : option User) (st : State) : State :=
  match firebaseUser with
  | Some u =>
      (* Get or create user profile *)
      match users st !! uid u with
      | Some data => mkState (users st) (Some u) (Some data) false
      | None =>
          (* Create new user profile *)
          let newProfile :=
            {| profileUid := Some (uid u);
               profileEmail := Some (email u);
               profileDisplayName := Some (displayName u);
               profilePhotoURL := Some (photoURL u);
               createdAt := None |} in
          mkState (<[uid u := merge newProfile (mkUserProfile None None None None (Some now))]>
                     (users st))
                  (Some u) (Some newProfile) false
      end
  | None => mkState (users st) None None false
  end.

(** [signOut]: the provider then reports that nobody is signed in. *)
Definition signOut (st : State) : State :=
  mkState (users st) None None false.

Definition updateProfile (data : UserProfile) (st : State) : State :=
  match user st with
  | None => st
  | Some u =>
      mkState (<[uid u := merge (default noFields (users st !! uid u)) data]> (users st))
              (user st)
              (match userProfile st with
               | Some prev => Some (merge prev data)
               | None => None
               end)
              (loading st)
  end.

(** [handleSave] of the settings page: the two fields of its form. *)
Definition handleSave (displayName photoURL : string) (st : State) : State :=
  updateProfile (mkUserProfile None None (Some (Some displayName)) (Some (Some photoURL)) None)
                st.

(** The state holds what the document holds, but for the date of creation. *)
Definition inStep (st : State) : Prop :=
  match user st, userProfile st with
  | Some u, Some profile =>
      exists data, users st !! uid u = Some data
                   /\ profileUid profile = profileUid data
                   /\ profileEmail profile = profileEmail data
                   /\ profileDisplayName profile = profileDisplayName data
                   /\ profilePhotoURL profile = profilePhotoURL data
  | None, Some _ => False
  | _, None => True
  end.

(** What can happen to the provider. *)
Inductive Event :=
| AuthStateChanged (now : Z) (firebaseUser : option User)
| SignOut
| UpdateProfile (data : UserProfile)
| Save (displayName photoURL : string).

Definition step (st : State) (ev : Event) : State :=
  match ev with
  | AuthStateChanged now firebaseUser => onAuthStateChanged now firebaseUser st
  | SignOut => signOut st
  | UpdateProfile data => updateProfile data st
  | Save displayName photoURL => handleSave displayName photoURL st
  end.

Definition run (evs : list Event) (st : State) : State :=
  foldl step st evs.

End AuthContext.

(* ===================================================================== *)
(** * The history page: the results of a host, newest first *)
(* ===================================================================== *)

Module HistoryPage.
Import Firestore.

(** [a.createdAt?.toMillis?.() || 0] *)
Definition millis (g : DocId * GameResult.t) : Z :=
  orNumber (Some (GameResult.createdAt (snd g))) 0.

(** [(a, b) => bTime - aTime] *)
Definition compareFn (a b : DocId * GameResult.t) : Z :=
  millis b - millis a.

(** [results.sort(compareFn)]. The sort of an array is stable, and the
    comparison is a total preorder, so the result is the one below: each
    element, from the last, is put before the first one it does not
    follow. *)
Fixpoint insertSorted (x : DocId * GameResult.t) (l : list (DocId * GameResult.t))
  : list (DocId * GameResult.t) :=
  match l with
  | [] => [x]
  | y :: l' => if compareFn x y <=? 0 then x :: y :: l' else y :: insertSorted x l'
  end.

Definition sort (l : list (DocId * GameResult.t)) : list (DocId * GameResult.t) :=
  foldr insertSorted [] l.

(** Newer first. *)
Definition newerFirst (x y : DocId * GameResult.t) : Prop :=
  GameResult.createdAt (snd y) <= GameResult.createdAt (snd x).

(** [loadHistory]: what [setHistory] receives; the list stays empty when
    the query throws. *)
Definition loadHistory (uid : string) (w : World) : list (DocId * GameResult.t) :=
  match getGameHistory uid w with
  | (Ok results, _) => sort results
  | (Throw _, _) => []
  end.

End HistoryPage.

(* ===================================================================== *)
(** * A session, step by step *)
(* ===================================================================== *)

(** One room, a host and three participants, run on the model. The worlds
    below are the states the session goes through. *)
Module Session.
Import Firestore.

(** A decoder that accepts every text, and the URL of a path. *)
Definition atob (s : string) : option string := Some s.
Definition downloadURL (path : string) : string := "https://blobs.example/" +:+ path.

(** [Math.random()] that always returns one half. *)
Definition random (i : nat) : Q := 1 # 2.

(** The host creates a room for two. *)
Definition created : World :=
  snd (createRoom "room1" random 1000 "host1" (Some 2) emptyWorld).

(** Ann (u1) and Bob (u2) join. *)
Definition joined : World :=
  snd (requestJoinRoom "p2" 1002 "room1" "u2" "Bob" None
         (snd (requestJoinRoom "p1" 1001 "room1" "u1" "Ann" None created))).

(** The host kicks Bob, then Cy (u3) joins: the room is full again. *)
Definition kicked : World :=
  snd (kickParticipant "b1" 1003 "room1" "p2" "u2" "Bob" None joined).

Definition full : World :=
  snd (requestJoinRoom "p3" 1004 "room1" "u3" "Cy" None kicked).

(** A ban on Ann that names a participant record that is not hers: she is
    on the ban list and still a participant. *)
Definition bannedMember : World :=
  snd (kickParticipant "b2" 1005 "room1" "p0" "u1" "Ann" None full).

(** The host poses a question; Ann and Cy answer; the host marks Ann's
    answer correct and reveals it. *)
Definition asked : World :=
  snd (createQuestion downloadURL true 1006 "q1" 1007 "room1" "2 + 2 = ?" None full).

Definition drawingOfAnn : string := "data:image/png;base64,AAAA".
Definition drawingOfCy : string := "data:image/png;base64,BBBB".

Definition answered : World :=
  snd (submitAnswer "a3" 1009 "room1" "q1" "u3" "Cy" drawingOfCy
         (snd (submitAnswer "a1" 1008 "room1" "q1" "u1" "Ann" drawingOfAnn asked))).

Definition marked : World :=
  snd (toggleAnswerReveal "room1" "a1" true
         (snd (toggleAnswerCorrect "room1" "a1" true answered))).

(** The question is closed and its result saved; a second result of the
    same host and one of another host follow. *)
Definition theQuestion : DocId * Question.t :=
  ("q1", Question.mk "room1" "2 + 2 = ?" None 1007).

Definition archived : World :=
  snd (saveGameResult atob downloadURL (fun _ => true) (fun i => 2000 + Z.of_nat i)
         "g1" 2010 "room1" "SSSSSS" "host1" theQuestion (answers marked !!! "room1") marked).

Definition archivedAgain : World :=
  snd (saveGameResult atob downloadURL (fun _ => true) (fun i => 3000 + Z.of_nat i)
         "g3" 2015 "room2" "TTTTTT" "host2" theQuestion []
         (snd (saveGameResult atob downloadURL (fun _ => true) (fun i => 2500 + Z.of_nat i)
                 "g2" 2020 "room1" "SSSSSS" "host1" theQuestion [] archived))).

(** What happened to the people of the room, as visits of the pages. *)
Definition people : list HostPage.Visit :=
  [HostPage.Join "p1" 1001 "u1" "Ann" None;
   HostPage.Join "p2" 1002 "u2" "Bob" None;
   HostPage.KickClick 1 true "b1" 1003;
   HostPage.Join "p3" 1004 "u3" "Cy" None;
   HostPage.Join "p4" 1005 "u2" "Bob" None].

(** The session so far, as calls of the store. *)
Definition story : list Call :=
  [CreateRoom "room1" random 1000 "host1" (Some 2);
   RequestJoinRoom "p1" 1001 "room1" "u1" "Ann" None;
   RequestJoinRoom "p2" 1002 "room1" "u2" "Bob" None;
   KickParticipant "b1" 1003 "room1" "p2" "u2" "Bob" None;
   RequestJoinRoom "p3" 1004 "room1" "u3" "Cy" None;
   RequestJoinRoom "p5" 1005 "room1" "u5" "Eve" None;
   CreateQuestion true 1006 "q1" 1007 "room1" "2 + 2 = ?" None;
   SubmitAnswer "a1" 1008 "room1" "q1" "u1" "Ann" drawingOfAnn;
   OpenAnswers "room1";
   ResetRoomToWaiting "room1"].

(** Ann as the identity provider knows her. *)
Definition ann : AuthContext.User :=
  AuthContext.mkUser "u1" (Some "ann@example.org") (Some "Ann G.") None.

(** The card of a drawing of two pixels: a black stroke on white. *)
Definition drawing : Broadcast.Canvas :=
  Broadcast.mkCanvas 2 1 [0; 0; 0; 255; 255; 255; 255; 255].

(** A drawing surface of one pixel whose strokes paint it black. *)
Definition surface : DrawingCanvas.Props :=
  DrawingCanvas.mkProps 1 1 "#ffffff" "#000000" 4 true false.

Definition paintWhite (ctx : DrawingCanvas.Context unit) (w h : Z) (r : list Z) : list Z :=
  [255; 255; 255; 255].
Definition paintBlack (ctx : DrawingCanvas.Context unit) (r : list Z) : list Z :=
  [0; 0; 0; 255].
Definition encode (r : list Z) : string :=
  match r with
  | 0 :: _ => "data:black"
  | _ => "data:white"
  end.

(** The same surface, disabled. *)
Definition locked : DrawingCanvas.Props :=
  DrawingCanvas.mkProps 1 1 "#ffffff" "#000000" 4 true true.

(** Mounted, and one stroke finished. *)
Definition firstStroke : list (DrawingCanvas.Event unit) :=
  [DrawingCanvas.Mount true;
   DrawingCanvas.StartDrawing (Some tt); DrawingCanvas.Draw (Some tt);
   DrawingCanvas.StopDrawing].

(** Mounted, one stroke finished, a second one under way. *)
Definition strokes : list (DrawingCanvas.Event unit) :=
  [DrawingCanvas.Mount true;
   DrawingCanvas.StartDrawing (Some tt); DrawingCanvas.Draw (Some tt);
   DrawingCanvas.StopDrawing;
   DrawingCanvas.StartDrawing (Some tt); DrawingCanvas.Draw (Some tt)].

End Session.

(* ===================================================================== *)
(** * Properties *)
(* ===================================================================== *)

(** ** The recolour transform *)

Section RecolorFacts.
Import Broadcast.

Lemma recolorStep_length i d : length (recolorStep i d) = length d.
Proof.
  unfold recolorStep. destruct (lt128 _ && lt128 _ && lt128 _);
    rewrite ?length_insert; reflexivity.
Qed.

Lemma recolorStep_outside i d j :
  (j < i ∨ i + 4 ≤ j)%nat → recolorStep i d !! j = d !! j.
Proof.
  intros Hj. unfold recolorStep.
  destruct (lt128 _ && lt128 _ && lt128 _);
    rewrite ?list_lookup_insert_ne by lia; reflexivity.
Qed.

Lemma recolorLoop_length fuel : ∀ i d, length (recolorLoop fuel i d) = length d.
Proof.
  induction fuel as [|fuel IH]; intros i d; simpl; [reflexivity|].
  destruct (i <? length d)%nat; [|reflexivity].
  rewrite IH. apply recolorStep_length.
Qed.

Lemma recolorLoop_below fuel : ∀ i d j,
  (j < i)%nat → recolorLoop fuel i d !! j = d !! j.
Proof.
  induction fuel as [|fuel IH]; intros i d j Hj; simpl; [reflexivity|].
  destruct (i <? length d)%nat; [|reflexivity].
  rewrite IH by lia. apply recolorStep_outside. lia.
Qed.

(** What the body writes at offset [o] depends on the four bytes there. *)
Lemma recolorStep_local o d1 d2 k :
  (k < 4)%nat →
  (∀ k', (k' < 4)%nat → d1 !! (o + k')%nat = d2 !! (o + k')%nat) →
  recolorStep o d1 !! (o + k)%nat = recolorStep o d2 !! (o + k)%nat.
Proof.
  intros Hk Hagree.
  assert (H0 : d1 !! o = d2 !! o).
  { specialize (Hagree 0%nat). rewrite Nat.add_0_r in Hagree. apply Hagree. lia. }
  assert (Hlen : ∀ k', (k' < 4)%nat → (o + k' < length d1)%nat ↔ (o + k' < length d2)%nat).
  { intros k' Hk'. specialize (Hagree k' Hk').
    destruct (d1 !! (o + k')%nat) as [x|] eqn:E1.
    - symmetry in Hagree. apply lookup_lt_Some in E1, Hagree. lia.
    - symmetry in Hagree. apply lookup_ge_None in E1, Hagree. lia. }
  unfold recolorStep.
  rewrite <- H0, <- (Hagree 1%nat), <- (Hagree 2%nat) by lia.
  pose proof (Hlen 0%nat) as L0. pose proof (Hlen 1%nat) as L1.
  pose proof (Hlen 2%nat) as L2. pose proof (Hlen 3%nat) as L3.
  rewrite Nat.add_0_r in L0.
  destruct (lt128 _ && lt128 _ && lt128 _);
    rewrite !list_lookup_insert, ?length_insert;
    repeat case_decide; try reflexivity; try lia; apply Hagree; lia.
Qed.

Lemma recolorLoop_at q : ∀ fuel i d k,
  (q < fuel)%nat → (i + 4 * q < length d)%nat → (k < 4)%nat →
  recolorLoop fuel i d !! (i + 4 * q + k)%nat
  = recolorStep (i + 4 * q) d !! (i + 4 * q + k)%nat.
Proof.
  induction q as [|q IH]; intros fuel i d k Hfuel Hlen Hk;
    (destruct fuel as [|fuel]; [lia|]); simpl recolorLoop.
  - replace (i + 4 * 0)%nat with i in * by lia.
    destruct (Nat.ltb_spec i (length d)); [|lia].
    apply recolorLoop_below. lia.
  - destruct (Nat.ltb_spec i (length d)); [|lia].
    replace (i + 4 * S q)%nat with (i + 4 + 4 * q)%nat by lia.
    rewrite IH by (rewrite ?recolorStep_length; lia).
    apply recolorStep_local; [lia|].
    intros k' Hk'. apply recolorStep_outside. lia.
Qed.

Lemma recolor_pixel d p px :
  pixelAt d p = Some px → pixelAt (recolor d) p = Some (recolorPixel px).
Proof.
  unfold pixelAt. intros H.
  destruct (d !! (4 * p)%nat) as [r|] eqn:Er; [|discriminate].
  destruct (d !! (4 * p + 1)%nat) as [g|] eqn:Eg; [|discriminate].
  destruct (d !! (4 * p + 2)%nat) as [b|] eqn:Eb; [|discriminate].
  destruct (d !! (4 * p + 3)%nat) as [a|] eqn:Ea; [|discriminate].
  inversion H; subst px; clear H.
  pose proof (lookup_lt_Some _ _ _ Er) as Lr.
  pose proof (lookup_lt_Some _ _ _ Eg) as Lg.
  pose proof (lookup_lt_Some _ _ _ Eb) as Lb.
  pose proof (lookup_lt_Some _ _ _ Ea) as La.
  assert (Hat : ∀ k, (k < 4)%nat →
            recolor d !! (4 * p + k)%nat = recolorStep (4 * p) d !! (4 * p + k)%nat).
  { intros k Hk. unfold recolor.
    apply (recolorLoop_at p (length d) 0%nat d k); lia. }
  pose proof (Hat 0%nat) as H0. rewrite Nat.add_0_r in H0.
  rewrite H0, (Hat 1%nat), (Hat 2%nat), (Hat 3%nat) by lia.
  unfold recolorStep, recolorPixel, isInk. rewrite Er, Eg, Eb. simpl lt128.
  destruct ((r <? 128) && (g <? 128) && (b <? 128));
    rewrite !list_lookup_insert, ?length_insert;
    repeat case_decide; try lia; rewrite ?Er, ?Eg, ?Eb, ?Ea; reflexivity.
Qed.
(** C1: the loop turns every ink pixel of the source (r, g and b all below
    128) white and leaves its alpha as it was, so an opaque ink pixel comes
    out opaque white; it makes every other pixel fully transparent and
    leaves its colour; and the canvas of the card keeps its 320 x 240,
    whatever the size of the image. *)
Theorem recolor_ink_white_rest_transparent
    (composite : Canvas -> Z -> Z -> list Z -> list Z)
    (isCorrect : bool) (img : Canvas) (p : nat) (r g b a : Z) :
  pixelAt (data img) p = Some (r, g, b, a) →
  (r < 128 → g < 128 → b < 128 →
     pixelAt (data (tempCanvas img)) p = Some (255, 255, 255, a)
     ∧ (a = 255 → pixelAt (data (tempCanvas img)) p = Some (255, 255, 255, 255)))
  ∧ (128 ≤ r ∨ 128 ≤ g ∨ 128 ≤ b →
       pixelAt (data (tempCanvas img)) p = Some (r, g, b, 0))
  ∧ width (onload composite isCorrect img answerCanvas) = 320
  ∧ height (onload composite isCorrect img answerCanvas) = 240
  ∧ data (onload composite isCorrect img answerCanvas)
    = composite (tempCanvas img) 320 240
        (data (fillRect (if isCorrect then correctColor else incorrectColor) answerCanvas))
  ∧ (∀ roomOpen isRevealed canvasData image,
       width (drawAnswer composite roomOpen isRevealed isCorrect canvasData image answerCanvas)
       = 320
       ∧ height (drawAnswer composite roomOpen isRevealed isCorrect canvasData image
                   answerCanvas) = 240).
Proof.
  intros Hpx. apply recolor_pixel in Hpx. simpl tempCanvas. simpl data at 1 2 3.
  split; [|split; [|split; [|split; [|split]]]]; try reflexivity.
  3:{ intros roomOpen isRevealed canvasData image. unfold drawAnswer.
      destruct (negb roomOpen || negb isRevealed); [split; reflexivity|].
      destruct canvasData; [split; reflexivity|].
      destruct image; split; reflexivity. }
  - intros Hr Hg Hb. unfold recolorPixel, isInk in Hpx.
    rewrite (proj2 (Z.ltb_lt r 128) Hr), (proj2 (Z.ltb_lt g 128) Hg),
            (proj2 (Z.ltb_lt b 128) Hb) in Hpx.
    split; [exact Hpx|]. intros ->. exact Hpx.
  - intros Hbright. unfold recolorPixel, isInk in Hpx.
    assert (Hink : (r <? 128) && (g <? 128) && (b <? 128) = false).
    { destruct (Z.ltb_spec r 128), (Z.ltb_spec g 128), (Z.ltb_spec b 128);
        simpl; try reflexivity; lia. }
    rewrite Hink in Hpx. exact Hpx.
Qed.

(** The drawing of the session: a black stroke on a white ground, one
    pixel each. *)
Lemma recolor_ink_white_rest_transparent_witness :
  pixelAt (data Session.drawing) 0 = Some (0, 0, 0, 255)
  ∧ pixelAt (data Session.drawing) 1 = Some (255, 255, 255, 255)
  ∧ pixelAt (recolor (data Session.drawing)) 0 = Some (255, 255, 255, 255)
  ∧ pixelAt (recolor (data Session.drawing)) 1 = Some (255, 255, 255, 0).
Proof.
  split; [reflexivity|]. split; [reflexivity|]. split.
  - apply (recolor_ink_white_rest_transparent (fun _ _ _ d => d) true
             Session.drawing 0 0 0 0 255);
      [reflexivity|lia|lia|lia|reflexivity].
  - apply (recolor_ink_white_rest_transparent (fun _ _ _ d => d) true
             Session.drawing 1 255 255 255 255);
      [reflexivity|lia].
Defined.

(** C1 as the specification words it fails on a dark pixel that is not
    opaque: the loop writes the colour channels only, so transparent black
    comes out as transparent white. *)
Lemma recolor_dark_transparent_pixel_stays_transparent :
  let img := mkCanvas 1 1 [0; 0; 0; 0] in
  pixelAt (data img) 0 = Some (0, 0, 0, 0)
  ∧ isInk (0, 0, 0, 0) = true
  ∧ pixelAt (data (tempCanvas img)) 0 = Some (255, 255, 255, 0)
  ∧ pixelAt (data (tempCanvas img)) 0 ≠ Some (255, 255, 255, 255).
Proof.
  cbv zeta. repeat split; try reflexivity. discriminate.
Qed.

End RecolorFacts.

(** ** The undo history of the drawing surface *)

Section HistoryFacts.
Import DrawingCanvas.
Context {Point : Type}.
Variable fillRect : Context Point -> Z -> Z -> list Z -> list Z.
Variable stroke : Context Point -> list Z -> list Z.
Variable toDataURL : list Z -> string.

Lemma slice0_take {A} (e : Z) (arr : list A) :
  0 ≤ e ≤ Z.of_nat (length arr) → slice0 e arr = take (Z.to_nat e) arr.
Proof.
  intros H. unfold slice0.
  destruct (Z.ltb_spec e 0); [lia|].
  rewrite Z.min_l by lia. reflexivity.
Qed.

Lemma saveToHistory_spec (st : State Point) ctx :
  contextRef st = Some ctx →
  -1 ≤ historyIndexRef st < Z.of_nat (length (historyRef st)) →
  let h2 := undoStack st ++ [canvas st] in
  saveToHistory st
  = if 50 <? Z.of_nat (length h2)
    then setHistory (tail h2) (Z.of_nat (length h2) - 2) st
    else setHistory h2 (Z.of_nat (length h2) - 1) st.
Proof.
  intros Hctx Hidx. unfold saveToHistory, undoStack, shift. rewrite Hctx.
  rewrite slice0_take by lia. cbv zeta.
  destruct (50 <? _); f_equal; lia.
Qed.

Lemma undoStack_length (st : State Point) :
  -1 ≤ historyIndexRef st < Z.of_nat (length (historyRef st)) →
  Z.of_nat (length (undoStack st)) = historyIndexRef st + 1.
Proof.
  intros H. unfold undoStack. rewrite length_take. lia.
Qed.

Lemma tail_length {A} (l : list A) : length (tail l) = pred (length l).
Proof. destruct l; reflexivity. Qed.

Lemma saveToHistory_inv (st : State Point) :
  historyInv st → historyInv (saveToHistory st).
Proof.
  intros (H1 & H2 & H3 & H4 & H5).
  destruct (contextRef st) as [ctx|] eqn:Hctx.
  2:{ unfold saveToHistory. rewrite Hctx. unfold historyInv. rewrite Hctx. auto. }
  rewrite (saveToHistory_spec st ctx Hctx) by lia. cbv zeta.
  pose proof (undoStack_length st ltac:(lia)) as Hlen.
  rewrite length_app. simpl length.
  destruct (Z.ltb_spec 50 (Z.of_nat (length (undoStack st) + 1))).
  - unfold historyInv; simpl. rewrite Hctx in *.
    rewrite tail_length, length_app. simpl length.
    repeat split; try lia; auto.
  - unfold historyInv; simpl. rewrite Hctx in *.
    rewrite length_app. simpl length.
    repeat split; try lia; auto.
Qed.

Lemma notify_inv p (st : State Point) :
  historyInv st → historyInv (notify toDataURL p st).
Proof. unfold notify. destruct (onChange p); auto. Qed.

Lemma step_inv p (st : State Point) ev :
  historyInv st → historyInv (step fillRect stroke toDataURL p st ev).
Proof.
  intros Hinv. pose proof Hinv as (H1 & H2 & H3 & H4 & H5).
  destruct ev; simpl.
  - (* the effect *)
    destruct available; [|exact Hinv].
    unfold initialize, historyInv; simpl. repeat split; try lia; eauto.
  - unfold startDrawing. destruct (contextRef st) eqn:Hc; [|exact Hinv].
    destruct (disabled p); [exact Hinv|]. destruct coords; [|exact Hinv].
    unfold historyInv; simpl. repeat split; try lia; eauto.
  - unfold draw. destruct (contextRef st) eqn:Hc; [|exact Hinv].
    destruct (negb _ || _); [exact Hinv|]. destruct coords; [|exact Hinv].
    unfold historyInv; simpl. repeat split; try lia; eauto.
  - unfold stopDrawing. destruct (negb _) eqn:Hd; [exact Hinv|].
    apply notify_inv, saveToHistory_inv.
    unfold historyInv; simpl. repeat split; try lia; auto; discriminate.
  - unfold handleUndo. destruct (contextRef st) eqn:Hc; [|exact Hinv].
    destruct (Z.leb_spec (historyIndexRef st) 0); [exact Hinv|].
    destruct (historyRef st !! _) eqn:Hl.
    + apply notify_inv. unfold historyInv; simpl. rewrite Hc.
      repeat split; try lia; eauto.
    + unfold historyInv; simpl. rewrite Hc. repeat split; try lia; eauto.
  - unfold handleClear. destruct (contextRef st) eqn:Hc; [|exact Hinv].
    apply notify_inv, saveToHistory_inv.
    unfold historyInv; simpl. repeat split; try lia; eauto.
Qed.

Lemma run_inv p evs : ∀ st : State Point,
  historyInv st → historyInv (run fillRect stroke toDataURL p evs st).
Proof.
  induction evs as [|ev evs IH]; intros st Hinv; simpl; [exact Hinv|].
  apply IH, step_inv, Hinv.
Qed.

Lemma initial_inv p : historyInv (initial (Point:=Point) p).
Proof.
  unfold historyInv, initial; simpl. repeat split; try lia.
  all: try (intros H; discriminate H).
  all: try (intros [x H]; discriminate H).
Qed.

Lemma notify_history p (s : State Point) :
  historyRef (notify toDataURL p s) = historyRef s
  ∧ historyIndexRef (notify toDataURL p s) = historyIndexRef s
  ∧ canvas (notify toDataURL p s) = canvas s.
Proof. unfold notify. destruct (onChange p); auto. Qed.

(** What [saveToHistory] leaves: the live stack with the canvas on top,
    less its oldest entry when that would make 51. *)
Lemma saveToHistory_appends (st : State Point) :
  historyInv st → is_Some (contextRef st) →
  let st' := saveToHistory st in
  (length (historyRef st') ≤ 50)%nat
  ∧ historyRef st' =
      (if (length (undoStack st) <? 50)%nat
       then undoStack st ++ [canvas st]
       else tail (undoStack st ++ [canvas st]))
  ∧ last (historyRef st') = Some (canvas st)
  ∧ historyIndexRef st' = Z.of_nat (length (historyRef st')) - 1
  ∧ canvas st' = canvas st.
Proof.
  intros (H1 & H2 & H3 & H4 & H5) [ctx Hctx]. cbv zeta.
  rewrite (saveToHistory_spec st ctx) by (auto; lia). cbv zeta.
  pose proof (undoStack_length st ltac:(lia)) as Hlen.
  rewrite length_app. simpl length.
  destruct (Z.ltb_spec 50 (Z.of_nat (length (undoStack st) + 1)));
    destruct (Nat.ltb_spec (length (undoStack st)) 50); try lia; simpl.
  - rewrite tail_length, length_app; simpl length.
    repeat split; try lia.
    destruct (undoStack st) as [|x l]; [simpl in *; lia|].
    simpl. apply last_snoc.
  - rewrite length_app; simpl length. repeat split; try lia.
    apply last_snoc.
Qed.

(** C8: the undo history never holds more than 50 snapshots; finishing a
    stroke ([stopDrawing] while drawing) and clearing each put the raster
    of the canvas on top of the live stack, dropping the oldest snapshot
    when that would make 51; and [handleUndo] takes the top snapshot off
    the live stack and makes the one below it the content of the canvas. *)
Theorem undo_history_bounded_stack (p : Props) (evs : list (Event Point)) :
  let st := run fillRect stroke toDataURL p evs (initial p) in
  (length (historyRef st) ≤ 50)%nat
  ∧ (isDrawing st = true →
       let st' := stopDrawing toDataURL p st in
       (length (historyRef st') ≤ 50)%nat
       ∧ historyRef st' =
           (if (length (undoStack st) <? 50)%nat
            then undoStack st ++ [canvas st]
            else tail (undoStack st ++ [canvas st]))
       ∧ last (historyRef st') = Some (canvas st)
       ∧ historyIndexRef st' = Z.of_nat (length (historyRef st')) - 1)
  ∧ (is_Some (contextRef st) →
       let st' := handleClear fillRect toDataURL p st in
       (length (historyRef st') ≤ 50)%nat
       ∧ historyRef st' =
           (if (length (undoStack st) <? 50)%nat
            then undoStack st ++ [canvas st']
            else tail (undoStack st ++ [canvas st']))
       ∧ last (historyRef st') = Some (canvas st')
       ∧ historyIndexRef st' = Z.of_nat (length (historyRef st')) - 1)
  ∧ (is_Some (contextRef st) → 0 < historyIndexRef st →
       let st' := handleUndo toDataURL p st in
       ∃ prior top,
         undoStack st = undoStack st' ++ [top]
         ∧ last (undoStack st') = Some prior
         ∧ canvas st' = prior
         ∧ historyIndexRef st' = historyIndexRef st - 1
         ∧ historyRef st' = historyRef st).
Proof.
  intros st.
  assert (Hinv : historyInv st) by (apply run_inv, initial_inv).
  pose proof Hinv as (H1 & H2 & H3 & H4 & H5).
  split; [exact H3|]. split; [|split].
  - intros Hd. cbv zeta.
    unfold stopDrawing. rewrite Hd. simpl negb. cbv iota.
    destruct (notify_history p (saveToHistory (setIsDrawing false st))) as (-> & -> & _).
    destruct (saveToHistory_appends (setIsDrawing false st)) as (A & B & C & D & _).
    { unfold historyInv; simpl. repeat split; try lia; auto; discriminate. }
    { simpl. auto. }
    auto.
  - intros [ctx Hctx]. cbv zeta.
    unfold handleClear. rewrite Hctx.
    match goal with |- context [notify toDataURL p (saveToHistory ?s)] => set (s1 := s) end.
    destruct (notify_history p (saveToHistory s1)) as (-> & -> & ->).
    destruct (saveToHistory_appends s1) as (A & B & C & D & E).
    { unfold historyInv, s1; simpl. repeat split; try lia; eauto. }
    { unfold s1; simpl. eauto. }
    rewrite E. auto.
  - intros [ctx Hctx] Hpos. cbv zeta.
    unfold handleUndo. rewrite Hctx.
    destruct (Z.leb_spec (historyIndexRef st) 0); [lia|].
    destruct (lookup_lt_is_Some_2 (historyRef st) (Z.to_nat (historyIndexRef st - 1)))
      as [prior Hprior]; [lia|].
    destruct (lookup_lt_is_Some_2 (historyRef st) (Z.to_nat (historyIndexRef st)))
      as [top Htop]; [lia|].
    rewrite Hprior. exists prior, top.
    destruct (notify_history p (setCanvas prior (setIndex (historyIndexRef st - 1) st)))
      as (Hh & Hi & Hc).
    unfold undoStack. rewrite Hh, Hi, Hc. simpl.
    replace (Z.to_nat (historyIndexRef st + 1)) with (S (Z.to_nat (historyIndexRef st))) by lia.
    replace (Z.to_nat (historyIndexRef st - 1 + 1)) with (Z.to_nat (historyIndexRef st)) by lia.
    repeat split; auto.
    + apply take_S_r, Htop.
    + replace (Z.to_nat (historyIndexRef st)) with (S (Z.to_nat (historyIndexRef st - 1))) by lia.
      rewrite (take_S_r _ _ _ Hprior). apply last_snoc.
Qed.
End HistoryFacts.

(** The second stroke of the session is finished, then undone. *)
Lemma undo_history_bounded_stack_witness :
  let st := DrawingCanvas.run Session.paintWhite Session.paintBlack Session.encode
              Session.surface Session.strokes (DrawingCanvas.initial Session.surface) in
  DrawingCanvas.isDrawing st = true
  ∧ 0 < DrawingCanvas.historyIndexRef st
  ∧ (length (DrawingCanvas.historyRef st) ≤ 50)%nat
  ∧ last (DrawingCanvas.historyRef (DrawingCanvas.stopDrawing Session.encode Session.surface st))
    = Some (DrawingCanvas.canvas st)
  ∧ last (DrawingCanvas.historyRef
            (DrawingCanvas.handleClear Session.paintWhite Session.encode Session.surface st))
    = Some [255; 255; 255; 255]
  ∧ DrawingCanvas.canvas (DrawingCanvas.handleUndo Session.encode Session.surface st)
    = [255; 255; 255; 255].
Proof.
  cbv zeta.
  destruct (undo_history_bounded_stack Session.paintWhite Session.paintBlack Session.encode
              Session.surface Session.strokes) as (Hbound & Hstroke & Hclear & Hundo).
  split; [reflexivity|]. split; [reflexivity|]. split; [exact Hbound|]. split; [|split].
  - destruct (Hstroke eq_refl) as (_ & _ & Hlast & _). exact Hlast.
  - destruct (Hclear (ex_intro _ _ eq_refl)) as (_ & _ & Hlast & _). exact Hlast.
  - destruct (Hundo (ex_intro _ _ eq_refl) eq_refl) as (prior & top & _ & _ & Hcanvas & _).
    reflexivity.
Defined.

(** ** Collections *)

Import Firestore.

Section CollectionFacts.
Context {A : Type}.
Implicit Types (c l : list (string * A)) (id : string) (v : A).

Lemma docData_Some_In id v c : docData id c = Some v → In (id, v) c.
Proof.
  induction c as [|[k x] c IH]; simpl; [discriminate|].
  destruct (String.eqb_spec k id) as [->|Hne].
  - intros [= ->]. left; reflexivity.
  - intros H. right. apply IH, H.
Qed.

Lemma docData_None_notin id c : docData id c = None ↔ ¬ In id (docIds c).
Proof.
  induction c as [|[k x] c IH]; simpl; [tauto|].
  destruct (String.eqb_spec k id) as [->|Hne].
  - split; [discriminate|]. intros H. exfalso. apply H. left; reflexivity.
  - rewrite IH. tauto.
Qed.

Lemma In_docData_is_Some id v c : In (id, v) c → is_Some (docData id c).
Proof.
  intros Hin. destruct (docData id c) eqn:E; [eauto|].
  apply docData_None_notin in E. exfalso. apply E.
  apply (in_map fst) in Hin. exact Hin.
Qed.

Lemma docData_NoDup id v c : NoDup (docIds c) → In (id, v) c → docData id c = Some v.
Proof.
  induction c as [|[k x] c IH]; simpl; [tauto|].
  intros Hnd [Hin|Hin].
  - inversion Hin; subst. rewrite String.eqb_refl. reflexivity.
  - apply NoDup_cons in Hnd as [Hk Hnd].
    destruct (String.eqb_spec k id) as [->|Hne].
    + exfalso. apply Hk. apply list_elem_of_In.
      apply (in_map fst) in Hin. exact Hin.
    + apply IH; assumption.
Qed.

(** Where a new document lands. *)
Lemma insertDoc_split id v c :
  ∃ l1 l2, c = l1 ++ l2 ∧ insertDoc id v c = l1 ++ (id, v) :: l2.
Proof.
  induction c as [|[k x] c (l1 & l2 & Hc & Hi)]; simpl.
  - exists [], []. split; reflexivity.
  - destruct (String.ltb id k).
    + exists [], ((k, x) :: c). split; reflexivity.
    + exists ((k, x) :: l1), l2. simpl. rewrite Hi, <- Hc. split; reflexivity.
Qed.

Lemma In_insertDoc id v c y : In y (insertDoc id v c) ↔ y = (id, v) ∨ In y c.
Proof.
  destruct (insertDoc_split id v c) as (l1 & l2 & -> & ->).
  rewrite !in_app_iff. simpl. intuition congruence.
Qed.

Lemma docIds_insertDoc id v c x :
  In x (docIds (insertDoc id v c)) ↔ x = id ∨ In x (docIds c).
Proof.
  destruct (insertDoc_split id v c) as (l1 & l2 & -> & ->).
  unfold docIds. rewrite !map_app. simpl. rewrite !in_app_iff. simpl.
  intuition congruence.
Qed.

Lemma docData_app id l1 l2 :
  docData id (l1 ++ l2) =
  match docData id l1 with Some v => Some v | None => docData id l2 end.
Proof.
  induction l1 as [|[k x] l1 IH]; simpl; [reflexivity|].
  destruct (String.eqb k id); [reflexivity|apply IH].
Qed.

Lemma docData_insertDoc_eq id v c :
  docData id c = None → docData id (insertDoc id v c) = Some v.
Proof.
  destruct (insertDoc_split id v c) as (l1 & l2 & -> & ->).
  rewrite !docData_app. simpl. rewrite String.eqb_refl.
  destruct (docData id l1); [discriminate|reflexivity].
Qed.

Lemma docData_insertDoc_ne id id' v c :
  id' ≠ id → docData id' (insertDoc id v c) = docData id' c.
Proof.
  intros Hne.
  destruct (insertDoc_split id v c) as (l1 & l2 & -> & ->).
  rewrite !docData_app. simpl.
  destruct (String.eqb_spec id id'); [congruence|reflexivity].
Qed.

Lemma whereDocs_insertDoc_false p id v c :
  p v = false → whereDocs p (insertDoc id v c) = whereDocs p c.
Proof.
  intros Hp.
  destruct (insertDoc_split id v c) as (l1 & l2 & -> & ->).
  unfold whereDocs. rewrite !List.filter_app. simpl. rewrite Hp. reflexivity.
Qed.

Lemma whereDocs_insertDoc_true p id v c :
  p v = true →
  ∃ l1 l2, whereDocs p c = l1 ++ l2 ∧ whereDocs p (insertDoc id v c) = l1 ++ (id, v) :: l2.
Proof.
  intros Hp.
  destruct (insertDoc_split id v c) as (l1 & l2 & -> & ->).
  exists (whereDocs p l1), (whereDocs p l2).
  unfold whereDocs. rewrite !List.filter_app. simpl. rewrite Hp. split; reflexivity.
Qed.

Lemma whereDocs_insertDoc_length p id v c :
  length (whereDocs p (insertDoc id v c))
  = ((if p v then 1 else 0) + length (whereDocs p c))%nat.
Proof.
  destruct (p v) eqn:Hp.
  - destruct (whereDocs_insertDoc_true p id v c Hp) as (l1 & l2 & -> & ->).
    rewrite !length_app. simpl. lia.
  - rewrite whereDocs_insertDoc_false by assumption. reflexivity.
Qed.

Lemma docIds_modifyDoc id f c : docIds (modifyDoc id f c) = docIds c.
Proof.
  unfold docIds, modifyDoc. rewrite List.map_map. apply List.map_ext.
  intros [k x]. simpl. destruct (String.eqb k id); reflexivity.
Qed.

Lemma docData_modifyDoc id id' f c :
  docData id' (modifyDoc id f c)
  = if String.eqb id' id then f <$> docData id' c else docData id' c.
Proof.
  induction c as [|[k x] c IH]; simpl.
  - destruct (String.eqb id' id); reflexivity.
  - destruct (String.eqb_spec k id) as [->|Hne]; simpl.
    + destruct (String.eqb_spec id id') as [<-|Hne'].
      * rewrite String.eqb_refl. reflexivity.
      * rewrite IH. reflexivity.
    + destruct (String.eqb_spec k id') as [<-|Hne'].
      * destruct (String.eqb_spec k id); [congruence|reflexivity].
      * apply IH.
Qed.

Lemma whereDocs_modifyDoc p id f c :
  (∀ x, p (f x) = p x) →
  whereDocs p (modifyDoc id f c) = modifyDoc id f (whereDocs p c).
Proof.
  intros Hp. induction c as [|[k x] c IH]; simpl; [reflexivity|].
  destruct (String.eqb k id) eqn:E; simpl; rewrite ?Hp;
    destruct (p x); simpl; rewrite ?E, IH; reflexivity.
Qed.

Lemma length_modifyDoc id f c : length (modifyDoc id f c) = length c.
Proof. unfold modifyDoc. apply List.length_map. Qed.

Lemma In_removeDoc id c y : In y (removeDoc id c) ↔ In y c ∧ fst y ≠ id.
Proof.
  unfold removeDoc. rewrite List.filter_In.
  destruct (String.eqb_spec (fst y) id); simpl; intuition congruence.
Qed.

Lemma docData_removeDoc_eq id c : docData id (removeDoc id c) = None.
Proof.
  apply docData_None_notin. intros Hin.
  apply List.in_map_iff in Hin as ([k x] & Hk & Hin). simpl in Hk. subst k.
  apply In_removeDoc in Hin as [_ Hne]. apply Hne. reflexivity.
Qed.

Lemma whereDocs_In p c y : In y (whereDocs p c) ↔ In y c ∧ p (snd y) = true.
Proof. unfold whereDocs. apply List.filter_In. Qed.

Lemma NoDup_insertDoc id v c :
  docData id c = None → NoDup (docIds c) → NoDup (docIds (insertDoc id v c)).
Proof.
  intros Hnone Hnd. apply docData_None_notin in Hnone.
  destruct (insertDoc_split id v c) as (l1 & l2 & -> & ->).
  unfold docIds in *. rewrite map_app in *. simpl.
  apply NoDup_app in Hnd as (H1 & H2 & H3).
  apply NoDup_app. split; [exact H1|]. split.
  - intros x Hx [->|Hx']%elem_of_cons.
    + apply Hnone. apply in_app_iff. left. apply list_elem_of_In, Hx.
    + apply (H2 x Hx Hx').
  - apply NoDup_cons. split; [|exact H3].
    intros Hin. apply Hnone. apply in_app_iff. right. apply list_elem_of_In, Hin.
Qed.
End CollectionFacts.

Ltac store_unfold :=
  unfold bind, ret, throw, getDocs, getDoc, addDoc, updateDoc, deleteDoc,
         uploadBytes, tryCatch.

Ltac store_simpl :=
  cbn [docs setDocs path answersRef participantsRef bannedUsersRef questionsRef
       roomsRef gameResultsRef
       rooms participants bannedUsers questions answers gameResults storage log
       record setRooms setParticipants setBannedUsers setQuestions setAnswers
       setGameResults setStorage fst snd].

Section SubmitFacts.
Variables (autoId : string) (now : Z) (roomId questionId odId displayName canvasData : string).

Lemma answers_setAnswers r c w : answers (setAnswers r c w) !!! r = c.
Proof. simpl. apply lookup_total_insert_eq. Qed.

Lemma answers_setAnswers_ne r r' c w :
  r ≠ r' → answers (setAnswers r c w) !!! r' = answers w !!! r'.
Proof. intros H. simpl. apply lookup_total_insert_ne, H. Qed.

Lemma submitAnswer_existing w id0 a0 rest :
  whereDocs (sameAnswer questionId odId) (answers w !!! roomId) = (id0, a0) :: rest →
  submitAnswer autoId now roomId questionId odId displayName canvasData w
  = (Ok (id0, withCanvasData canvasData now <$> docData id0 (answers w !!! roomId)),
     record (Updated (Answers roomId) id0)
       (setAnswers roomId
          (modifyDoc id0 (withCanvasData canvasData now) (answers w !!! roomId)) w)).
Proof.
  intros Hq.
  assert (Hin : In (id0, a0) (answers w !!! roomId)).
  { apply (whereDocs_In (sameAnswer questionId odId)). rewrite Hq. left; reflexivity. }
  destruct (In_docData_is_Some _ _ _ Hin) as [x Hx].
  unfold submitAnswer. store_unfold. store_simpl. rewrite Hq. store_simpl.
  rewrite Hx. store_simpl. rewrite lookup_total_insert_eq.
  rewrite docData_modifyDoc, String.eqb_refl, Hx. reflexivity.
Qed.

Lemma submitAnswer_new w :
  whereDocs (sameAnswer questionId odId) (answers w !!! roomId) = [] →
  docData autoId (answers w !!! roomId) = None →
  submitAnswer autoId now roomId questionId odId displayName canvasData w
  = (Ok (autoId, Some (newAnswer now questionId odId displayName canvasData)),
     record (Added (Answers roomId) autoId)
       (setAnswers roomId
          (insertDoc autoId (newAnswer now questionId odId displayName canvasData)
             (answers w !!! roomId)) w)).
Proof.
  intros Hq Hfresh.
  unfold submitAnswer. store_unfold. store_simpl. rewrite Hq. store_simpl.
  rewrite Hfresh. store_simpl. rewrite lookup_total_insert_eq.
  fold (newAnswer now questionId odId displayName canvasData).
  rewrite docData_insertDoc_eq by assumption. reflexivity.
Qed.

Lemma submitAnswer_collision w x :
  whereDocs (sameAnswer questionId odId) (answers w !!! roomId) = [] →
  docData autoId (answers w !!! roomId) = Some x →
  submitAnswer autoId now roomId questionId odId displayName canvasData w
  = (Throw ErrAlreadyExists, w).
Proof.
  intros Hq Hx.
  unfold submitAnswer. store_unfold. store_simpl. rewrite Hq. store_simpl.
  rewrite Hx. reflexivity.
Qed.
End SubmitFacts.

Lemma sameAnswer_withCanvasData q od cd now a :
  sameAnswer q od (withCanvasData cd now a) = sameAnswer q od a.
Proof. reflexivity. Qed.

Lemma sameAnswer_newAnswer q od q' od' now dn cd :
  sameAnswer q' od' (newAnswer now q od dn cd) = true ↔ q = q' ∧ od = od'.
Proof.
  unfold sameAnswer, newAnswer. simpl.
  rewrite andb_true_iff, !String.eqb_eq. tauto.
Qed.

Lemma submitAnswer_oneAnswerEach autoId now roomId questionId odId displayName canvasData w :
  oneAnswerEach w →
  oneAnswerEach (snd (submitAnswer autoId now roomId questionId odId displayName canvasData w)).
Proof.
  intros Hinv r q od.
  destruct (whereDocs (sameAnswer questionId odId) (answers w !!! roomId))
    as [|[id0 a0] rest] eqn:Hq.
  - destruct (docData autoId (answers w !!! roomId)) as [x|] eqn:Hx.
    + rewrite (submitAnswer_collision _ _ _ _ _ _ _ w x Hq Hx). apply Hinv.
    + rewrite (submitAnswer_new _ _ _ _ _ _ _ w Hq Hx). simpl snd.
      change (answers (record ?e ?w')) with (answers w').
      destruct (decide (roomId = r)) as [<-|Hne].
      * rewrite answers_setAnswers, whereDocs_insertDoc_length.
        destruct (sameAnswer q od (newAnswer _ _ _ _ _)) eqn:Hs.
        -- apply sameAnswer_newAnswer in Hs as [<- <-]. rewrite Hq. simpl. lia.
        -- apply Hinv.
      * rewrite answers_setAnswers_ne by assumption. apply Hinv.
  - rewrite (submitAnswer_existing _ _ _ _ _ _ _ w id0 a0 rest Hq). simpl snd.
    change (answers (record ?e ?w')) with (answers w').
    destruct (decide (roomId = r)) as [<-|Hne].
    + rewrite answers_setAnswers, whereDocs_modifyDoc, length_modifyDoc by reflexivity.
      apply Hinv.
    + rewrite answers_setAnswers_ne by assumption. apply Hinv.
Qed.

Lemma submitCalls_oneAnswerEach cs : ∀ w, oneAnswerEach w → oneAnswerEach (submitCalls cs w).
Proof.
  induction cs as [|c cs IH]; intros w Hw; simpl; [exact Hw|].
  apply IH, submitAnswer_oneAnswerEach, Hw.
Qed.

Lemma emptyWorld_oneAnswerEach : oneAnswerEach emptyWorld.
Proof. intros r q od. simpl. rewrite lookup_total_empty. simpl. lia. Qed.

(** C3: when a call of [submitAnswer] has returned a record, the next call
    for the same question and identity in the same room returns that same
    record id with the new drawing and adds no document; and after any
    sequence of calls from the empty store, no (question, identity) pair
    has more than one answer in any room. *)
Theorem submitAnswer_upsert :
  (∀ w id1 t1 roomId questionId odId dn1 cd1 id2 t2 dn2 cd2 rec1 d1 w1,
     submitAnswer id1 t1 roomId questionId odId dn1 cd1 w = (Ok (rec1, d1), w1) →
     ∃ a2 w2,
       submitAnswer id2 t2 roomId questionId odId dn2 cd2 w1 = (Ok (rec1, Some a2), w2)
       ∧ Answer.canvasData a2 = cd2
       ∧ docIds (answers w2 !!! roomId) = docIds (answers w1 !!! roomId)
       ∧ docData rec1 (answers w2 !!! roomId) = Some a2)
  ∧ (∀ calls roomId questionId odId,
       (length (whereDocs (sameAnswer questionId odId)
                  (answers (submitCalls calls emptyWorld) !!! roomId)) ≤ 1)%nat).
Proof.
  split.
  - intros w id1 t1 roomId questionId odId dn1 cd1 id2 t2 dn2 cd2 rec1 d1 w1 H1.
    (* after the first call, the record it returned heads the matches *)
    assert (Hhead : ∃ a rest,
               whereDocs (sameAnswer questionId odId) (answers w1 !!! roomId)
               = (rec1, a) :: rest).
    { destruct (whereDocs (sameAnswer questionId odId) (answers w !!! roomId))
        as [|[id0 a0] rest] eqn:Hq.
      - destruct (docData id1 (answers w !!! roomId)) as [x|] eqn:Hx.
        + rewrite (submitAnswer_collision _ _ _ _ _ _ _ w x Hq Hx) in H1. discriminate.
        + rewrite (submitAnswer_new _ _ _ _ _ _ _ w Hq Hx) in H1.
          inversion H1; subst; clear H1.
          change (answers (record ?e ?w')) with (answers w').
          rewrite answers_setAnswers.
          destruct (whereDocs_insertDoc_true (sameAnswer questionId odId) rec1
                      (newAnswer t1 questionId odId dn1 cd1) (answers w !!! roomId))
            as (l1 & l2 & Hl & ->).
          { apply sameAnswer_newAnswer. split; reflexivity. }
          rewrite Hq in Hl. symmetry in Hl. apply app_eq_nil in Hl as [-> ->].
          eexists _, _. reflexivity.
      - rewrite (submitAnswer_existing _ _ _ _ _ _ _ w id0 a0 rest Hq) in H1.
        inversion H1; subst; clear H1.
        change (answers (record ?e ?w')) with (answers w').
        rewrite answers_setAnswers, whereDocs_modifyDoc, Hq by reflexivity.
        simpl. rewrite String.eqb_refl. eexists _, _. reflexivity. }
    destruct Hhead as (a & rest & Hq1).
    rewrite (submitAnswer_existing _ _ _ _ _ _ _ w1 rec1 a rest Hq1).
    assert (Hin : In (rec1, a) (answers w1 !!! roomId)).
    { apply (whereDocs_In (sameAnswer questionId odId)). rewrite Hq1. left; reflexivity. }
    destruct (In_docData_is_Some _ _ _ Hin) as [x Hx]. rewrite Hx. simpl.
    eexists _, _. split; [reflexivity|].
    change (answers (record ?e ?w')) with (answers w').
    rewrite answers_setAnswers, docIds_modifyDoc, docData_modifyDoc, String.eqb_refl, Hx.
    repeat split; reflexivity.
  - intros calls roomId questionId odId.
    apply (submitCalls_oneAnswerEach calls emptyWorld emptyWorld_oneAnswerEach).
Qed.

(** Ann submits twice in the session. *)
Lemma submitAnswer_upsert_witness :
  ∃ a2 w2,
    submitAnswer "a9" 1010 "room1" "q1" "u1" "Ann" "data:image/png;base64,CCCC"
      (snd (submitAnswer "a1" 1008 "room1" "q1" "u1" "Ann" Session.drawingOfAnn Session.asked))
    = (Ok ("a1", Some a2), w2)
    ∧ Answer.canvasData a2 = "data:image/png;base64,CCCC"
    ∧ docIds (answers w2 !!! "room1") = ["a1"].
Proof.
  destruct (proj1 submitAnswer_upsert Session.asked "a1" 1008 "room1" "q1" "u1" "Ann"
              Session.drawingOfAnn "a9" 1010 "Ann" "data:image/png;base64,CCCC" "a1"
              (Some (newAnswer 1008 "q1" "u1" "Ann" Session.drawingOfAnn))
              (snd (submitAnswer "a1" 1008 "room1" "q1" "u1" "Ann" Session.drawingOfAnn
                      Session.asked)) eq_refl)
    as (a2 & w2 & Hrun & Hdata & Hids & _).
  exists a2, w2. split; [exact Hrun|]. split; [exact Hdata|].
  rewrite Hids. reflexivity.
Defined.

(** C9: where an answer of the (question, identity) pair exists, a call
    of [submitAnswer] changes its [canvasData] and [updatedAt] and nothing
    else: [isCorrect], [isRevealed] and the other fields stay, as do all
    other answers; where none exists and the new name is free, the answer
    created has [isCorrect] and [isRevealed] false. *)
Theorem submitAnswer_frame autoId now roomId questionId odId displayName canvasData w :
  NoDup (docIds (answers w !!! roomId)) →
  (∀ id0 a0 rest,
     whereDocs (sameAnswer questionId odId) (answers w !!! roomId) = (id0, a0) :: rest →
     ∃ a' w',
       submitAnswer autoId now roomId questionId odId displayName canvasData w
       = (Ok (id0, Some a'), w')
       ∧ a' = Answer.mk (Answer.questionId a0) (Answer.odId a0) (Answer.displayName a0)
                        canvasData (Answer.isCorrect a0) (Answer.isRevealed a0) now
       ∧ docData id0 (answers w' !!! roomId) = Some a'
       ∧ (∀ id', id' ≠ id0 →
                 docData id' (answers w' !!! roomId) = docData id' (answers w !!! roomId))
       ∧ docIds (answers w' !!! roomId) = docIds (answers w !!! roomId))
  ∧ (whereDocs (sameAnswer questionId odId) (answers w !!! roomId) = [] →
     docData autoId (answers w !!! roomId) = None →
     ∃ a w',
       submitAnswer autoId now roomId questionId odId displayName canvasData w
       = (Ok (autoId, Some a), w')
       ∧ Answer.isCorrect a = false ∧ Answer.isRevealed a = false
       ∧ Answer.canvasData a = canvasData
       ∧ docData autoId (answers w' !!! roomId) = Some a).
Proof.
  intros Hnd. split.
  - intros id0 a0 rest Hq.
    rewrite (submitAnswer_existing _ _ _ _ _ _ _ w id0 a0 rest Hq).
    assert (Hin : In (id0, a0) (answers w !!! roomId)).
    { apply (whereDocs_In (sameAnswer questionId odId)). rewrite Hq. left; reflexivity. }
    rewrite (docData_NoDup _ _ _ Hnd Hin).
    eexists _, _. split; [reflexivity|]. split; [reflexivity|].
    store_simpl. rewrite lookup_total_insert_eq, docIds_modifyDoc.
    split; [|split; [|reflexivity]].
    + rewrite docData_modifyDoc, String.eqb_refl, (docData_NoDup _ _ _ Hnd Hin).
      reflexivity.
    + intros id' Hne. rewrite docData_modifyDoc.
      destruct (String.eqb_spec id' id0); [congruence|reflexivity].
  - intros Hq Hfresh.
    rewrite (submitAnswer_new _ _ _ _ _ _ _ w Hq Hfresh).
    eexists _, _. split; [reflexivity|]. store_simpl.
    rewrite lookup_total_insert_eq.
    repeat split; try reflexivity.
    apply docData_insertDoc_eq, Hfresh.
Qed.

(** Ann redraws after the host has marked and revealed her answer. *)
Lemma submitAnswer_frame_witness :
  NoDup (docIds (answers Session.marked !!! "room1"))
  ∧ ∃ a' w',
      submitAnswer "a9" 1010 "room1" "q1" "u1" "Ann" "data:image/png;base64,CCCC" Session.marked
      = (Ok ("a1", Some a'), w')
      ∧ Answer.isCorrect a' = true ∧ Answer.isRevealed a' = true
      ∧ Answer.canvasData a' = "data:image/png;base64,CCCC".
Proof.
  assert (Hnd : NoDup (docIds (answers Session.marked !!! "room1"))).
  { vm_compute. apply NoDup_cons_2; [|apply NoDup_singleton].
    intros Hin. apply list_elem_of_singleton in Hin. discriminate Hin. }
  split; [exact Hnd|].
  destruct (proj1 (submitAnswer_frame "a9" 1010 "room1" "q1" "u1" "Ann"
                     "data:image/png;base64,CCCC" Session.marked Hnd)
              "a1" (Answer.mk "q1" "u1" "Ann" Session.drawingOfAnn true true 1008) [] eq_refl)
    as (a' & w' & Hrun & -> & _).
  eexists _, w'. split; [exact Hrun|]. repeat split.
Defined.

(** ** Joining, kicking and unbanning *)

Lemma whereDocs_all {A} (c : list (string * A)) : whereDocs (fun _ => true) c = c.
Proof. induction c as [|x c IH]; simpl; [|rewrite IH]; reflexivity. Qed.

Lemma isUserBanned_eq roomId odId w :
  isUserBanned roomId odId w
  = (Ok (match whereDocs (isBanned odId) (bannedUsers w !!! roomId) with
         | [] => false
         | _ :: _ => true
         end), w).
Proof. reflexivity. Qed.

Lemma isUserBanned_true roomId odId w bid b :
  In (bid, b) (bannedUsers w !!! roomId) → BannedUser.odId b = odId →
  isUserBanned roomId odId w = (Ok true, w).
Proof.
  intros Hin Hod. rewrite isUserBanned_eq.
  destruct (whereDocs (isBanned odId) (bannedUsers w !!! roomId)) eqn:E; [|reflexivity].
  exfalso. assert (Hin' : In (bid, b) (whereDocs (isBanned odId) (bannedUsers w !!! roomId))).
  { apply whereDocs_In. split; [exact Hin|]. simpl. unfold isBanned.
    rewrite Hod. apply String.eqb_refl. }
  rewrite E in Hin'. destruct Hin'.
Qed.

(** C4: for an identity with a record on the ban list of the room,
    [requestJoinRoom] throws the ban error and leaves the world as it was:
    in every world, so also when the room is full, and no participant
    record is created. *)
Theorem requestJoinRoom_banned_first autoId now roomId odId displayName photoURL w bid b :
  In (bid, b) (bannedUsers w !!! roomId) → BannedUser.odId b = odId →
  isUserBanned roomId odId w = (Ok true, w)
  ∧ requestJoinRoom autoId now roomId odId displayName photoURL w = (Throw ErrBanned, w).
Proof.
  intros Hin Hod.
  pose proof (isUserBanned_true roomId odId w bid b Hin Hod) as Hb.
  split; [exact Hb|].
  unfold requestJoinRoom, bind at 1. rewrite Hb. reflexivity.
Qed.

(** Bob, kicked, asks to come back while the room is full. *)
Lemma requestJoinRoom_banned_first_witness :
  Z.of_nat (length (participants Session.full !!! "room1")) = 2
  ∧ orNumber (Room.maxParticipants <$> docData "room1" (rooms Session.full)) MAX_PARTICIPANTS = 2
  ∧ requestJoinRoom "p4" 1010 "room1" "u2" "Bob" None Session.full
    = (Throw ErrBanned, Session.full).
Proof.
  split; [reflexivity|]. split; [reflexivity|].
  apply (requestJoinRoom_banned_first "p4" 1010 "room1" "u2" "Bob" None Session.full
           "b1" (BannedUser.mk "u2" "Bob" None 1003)); [|reflexivity].
  vm_compute. left. reflexivity.
Defined.

Lemma requestJoinRoom_not_banned autoId now roomId odId displayName photoURL w :
  whereDocs (isBanned odId) (bannedUsers w !!! roomId) = [] →
  requestJoinRoom autoId now roomId odId displayName photoURL w
  = match whereDocs (isParticipant odId) (participants w !!! roomId) with
    | existingDoc :: _ => (Ok (fst existingDoc, Some (snd existingDoc)), w)
    | [] =>
        let maxParticipants :=
          orNumber (Room.maxParticipants <$> docData roomId (rooms w)) MAX_PARTICIPANTS in
        if Z.of_nat (length (participants w !!! roomId)) >=? maxParticipants
        then (Throw (ErrRoomFull maxParticipants), w)
        else match addDoc (participantsRef roomId) autoId
                     (RoomParticipant.mk roomId odId displayName photoURL approved now) w with
             | (Ok ref, w') => (Ok (ref, docData ref (participants w' !!! roomId)), w')
             | (Throw e, w') => (Throw e, w')
             end
    end.
Proof.
  intros Hb. unfold requestJoinRoom, bind at 1. rewrite isUserBanned_eq.
  fold (isBanned odId). rewrite Hb. cbn iota beta.
  store_unfold. store_simpl. fold (isParticipant odId).
  destruct (whereDocs (isParticipant odId) (participants w !!! roomId)) as [|d rest];
    [|reflexivity].
  rewrite whereDocs_all.
  cbv zeta.
  destruct (_ >=? _); [reflexivity|].
  destruct (docData autoId (participants w !!! roomId)); reflexivity.
Qed.

(** C5: in a room whose participant count has reached its maximum (the
    [maxParticipants] of the room, or 15 where that is missing or 0), for
    an identity that is not on the ban list: one that has not joined is
    rejected with the room-full error and no record is created; one that
    has joined gets its existing record back, and the world is unchanged. *)
Theorem requestJoinRoom_at_capacity autoId now roomId odId displayName photoURL w :
  let maxParticipants :=
    orNumber (Room.maxParticipants <$> docData roomId (rooms w)) MAX_PARTICIPANTS in
  maxParticipants ≤ Z.of_nat (length (participants w !!! roomId)) →
  whereDocs (isBanned odId) (bannedUsers w !!! roomId) = [] →
  (whereDocs (isParticipant odId) (participants w !!! roomId) = [] →
     requestJoinRoom autoId now roomId odId displayName photoURL w
     = (Throw (ErrRoomFull maxParticipants), w))
  ∧ (∀ pid p rest,
       whereDocs (isParticipant odId) (participants w !!! roomId) = (pid, p) :: rest →
       requestJoinRoom autoId now roomId odId displayName photoURL w
       = (Ok (pid, Some p), w)).
Proof.
  intros maxP Hcap Hb. split.
  - intros Hp. rewrite requestJoinRoom_not_banned by assumption. rewrite Hp.
    cbv zeta. fold maxP. destruct (Z.geb_spec (Z.of_nat (length (participants w !!! roomId))) maxP);
      [reflexivity|lia].
  - intros pid p rest Hp. rewrite requestJoinRoom_not_banned by assumption.
    rewrite Hp. reflexivity.
Qed.

(** In the full room, Ann gets her record back and a newcomer is rejected. *)
Lemma requestJoinRoom_at_capacity_witness :
  requestJoinRoom "p4" 1010 "room1" "u9" "Dee" None Session.full
  = (Throw (ErrRoomFull 2), Session.full)
  ∧ requestJoinRoom "p4" 1010 "room1" "u1" "Ann" None Session.full
    = (Ok ("p1", Some (RoomParticipant.mk "room1" "u1" "Ann" None approved 1001)), Session.full).
Proof.
  assert (Hcap : orNumber (Room.maxParticipants <$> docData "room1" (rooms Session.full))
                          MAX_PARTICIPANTS
                 ≤ Z.of_nat (length (participants Session.full !!! "room1"))).
  { vm_compute. discriminate. }
  split.
  - apply (proj1 (requestJoinRoom_at_capacity "p4" 1010 "room1" "u9" "Dee" None Session.full
                    Hcap eq_refl)). reflexivity.
  - apply (proj2 (requestJoinRoom_at_capacity "p4" 1010 "room1" "u1" "Ann" None Session.full
                    Hcap eq_refl)
             "p1" (RoomParticipant.mk "room1" "u1" "Ann" None approved 1001)
             [] ). reflexivity.
Defined.

(** Ann is on the ban list and a participant of the full room: her request
    is rejected, where C5 as the specification words it returns her record. *)
Lemma requestJoinRoom_banned_member_rejected :
  whereDocs (isParticipant "u1") (participants Session.bannedMember !!! "room1")
  = [("p1", RoomParticipant.mk "room1" "u1" "Ann" None approved 1001)]
  ∧ Z.of_nat (length (participants Session.bannedMember !!! "room1")) = 2
  ∧ orNumber (Room.maxParticipants <$> docData "room1" (rooms Session.bannedMember))
             MAX_PARTICIPANTS = 2
  ∧ requestJoinRoom "p4" 1010 "room1" "u1" "Ann" None Session.bannedMember
    = (Throw ErrBanned, Session.bannedMember).
Proof. repeat split. Qed.

Lemma In_removeDocs {A B} (snapshot : list (string * B)) : ∀ (c : list (string * A)) y,
  In y (removeDocs snapshot c) ↔ In y c ∧ ¬ In (fst y) (docIds snapshot).
Proof.
  induction snapshot as [|d l IH]; intros c y; simpl; [tauto|].
  unfold removeDocs in *. simpl. rewrite IH, In_removeDoc. intuition congruence.
Qed.

Lemma forEach_deleteBans roomId (snapshot : list (string * BannedUser.t)) : ∀ w,
  ∃ w',
    forEach snapshot (fun docSnap => deleteDoc (bannedUsersRef roomId) (fst docSnap)) w
    = (Ok tt, w')
    ∧ bannedUsers w' !!! roomId = removeDocs snapshot (bannedUsers w !!! roomId)
    ∧ participants w' = participants w
    ∧ rooms w' = rooms w
    ∧ answers w' = answers w.
Proof.
  induction snapshot as [|d l IH]; intros w.
  - exists w. repeat split; reflexivity.
  - simpl forEach. unfold bind. unfold deleteDoc at 1. store_simpl.
    match goal with
    | |- context [forEach l ?f ?w1] => destruct (IH w1) as (w' & -> & Hb & Hp & Hr & Ha)
    end.
    exists w'. split; [reflexivity|].
    revert Hb Hp Hr Ha. store_simpl. rewrite lookup_total_insert_eq.
    intros -> -> -> ->. repeat split; reflexivity.
Qed.

Lemma unbanUser_spec roomId odId w :
  ∃ w',
    unbanUser roomId odId w = (Ok tt, w')
    ∧ whereDocs (isBanned odId) (bannedUsers w' !!! roomId) = []
    ∧ participants w' = participants w
    ∧ rooms w' = rooms w
    ∧ answers w' = answers w.
Proof.
  unfold unbanUser. unfold bind at 1, getDocs. store_simpl. fold (isBanned odId).
  destruct (forEach_deleteBans roomId
              (whereDocs (isBanned odId) (bannedUsers w !!! roomId)) w)
    as (w' & -> & Hb & Hp & Hr & Ha).
  exists w'. split; [reflexivity|]. split; [|auto].
  rewrite Hb.
  destruct (whereDocs _ (removeDocs _ _)) as [|y l] eqn:E; [reflexivity|].
  exfalso.
  assert (Hy : In y (whereDocs (isBanned odId)
                       (removeDocs (whereDocs (isBanned odId) (bannedUsers w !!! roomId))
                          (bannedUsers w !!! roomId)))).
  { rewrite E. left; reflexivity. }
  apply whereDocs_In in Hy as [Hy Hp'].
  apply In_removeDocs in Hy as [Hy Hn]. apply Hn.
  apply (in_map fst). apply whereDocs_In. split; assumption.
Qed.

(** C6: [kickParticipant], given a free name for the ban record, deletes
    the participant record and makes [isUserBanned] true for the identity;
    [unbanUser], in any world, deletes every ban record of the identity, so
    that [isUserBanned] is false, and leaves the participants as they are:
    after kick and unban the participant record is still gone. *)
Theorem kickParticipant_then_unbanUser
    autoId now roomId participantId odId displayName photoURL w :
  docData autoId (bannedUsers w !!! roomId) = None →
  ∃ w1,
    kickParticipant autoId now roomId participantId odId displayName photoURL w = (Ok tt, w1)
    ∧ docData participantId (participants w1 !!! roomId) = None
    ∧ isUserBanned roomId odId w1 = (Ok true, w1)
    ∧ (∀ w2, ∃ w3,
         unbanUser roomId odId w2 = (Ok tt, w3)
         ∧ whereDocs (isBanned odId) (bannedUsers w3 !!! roomId) = []
         ∧ isUserBanned roomId odId w3 = (Ok false, w3)
         ∧ participants w3 = participants w2)
    ∧ (∃ w3,
         unbanUser roomId odId w1 = (Ok tt, w3)
         ∧ isUserBanned roomId odId w3 = (Ok false, w3)
         ∧ docData participantId (participants w3 !!! roomId) = None).
Proof.
  intros Hfresh.
  assert (Hunban : ∀ w2, ∃ w3,
             unbanUser roomId odId w2 = (Ok tt, w3)
             ∧ whereDocs (isBanned odId) (bannedUsers w3 !!! roomId) = []
             ∧ isUserBanned roomId odId w3 = (Ok false, w3)
             ∧ participants w3 = participants w2).
  { intros w2. destruct (unbanUser_spec roomId odId w2) as (w3 & Hu & Hb & Hp & _).
    exists w3. repeat split; auto. rewrite isUserBanned_eq, Hb. reflexivity. }
  eexists. split.
  { unfold kickParticipant. store_unfold. store_simpl. rewrite Hfresh. reflexivity. }
  match goal with |- context [docData participantId (participants ?x !!! roomId)] =>
    set (w1 := x) end.
  assert (Hgone : docData participantId (participants w1 !!! roomId) = None).
  { unfold w1. store_simpl. rewrite lookup_total_insert_eq. apply docData_removeDoc_eq. }
  split; [exact Hgone|]. split; [|split; [exact Hunban|]].
  - apply (isUserBanned_true roomId odId w1 autoId
             (BannedUser.mk odId displayName photoURL now)); [|reflexivity].
    unfold w1. store_simpl. rewrite lookup_total_insert_eq.
    apply In_insertDoc. left; reflexivity.
  - destruct (Hunban w1) as (w3 & Hu & _ & Hb & Hp).
    exists w3. repeat split; auto. rewrite Hp. exact Hgone.
Qed.

(** The host kicks Bob, and later lifts the ban. *)
Lemma kickParticipant_then_unbanUser_witness :
  ∃ w1,
    kickParticipant "b1" 1003 "room1" "p2" "u2" "Bob" None Session.joined = (Ok tt, w1)
    ∧ docData "p2" (participants w1 !!! "room1") = None
    ∧ isUserBanned "room1" "u2" w1 = (Ok true, w1)
    ∧ ∃ w3,
        unbanUser "room1" "u2" w1 = (Ok tt, w3)
        ∧ isUserBanned "room1" "u2" w3 = (Ok false, w3)
        ∧ docData "p2" (participants w3 !!! "room1") = None.
Proof.
  destruct (kickParticipant_then_unbanUser "b1" 1003 "room1" "p2" "u2" "Bob" None
              Session.joined eq_refl) as (w1 & Hkick & Hgone & Hbanned & _ & Hunban).
  exists w1. auto.
Defined.

(** ** Closing a question: the snapshot and the opening of the room *)

Lemma sameDocuments_refl w : sameDocuments w w.
Proof. repeat split. Qed.

Lemma sameDocuments_trans w1 w2 w3 :
  sameDocuments w1 w2 → sameDocuments w2 w3 → sameDocuments w1 w3.
Proof.
  intros (A1 & A2 & A3 & A4 & A5 & A6) (B1 & B2 & B3 & B4 & B5 & B6).
  repeat split; congruence.
Qed.

Section SnapshotFacts.
Variable atob : string -> option string.
Variable downloadURL : string -> string.
Variable uploadOk : string -> bool.
Variable roomId : string.
Variable question : string * Question.t.

Lemma uploadAnswer_cases dateNow answer w :
  let fileName := historyFileName dateNow roomId question answer in
  ∃ w',
    snd (uploadAnswer atob downloadURL uploadOk dateNow roomId question answer w) = w'
    ∧ sameDocuments w w'
    ∧ (∀ p, p ≠ fileName → storage w' !! p = storage w !! p)
    ∧ (∀ p, is_Some (storage w !! p) → is_Some (storage w' !! p))
    ∧ if uploadSucceeds atob uploadOk roomId question dateNow answer
      then fst (uploadAnswer atob downloadURL uploadOk dateNow roomId question answer w)
           = Ok (savedAnswer downloadURL roomId question dateNow answer)
           ∧ log w' = log w ++ [Uploaded fileName]
           ∧ storage w' !! fileName = base64ToBlob atob (Answer.canvasData (snd answer))
           ∧ is_Some (storage w' !! fileName)
      else (∃ e, fst (uploadAnswer atob downloadURL uploadOk dateNow roomId question answer w)
                 = Throw e)
           ∧ w' = w.
Proof.
  intros fileName. eexists. split; [reflexivity|].
  unfold uploadAnswer, uploadSucceeds. fold fileName.
  destruct (base64ToBlob atob _) as [blob|].
  2:{ unfold bind, orThrow, throw. simpl. split; [apply sameDocuments_refl|].
      split; [auto|]. split; [auto|]. split; [eauto|reflexivity]. }
  unfold orThrow. unfold bind at 1, ret at 1. unfold bind at 1, uploadBytes.
  destruct (uploadOk fileName).
  2:{ simpl. split; [apply sameDocuments_refl|].
      split; [auto|]. split; [auto|]. split; [eauto|reflexivity]. }
  unfold bind, getDownloadURL, ret. store_simpl. rewrite lookup_insert_eq. store_simpl.
  split; [repeat split|]. split; [|split].
  - intros p Hp. apply lookup_insert_ne. congruence.
  - intros p Hp. destruct (decide (fileName = p)) as [<-|Hne].
    + rewrite lookup_insert_eq. eauto.
    + rewrite lookup_insert_ne by assumption. exact Hp.
  - split; [reflexivity|]. split; [reflexivity|]. rewrite lookup_insert_eq. eauto.
Qed.

Lemma promiseAll_uploads answers : ∀ (dateNow : nat → Z) w,
  let ps := imap (λ i a, uploadAnswer atob downloadURL uploadOk (dateNow i) roomId question a)
                 answers in
  let paths := imap (λ i a, historyFileName (dateNow i) roomId question a) answers in
  ∃ w',
    snd (promiseAll ps w) = w'
    ∧ sameDocuments w w'
    ∧ (∀ p, ¬ In p paths → storage w' !! p = storage w !! p)
    ∧ (∀ p, is_Some (storage w !! p) → is_Some (storage w' !! p))
    ∧ if forallb (λ ok : bool, ok)
            (imap (λ i a, uploadSucceeds atob uploadOk roomId question (dateNow i) a) answers)
      then fst (promiseAll ps w)
           = Ok (imap (λ i a, savedAnswer downloadURL roomId question (dateNow i) a) answers)
           ∧ log w' = log w ++ List.map Uploaded paths
           ∧ (∀ p, In p paths → is_Some (storage w' !! p))
           ∧ (NoDup paths →
              ∀ i a, answers !! i = Some a →
                     storage w' !! historyFileName (dateNow i) roomId question a
                     = base64ToBlob atob (Answer.canvasData (snd a)))
      else (∃ e, fst (promiseAll ps w) = Throw e)
           ∧ ∃ uploaded, log w' = log w ++ List.map Uploaded uploaded.
Proof.
  induction answers as [|a answers IH]; intros dateNow w.
  - simpl. exists w. split; [reflexivity|]. split; [apply sameDocuments_refl|].
    split; [auto|]. split; [auto|]. split; [reflexivity|]. split; [|split].
    + rewrite app_nil_r. reflexivity.
    + intros p [].
    + intros _ i a Hi. destruct i; discriminate Hi.
  - cbv zeta. rewrite !imap_cons. simpl promiseAll. simpl forallb.
    destruct (uploadAnswer_cases (dateNow 0%nat) a w)
      as (w1 & Hw1 & Hd1 & Hf1 & Hs1 & H1).
    destruct (uploadAnswer atob downloadURL uploadOk (dateNow 0%nat) roomId question a w)
      as [r1 w1'] eqn:E1.
    simpl in Hw1. subst w1'.
    specialize (IH (dateNow ∘ S) w1). cbv zeta in IH.
    destruct IH as (w2 & Hw2 & Hd2 & Hf2 & Hs2 & H2).
    change (λ (i : nat) (a0 : string * Answer.t),
             uploadAnswer atob downloadURL uploadOk ((dateNow ∘ S) i) roomId question a0)
      with ((λ (i : nat) (a0 : string * Answer.t),
             uploadAnswer atob downloadURL uploadOk (dateNow i) roomId question a0) ∘ S) in *.
    change (λ (i : nat) (a0 : string * Answer.t),
             historyFileName ((dateNow ∘ S) i) roomId question a0)
      with ((λ (i : nat) (a0 : string * Answer.t),
             historyFileName (dateNow i) roomId question a0) ∘ S) in *.
    destruct (promiseAll _ w1) as [rs w2'] eqn:E2.
    simpl in Hw2. subst w2'. simpl fst in *. simpl snd.
    exists w2. split; [reflexivity|].
    split; [eapply sameDocuments_trans; eassumption|].
    split.
    { intros p Hp. rewrite Hf2, Hf1; [reflexivity| |].
      - intros ->. apply Hp. left; reflexivity.
      - intros Hin. apply Hp. right. exact Hin. }
    split; [auto|].
    change (λ (i : nat) (a0 : string * Answer.t),
              uploadSucceeds atob uploadOk roomId question ((dateNow ∘ S) i) a0)
      with ((λ (i : nat) (a0 : string * Answer.t),
               uploadSucceeds atob uploadOk roomId question (dateNow i) a0) ∘ S) in H2.
    destruct (uploadSucceeds atob uploadOk roomId question (dateNow 0%nat) a); cbn [andb].
    + destruct H1 as (-> & Hl1 & Hb1 & Hin1).
      destruct (forallb _ _).
      * destruct H2 as (-> & Hl2 & Hin2 & Hb2). split; [reflexivity|]. split; [|split].
        -- rewrite Hl2, Hl1, <- app_assoc. reflexivity.
        -- intros p [<-|Hp]; [apply Hs2, Hin1|apply Hin2, Hp].
        -- intros Hnd i a' Hi. apply NoDup_cons in Hnd as [Hnotin Hnd].
           destruct i as [|i]; simpl in Hi.
           ++ injection Hi as <-. rewrite Hf2; [exact Hb1|].
              intros Hin. apply Hnotin, list_elem_of_In, Hin.
           ++ apply (Hb2 Hnd i a' Hi).
      * destruct H2 as ([e ->] & ups & Hl2). split; [eauto|].
        exists (historyFileName (dateNow 0%nat) roomId question a :: ups).
        rewrite Hl2, Hl1, <- app_assoc. reflexivity.
    + destruct H1 as ([e ->] & ->). split; [eauto|].
      destruct (forallb _ _).
      * destruct H2 as (_ & Hl2 & _). eauto.
      * destruct H2 as (_ & ups & Hl2). eauto.
Qed.
End SnapshotFacts.


Lemma saveGameResult_run atob downloadURL uploadOk dateNow autoId now
    roomId roomCode hostId question answers w :
  saveGameResult atob downloadURL uploadOk dateNow autoId now
    roomId roomCode hostId question answers w
  = match promiseAll
            (imap (λ i a, uploadAnswer atob downloadURL uploadOk (dateNow i) roomId question a)
                  answers) w with
    | (Ok savedAnswers, w1) =>
        let result :=
          GameResult.mk roomId roomCode hostId (Question.text (snd question))
                        (Question.imageURL (snd question)) savedAnswers now in
        match docData autoId (gameResults w1) with
        | Some _ => (Throw ErrAlreadyExists, w1)
        | None =>
            (Ok (autoId, Some result),
             record (Added GameResults autoId)
               (setGameResults (insertDoc autoId result (gameResults w1)) w1))
        end
    | (Throw e, w1) => (Throw e, w1)
    end.
Proof.
  unfold saveGameResult, bind.
  destruct (promiseAll _ w) as [[saved|e] w1]; [|reflexivity].
  unfold addDoc. store_simpl. cbv zeta.
  destruct (docData autoId (gameResults w1)) eqn:Hg; [reflexivity|].
  unfold getDoc, ret. store_simpl.
  rewrite docData_insertDoc_eq by assumption. reflexivity.
Qed.

Section HandleOpen.
Variable atob : string -> option string.
Variable downloadURL : string -> string.
Variable roomId : string.
Variable user : option string.
Variable uploadOk : string -> bool.
Variable dateNow : nat -> Z.
Variable autoId : string.
Variable now : Z.



End HandleOpen.


(** ** The status of a room *)

Section StatusFacts.
Variable downloadURL : string → string.
Variable roomId : string.




End StatusFacts.



(** ** Room codes *)

Section RoomCodeFacts.

Lemma list_ascii_app s t :
  list_ascii_of_string (s +:+ t) = list_ascii_of_string s ++ list_ascii_of_string t.
Proof. induction s as [|c s IH]; simpl; [|rewrite IH]; reflexivity. Qed.

Lemma string_length_app s t :
  String.length (s +:+ t) = (String.length s + String.length t)%nat.
Proof. induction s as [|c s IH]; simpl; [|rewrite IH]; reflexivity. Qed.

Lemma charAt_chars k :
  0 ≤ k < 32 →
  ∃ c, charAt k chars = String c EmptyString
       ∧ In c (list_ascii_of_string chars) ∧ ¬ In c ambiguous.
Proof.
  intros Hk. unfold charAt. destruct (Z.ltb_spec k 0); [lia|].
  assert (Hn : (Z.to_nat k < 32)%nat) by lia.
  revert Hn. generalize (Z.to_nat k) as n. intros n Hn.
  do 32 (destruct n as [|n];
         [eexists; split; [reflexivity|]; split;
          [simpl; tauto | simpl; intros Hc; intuition discriminate]|]).
  lia.
Qed.

Lemma random_index (x : Q) :
  (0 <= x)%Q → (x < 1)%Q →
  0 ≤ Qfloor (x * inject_Z (Z.of_nat (String.length chars))) < 32.
Proof.
  intros H0 H1. change (inject_Z (Z.of_nat (String.length chars))) with (inject_Z 32).
  split.
  - assert (Hpos : (0 <= x * inject_Z 32)%Q).
    { apply Qmult_le_0_compat; [exact H0|]. discriminate. }
    apply Qfloor_resp_le in Hpos. exact Hpos.
  - rewrite Zlt_Qlt. eapply Qle_lt_trans; [apply Qfloor_le|].
    apply Qlt_le_trans with (1 * inject_Z 32)%Q.
    + apply Qmult_lt_compat_r; [reflexivity|exact H1].
    + unfold Qle. simpl. lia.
Qed.

Lemma generateRoomCodeLoop_spec random n : ∀ i code,
  (∀ j, (0 <= random j)%Q ∧ (random j < 1)%Q) →
  codeChars code →
  String.length (generateRoomCodeLoop random n i code) = (String.length code + n)%nat
  ∧ codeChars (generateRoomCodeLoop random n i code).
Proof.
  induction n as [|n IH]; intros i code Hrand Hcode; cbn [generateRoomCodeLoop].
  - split; [lia|exact Hcode].
  - destruct (Hrand i) as [H0 H1].
    destruct (charAt_chars _ (random_index (random i) H0 H1)) as (c & Hc & Hin & Hamb).
    rewrite Hc.
    destruct (IH (S i) (code +:+ String c EmptyString) Hrand) as [Hlen Hchars].
    { intros c' Hc'. rewrite list_ascii_app in Hc'. apply in_app_iff in Hc' as [Hc'|Hc'].
      - apply Hcode, Hc'.
      - simpl in Hc'. destruct Hc' as [<-|[]]. auto. }
    split; [|exact Hchars].
    rewrite Hlen, string_length_app. simpl. lia.
Qed.

Lemma generateRoomCode_spec random :
  (∀ j, (0 <= random j)%Q ∧ (random j < 1)%Q) →
  String.length (generateRoomCode random) = 6%nat ∧ codeChars (generateRoomCode random).
Proof.
  intros Hrand. unfold generateRoomCode.
  destruct (generateRoomCodeLoop_spec random 6 0%nat EmptyString Hrand) as [Hlen Hchars].
  - intros c [].
  - split; [exact Hlen|exact Hchars].
Qed.

Lemma upperChar_chars c : In c (list_ascii_of_string chars) → upperChar c = c.
Proof.
  simpl. intros H.
  repeat (destruct H as [<-|H]; [reflexivity|]). destruct H.
Qed.

Lemma toUpperCase_fixed s :
  (∀ c, In c (list_ascii_of_string s) → upperChar c = c) → toUpperCase s = s.
Proof.
  induction s as [|c s IH]; intros H; simpl; [reflexivity|].
  rewrite (H c) by (simpl; auto). rewrite IH; [reflexivity|].
  intros c' Hc'. apply H. simpl. auto.
Qed.

Lemma getRoomByCode_eq code w :
  getRoomByCode code w = (Ok (head (whereDocs (hasRoomCode code) (rooms w))), w).
Proof. reflexivity. Qed.

(** C10: a room created by [createRoom] has a code of exactly 6 characters,
    all of the 32-character alphabet and none of I, O, 0, 1; and
    [getRoomByCode] compares the stored codes with its argument in upper
    case, so two arguments that differ in case only get the same answer and
    the room is found under any casing of its code. *)
Theorem createRoom_code_and_lookup autoId random now hostId maxParticipants w :
  (∀ j, (0 <= random j)%Q ∧ (random j < 1)%Q) →
  docData autoId (rooms w) = None →
  ∃ r w',
    createRoom autoId random now hostId maxParticipants w = (Ok (autoId, Some r), w')
    ∧ docData autoId (rooms w') = Some r
    ∧ Room.status r = waiting
    ∧ String.length (Room.roomCode r) = 6%nat
    ∧ (∀ c, In c (list_ascii_of_string (Room.roomCode r)) →
            In c (list_ascii_of_string chars) ∧ ¬ In c ambiguous)
    ∧ (∀ code w0,
         getRoomByCode code w0
         = (Ok (head (whereDocs (λ x, String.eqb (Room.roomCode x) (toUpperCase code))
                        (rooms w0))), w0))
    ∧ (∀ code1 code2 w0,
         toUpperCase code1 = toUpperCase code2 →
         getRoomByCode code1 w0 = getRoomByCode code2 w0)
    ∧ (∀ code,
         toUpperCase code = Room.roomCode r →
         ∃ found,
           getRoomByCode code w' = (Ok (Some found), w')
           ∧ Room.roomCode (snd found) = Room.roomCode r)
    ∧ toUpperCase (Room.roomCode r) = Room.roomCode r.
Proof.
  intros Hrand Hfresh.
  destruct (generateRoomCode_spec random Hrand) as [Hlen Hchars].
  eexists _, _. split.
  { unfold createRoom. store_unfold. store_simpl. rewrite Hfresh. store_simpl.
    rewrite docData_insertDoc_eq by assumption. reflexivity. }
  store_simpl. simpl Room.roomCode. simpl Room.status.
  split; [apply docData_insertDoc_eq, Hfresh|].
  split; [reflexivity|]. split; [exact Hlen|]. split; [exact Hchars|].
  split; [reflexivity|]. split.
  { intros code1 code2 w0 Heq. rewrite !getRoomByCode_eq. unfold hasRoomCode.
    rewrite Heq. reflexivity. }
  split.
  - intros code Hcode. rewrite getRoomByCode_eq. store_simpl.
    match goal with |- context [insertDoc autoId ?r (rooms w)] => set (r0 := r) end.
    destruct (whereDocs (hasRoomCode code) (insertDoc autoId r0 (rooms w)))
      as [|found rest] eqn:E.
    + exfalso.
      assert (Hin : In (autoId, r0) (whereDocs (hasRoomCode code)
                                       (insertDoc autoId r0 (rooms w)))).
      { apply whereDocs_In. split; [apply In_insertDoc; left; reflexivity|].
        unfold hasRoomCode. simpl. rewrite Hcode. apply String.eqb_refl. }
      rewrite E in Hin. destruct Hin.
    + exists found. split; [reflexivity|].
      assert (Hin : In found (whereDocs (hasRoomCode code)
                                (insertDoc autoId r0 (rooms w)))).
      { rewrite E. left; reflexivity. }
      apply whereDocs_In in Hin as [_ Hp]. unfold hasRoomCode in Hp.
      apply String.eqb_eq in Hp. rewrite Hp, Hcode. reflexivity.
  - apply toUpperCase_fixed. intros c Hc. apply upperChar_chars, Hchars, Hc.
Qed.
End RoomCodeFacts.

(** The room of the session: its code, and its lookup in lower case. *)
Lemma createRoom_code_and_lookup_witness :
  ∃ r w',
    createRoom "room1" Session.random 1000 "host1" (Some 2) emptyWorld
    = (Ok ("room1", Some r), w')
    ∧ Room.roomCode r = "SSSSSS"
    ∧ String.length (Room.roomCode r) = 6%nat
    ∧ ∃ found,
        getRoomByCode "ssssss" w' = (Ok (Some found), w')
        ∧ Room.roomCode (snd found) = "SSSSSS".
Proof.
  destruct (createRoom_code_and_lookup "room1" Session.random 1000 "host1" (Some 2) emptyWorld)
    as (r & w' & Hrun & _ & _ & Hlen & _ & _ & _ & Hfind & _).
  - intros j. split; [discriminate|reflexivity].
  - reflexivity.
  - assert (Hcode : Room.roomCode r = "SSSSSS").
    { vm_compute in Hrun. injection Hrun as <- _. reflexivity. }
    exists r, w'. split; [exact Hrun|]. split; [exact Hcode|]. split; [exact Hlen|].
    destruct (Hfind "ssssss") as (found & Hget & Hsame).
    + rewrite Hcode. reflexivity.
    + exists found. split; [exact Hget|]. rewrite Hsame. exact Hcode.
Defined.

(* ===================================================================== *)
(** * Further properties of the code *)
(* ===================================================================== *)

(** ** The drawing surface: strokes and undo *)

Section SurfaceFacts.
Import DrawingCanvas.
Context {Point : Type}.
Variable fillRect : Context Point -> Z -> Z -> list Z -> list Z.
Variable stroke : Context Point -> list Z -> list Z.
Variable toDataURL : list Z -> string.

Lemma saveToHistory_top (st : State Point) :
  historyInv st → is_Some (contextRef st) →
  historyRef (saveToHistory st) !! Z.to_nat (historyIndexRef (saveToHistory st))
  = Some (canvas st).
Proof.
  intros Hinv Hctx.
  destruct (saveToHistory_appends st Hinv Hctx) as (Hlen & _ & Hlast & Hidx & _).
  rewrite Hidx. rewrite last_lookup in Hlast.
  replace (Z.to_nat (Z.of_nat (length (historyRef (saveToHistory st))) - 1))
    with (pred (length (historyRef (saveToHistory st)))) by lia.
  exact Hlast.
Qed.

Lemma saveToHistory_keeps (st : State Point) :
  contextRef (saveToHistory st) = contextRef st
  ∧ isDrawing (saveToHistory st) = isDrawing st.
Proof.
  unfold saveToHistory. destruct (contextRef st) eqn:E; [|auto].
  destruct (50 <? _); simpl; auto.
Qed.

Lemma step_rest p (st : State Point) ev :
  historyInv st → restInv st → restInv (step fillRect stroke toDataURL p st ev).
Proof.
  intros Hinv Hrest. pose proof Hinv as (H1 & H2 & H3 & H4 & H5).
  destruct ev; simpl.
  - destruct available; [|exact Hrest].
    intros _ _. reflexivity.
  - unfold startDrawing. destruct (contextRef st) eqn:Hc; [|exact Hrest].
    destruct (disabled p); [exact Hrest|]. destruct coords; [|exact Hrest].
    intros Hd. discriminate Hd.
  - unfold draw. destruct (contextRef st) eqn:Hc; [|exact Hrest].
    destruct (isDrawing st) eqn:Hd; simpl; [|exact Hrest].
    destruct (disabled p); [exact Hrest|]. destruct coords; [|exact Hrest].
    intros Hd'. simpl in Hd'. congruence.
  - unfold stopDrawing. destruct (isDrawing st) eqn:Hd; simpl; [|exact Hrest].
    intros _ _.
    destruct (notify_history toDataURL p (saveToHistory (setIsDrawing false st)))
      as (-> & -> & ->).
    assert (Hinv' : historyInv (setIsDrawing false st)).
    { unfold historyInv; simpl. repeat split; try lia; auto; discriminate. }
    assert (Hctx' : is_Some (contextRef (setIsDrawing false st))) by (simpl; auto).
    rewrite (saveToHistory_top _ Hinv' Hctx').
    destruct (saveToHistory_appends _ Hinv' Hctx') as (_ & _ & _ & _ & ->). reflexivity.
  - unfold handleUndo. destruct (contextRef st) eqn:Hc; [|exact Hrest].
    destruct (Z.leb_spec (historyIndexRef st) 0); [exact Hrest|].
    destruct (historyRef st !! _) eqn:Hl.
    + intros _ _.
      destruct (notify_history toDataURL p (setCanvas l (setIndex (historyIndexRef st - 1) st)))
        as (-> & -> & ->). simpl. exact Hl.
    + apply lookup_ge_None in Hl. lia.
  - unfold handleClear. destruct (contextRef st) eqn:Hc; [|exact Hrest].
    intros _ _.
    match goal with |- context [notify toDataURL p (saveToHistory ?s)] => set (s1 := s) end.
    destruct (notify_history toDataURL p (saveToHistory s1)) as (-> & -> & ->).
    assert (Hinv' : historyInv s1).
    { unfold historyInv, s1; simpl. repeat split; try lia; eauto. }
    assert (Hctx' : is_Some (contextRef s1)) by (unfold s1; simpl; eauto).
    rewrite (saveToHistory_top _ Hinv' Hctx').
    destruct (saveToHistory_appends _ Hinv' Hctx') as (_ & _ & _ & _ & ->). reflexivity.
Qed.

Lemma run_rest p evs : ∀ st : State Point,
  historyInv st → restInv st →
  restInv (run fillRect stroke toDataURL p evs st).
Proof.
  induction evs as [|ev evs IH]; intros st Hinv Hrest; simpl; [exact Hrest|].
  apply IH; [apply step_inv, Hinv|apply step_rest; assumption].
Qed.

Lemma initial_rest p : restInv (initial (Point:=Point) p).
Proof. intros _ [x Hx]. discriminate Hx. Qed.

(** While a stroke is open, moving the pointer changes the canvas and the
    path only. *)
Lemma draws_keep p moves : ∀ st : State Point,
  isDrawing st = true → is_Some (contextRef st) →
  let st' := run fillRect stroke toDataURL p (List.map Draw moves) st in
  isDrawing st' = true ∧ is_Some (contextRef st')
  ∧ historyRef st' = historyRef st ∧ historyIndexRef st' = historyIndexRef st
  ∧ emitted st' = emitted st.
Proof.
  induction moves as [|m moves IH]; intros st Hd Hc; simpl; [auto|].
  assert (Hstep : let s1 := draw stroke p m st in
            isDrawing s1 = true ∧ is_Some (contextRef s1)
            ∧ historyRef s1 = historyRef st ∧ historyIndexRef s1 = historyIndexRef st
            ∧ emitted s1 = emitted st).
  { unfold draw. destruct Hc as [ctx Hctx]. rewrite Hctx, Hd. simpl.
    destruct (disabled p); [rewrite Hctx; eauto 6|].
    destruct m; simpl; [eauto 6|rewrite Hctx; eauto 6]. }
  cbv zeta in Hstep. destruct Hstep as (A & B & C & D & E).
  destruct (IH _ A B) as (A' & B' & C' & D' & E').
  cbv zeta. rewrite C', D', E'. auto.
Qed.

(** X1: on a mounted surface at rest that is not disabled, a stroke (the
    pointer goes down, moves any number of times, and goes up) followed by
    [handleUndo] puts back the canvas as it was before the stroke; the
    index is back where it was (or at 48 when the history was full), and
    the parent, if it listens, is handed the data URL of that canvas. *)
Theorem stroke_then_undo_restores (p : Props) (evs : list (Event Point))
    (c : Point) (moves : list (option Point)) :
  let st := run fillRect stroke toDataURL p evs (initial p) in
  disabled p = false → isDrawing st = false → is_Some (contextRef st) →
  let stroked :=
    run fillRect stroke toDataURL p
        (StartDrawing (Some c) :: List.map Draw moves ++ [StopDrawing]) st in
  let undone := handleUndo toDataURL p stroked in
  isDrawing stroked = false
  ∧ canvas undone = canvas st
  ∧ historyIndexRef undone = Z.min (historyIndexRef st) 48
  ∧ (onChange p = true → last (emitted undone) = Some (toDataURL (canvas st))).
Proof.
  intros st Hen Hd Hc stroked undone.
  assert (Hinv : historyInv st) by (apply run_inv, initial_inv).
  assert (Hrest : restInv st) by (apply run_rest; [apply initial_inv|apply initial_rest]).
  pose proof Hinv as (H1 & H2 & H3 & H4 & H5).
  specialize (Hrest Hd Hc). specialize (H5 Hc).
  destruct Hc as [ctx Hctx].
  (* the stroke opens *)
  set (s1 := startDrawing p (Some c) st).
  assert (Hs1 : isDrawing s1 = true ∧ is_Some (contextRef s1)
                ∧ historyRef s1 = historyRef st ∧ historyIndexRef s1 = historyIndexRef st).
  { unfold s1, startDrawing. rewrite Hctx, Hen. simpl. eauto. }
  destruct Hs1 as (A1 & B1 & C1 & D1).
  (* the pointer moves *)
  set (s2 := run fillRect stroke toDataURL p (List.map Draw moves) s1).
  destruct (draws_keep p moves s1 A1 B1) as (A2 & B2 & C2 & D2 & _). fold s2 in A2, B2, C2, D2.
  assert (Hstroked : stroked = stopDrawing toDataURL p s2).
  { unfold stroked, run. simpl. rewrite foldl_app. reflexivity. }
  (* the stroke is closed *)
  set (s3 := setIsDrawing false s2).
  assert (Hinv3 : historyInv s3).
  { unfold historyInv, s3; simpl. rewrite C2, C1, D2, D1.
    split; [lia|]. split; [lia|]. split; [lia|]. split; [discriminate|]. intros _; lia. }
  assert (Hctx3 : is_Some (contextRef s3)) by (unfold s3; simpl; exact B2).
  assert (Hstack : undoStack s3 = undoStack st).
  { unfold undoStack, s3. simpl. rewrite C2, C1, D2, D1. reflexivity. }
  destruct (saveToHistory_appends s3 Hinv3 Hctx3) as (Hlen & Hhist & Hlast & Hidx & Hcanvas).
  rewrite Hstack in Hhist.
  destruct (saveToHistory_keeps s3) as [Hk1 Hk2].
  assert (Hctx4 : is_Some (contextRef (saveToHistory s3))) by (rewrite Hk1; exact Hctx3).
  assert (Hd4 : isDrawing (saveToHistory s3) = false) by (rewrite Hk2; reflexivity).
  pose proof (undoStack_length st ltac:(lia)) as HL.
  (* the snapshot below the top is the canvas from before the stroke *)
  assert (Hstackidx : undoStack st !! Z.to_nat (historyIndexRef st) = Some (canvas st)).
  { unfold undoStack. rewrite lookup_take_lt by lia. exact Hrest. }
  assert (Hprior : historyRef (saveToHistory s3)
                     !! Z.to_nat (historyIndexRef (saveToHistory s3) - 1) = Some (canvas st)
                   ∧ 0 < historyIndexRef (saveToHistory s3)
                   ∧ historyIndexRef (saveToHistory s3) - 1 = Z.min (historyIndexRef st) 48).
  { rewrite Hidx, Hhist.
    destruct (Nat.ltb_spec (length (undoStack st)) 50).
    - rewrite length_app. simpl length.
      split; [|lia].
      rewrite lookup_app_l by lia.
      replace (Z.to_nat (Z.of_nat (length (undoStack st) + 1) - 1 - 1))
        with (Z.to_nat (historyIndexRef st)) by lia.
      exact Hstackidx.
    - assert (HL50 : length (undoStack st) = 50%nat).
      { unfold undoStack. unfold undoStack in H. rewrite length_take in *. lia. }
      rewrite tail_length, length_app. simpl length.
      split; [|lia].
      rewrite lookup_tail.
      replace (S (Z.to_nat (Z.of_nat (pred (length (undoStack st) + 1)) - 1 - 1)))
        with (Z.to_nat (historyIndexRef st)) by lia.
      rewrite lookup_app_l by lia. exact Hstackidx. }
  destruct Hprior as (Hprior & Hpos & Hmin).
  assert (Hstop : stopDrawing toDataURL p s2 = notify toDataURL p (saveToHistory s3)).
  { unfold stopDrawing. rewrite A2. reflexivity. }
  destruct (notify_history toDataURL p (saveToHistory s3)) as (Nh & Ni & Nc).
  assert (Nctx : contextRef (notify toDataURL p (saveToHistory s3))
                 = contextRef (saveToHistory s3)).
  { unfold notify. destruct (onChange p); reflexivity. }
  assert (Nd : isDrawing (notify toDataURL p (saveToHistory s3))
               = isDrawing (saveToHistory s3)).
  { unfold notify. destruct (onChange p); reflexivity. }
  split; [rewrite Hstroked, Hstop, Nd; exact Hd4|].
  unfold undone. rewrite Hstroked, Hstop. unfold handleUndo.
  rewrite Nctx. destruct Hctx4 as [ctx4 ->]. rewrite Ni, Nh.
  destruct (Z.leb_spec (historyIndexRef (saveToHistory s3)) 0); [lia|].
  rewrite Hprior.
  match goal with |- context [notify toDataURL p (setCanvas ?x ?s)] =>
    destruct (notify_history toDataURL p (setCanvas x s)) as (_ & -> & ->) end.
  simpl. split; [reflexivity|]. split; [exact Hmin|].
  intros Hon. unfold notify at 1. rewrite Hon. simpl. apply last_snoc.
Qed.

(** While disabled and at rest, pointer events change nothing. *)
Lemma disabled_rest p evs : ∀ st : State Point,
  disabled p = true → Forall (λ ev, isPointerEvent ev = true) evs →
  isDrawing st = false →
  run fillRect stroke toDataURL p evs st = st.
Proof.
  intros st Hdis Hptr. revert st.
  induction Hptr as [|ev evs Hev _ IH]; intros st Hst; simpl; [reflexivity|].
  assert (Hsame : step fillRect stroke toDataURL p st ev = st).
  { destruct ev; simpl in Hev; try discriminate; simpl.
    - unfold startDrawing. destruct (contextRef st); [|reflexivity]. rewrite Hdis. reflexivity.
    - unfold draw. destruct (contextRef st); [|reflexivity]. rewrite Hst. reflexivity.
    - unfold stopDrawing. rewrite Hst. reflexivity. }
  rewrite Hsame. apply IH, Hst.
Qed.

Lemma stopDrawing_closes p (st : State Point) :
  isDrawing st = true →
  isDrawing (stopDrawing toDataURL p st) = false
  ∧ canvas (stopDrawing toDataURL p st) = canvas st.
Proof.
  intros Hd. unfold stopDrawing. rewrite Hd. simpl negb. cbv iota.
  destruct (notify_history toDataURL p (saveToHistory (setIsDrawing false st)))
    as (_ & _ & ->).
  destruct (saveToHistory_keeps (setIsDrawing false st)) as [_ Hk].
  split.
  - unfold notify. destruct (onChange p); simpl; rewrite Hk; reflexivity.
  - unfold saveToHistory. destruct (contextRef _); [|reflexivity].
    destruct (50 <? _); reflexivity.
Qed.

(** X2: while the surface is disabled, pointer events (down, move, up)
    open no stroke and put no ink on the canvas. Where no stroke is open
    they change nothing at all: canvas, history, index and what the parent
    was told all stay. A stroke that was open when the surface became
    disabled is closed by the first pointer-up, which saves the canvas as a
    snapshot on top of the history and tells the parent, as [stopDrawing]
    does not ask whether the surface is disabled; until then, and after it,
    nothing changes. *)
Theorem disabled_surface_takes_no_ink (p : Props) (st : State Point)
    (evs : list (Event Point)) :
  disabled p = true →
  Forall (λ ev, isPointerEvent ev = true) evs →
  let st' := run fillRect stroke toDataURL p evs st in
  canvas st' = canvas st
  ∧ (isDrawing st = false → st' = st)
  ∧ (isDrawing st = true →
     st' = (if existsb isPointerUp evs then stopDrawing toDataURL p st else st)
     ∧ (historyInv st →
        let closed := stopDrawing toDataURL p st in
        isDrawing closed = false
        ∧ historyRef closed !! Z.to_nat (historyIndexRef closed) = Some (canvas st)
        ∧ (onChange p = true → emitted closed = emitted st ++ [toDataURL (canvas st)])
        ∧ (onChange p = false → emitted closed = emitted st))).
Proof.
  intros Hdis Hptr st'.
  assert (Hopen : isDrawing st = true →
            st' = (if existsb isPointerUp evs then stopDrawing toDataURL p st else st)).
  { unfold st'. clear st'. induction Hptr as [|ev evs Hev Hptr IH]; intros Hd; simpl;
      [reflexivity|].
    destruct ev; simpl in Hev; try discriminate; simpl.
    - assert (Hs : startDrawing p coords st = st).
      { unfold startDrawing. destruct (contextRef st); [|reflexivity].
        rewrite Hdis. reflexivity. }
      rewrite Hs. apply IH, Hd.
    - assert (Hs : draw stroke p coords st = st).
      { unfold draw. destruct (contextRef st); [|reflexivity].
        rewrite Hdis, orb_true_r. reflexivity. }
      rewrite Hs. apply IH, Hd.
    - apply (disabled_rest p evs _ Hdis Hptr).
      apply (stopDrawing_closes p st Hd). }
  split; [|split].
  - destruct (isDrawing st) eqn:Hd.
    + rewrite (Hopen eq_refl). destruct (existsb _ _); [|reflexivity].
      apply (stopDrawing_closes p st Hd).
    + unfold st'. rewrite (disabled_rest p evs st Hdis Hptr Hd). reflexivity.
  - intros Hd. apply (disabled_rest p evs st Hdis Hptr Hd).
  - intros Hd. split; [exact (Hopen Hd)|].
    intros Hinv closed.
    pose proof Hinv as (H1 & H2 & H3 & H4 & H5).
    split; [apply (stopDrawing_closes p st Hd)|].
    assert (Hinv' : historyInv (setIsDrawing false st)).
    { unfold historyInv; simpl.
      split; [lia|]. split; [lia|]. split; [lia|]. split; [discriminate|]. exact H5. }
    assert (Hctx' : is_Some (contextRef (setIsDrawing false st))) by (simpl; auto).
    assert (Hclosed : closed = notify toDataURL p (saveToHistory (setIsDrawing false st))).
    { unfold closed, stopDrawing. rewrite Hd. reflexivity. }
    destruct (notify_history toDataURL p (saveToHistory (setIsDrawing false st)))
      as (Nh & Ni & _).
    split.
    { rewrite Hclosed, Nh, Ni. apply (saveToHistory_top _ Hinv' Hctx'). }
    assert (Hcanvas : canvas (saveToHistory (setIsDrawing false st)) = canvas st).
    { destruct (saveToHistory_appends _ Hinv' Hctx') as (_ & _ & _ & _ & ->). reflexivity. }
    assert (Hem : emitted (saveToHistory (setIsDrawing false st)) = emitted st).
    { unfold saveToHistory. destruct (contextRef _); [|reflexivity].
      destruct (50 <? _); reflexivity. }
    split; intros Hon; rewrite Hclosed; unfold notify; rewrite Hon; simpl.
    + rewrite Hcanvas, Hem. reflexivity.
    + exact Hem.
Qed.

End SurfaceFacts.

(** A second stroke on the surface of the session, then undo. *)
Lemma stroke_then_undo_restores_witness :
  let st := DrawingCanvas.run Session.paintWhite Session.paintBlack Session.encode
              Session.surface Session.firstStroke (DrawingCanvas.initial Session.surface) in
  let stroked :=
    DrawingCanvas.run Session.paintWhite Session.paintBlack Session.encode Session.surface
      [DrawingCanvas.StartDrawing (Some tt); DrawingCanvas.Draw (Some tt);
       DrawingCanvas.StopDrawing] st in
  let undone := DrawingCanvas.handleUndo Session.encode Session.surface stroked in
  DrawingCanvas.historyIndexRef st = 1
  ∧ DrawingCanvas.historyIndexRef stroked = 2
  ∧ DrawingCanvas.canvas undone = DrawingCanvas.canvas st
  ∧ DrawingCanvas.historyIndexRef undone = 1
  ∧ last (DrawingCanvas.emitted undone) = Some "data:black".
Proof.
  cbv zeta.
  pose proof (stroke_then_undo_restores Session.paintWhite Session.paintBlack Session.encode
                Session.surface Session.firstStroke tt [Some tt]
                eq_refl eq_refl (ex_intro _ _ eq_refl)) as H.
  cbv zeta in H. destruct H as (_ & Hcanvas & Hidx & Hemit).
  split; [reflexivity|]. split; [reflexivity|]. split; [exact Hcanvas|].
  split; [exact Hidx|]. exact (Hemit eq_refl).
Defined.

(** The surface of the session is disabled while its second stroke is
    under way: the pointer moves on and goes up. *)
Lemma disabled_surface_takes_no_ink_witness :
  let st := DrawingCanvas.run Session.paintWhite Session.paintBlack Session.encode
              Session.surface
              (Session.firstStroke ++ [DrawingCanvas.StartDrawing (Some tt)])
              (DrawingCanvas.initial Session.surface) in
  let st' := DrawingCanvas.run Session.paintWhite Session.paintBlack Session.encode
               Session.locked
               [DrawingCanvas.Draw (Some tt); DrawingCanvas.StopDrawing;
                DrawingCanvas.StartDrawing (Some tt)] st in
  DrawingCanvas.isDrawing st = true
  ∧ DrawingCanvas.canvas st' = DrawingCanvas.canvas st
  ∧ DrawingCanvas.isDrawing st' = false
  ∧ DrawingCanvas.historyIndexRef st = 1
  ∧ DrawingCanvas.historyIndexRef st' = 2
  ∧ DrawingCanvas.emitted st' = DrawingCanvas.emitted st ++ ["data:black"].
Proof.
  cbv zeta.
  pose proof (disabled_surface_takes_no_ink Session.paintWhite Session.paintBlack
                Session.encode Session.locked
                (DrawingCanvas.run Session.paintWhite Session.paintBlack Session.encode
                   Session.surface
                   (Session.firstStroke ++ [DrawingCanvas.StartDrawing (Some tt)])
                   (DrawingCanvas.initial Session.surface))
                [DrawingCanvas.Draw (Some tt); DrawingCanvas.StopDrawing;
                 DrawingCanvas.StartDrawing (Some tt)]
                eq_refl) as H.
  cbv zeta in H. destruct H as (Hcanvas & _ & _).
  { repeat constructor. }
  split; [reflexivity|]. split; [exact Hcanvas|]. repeat split.
Defined.

(** ** Clearing the surface *)

Section ClearFacts.
Import DrawingCanvas.
Context {Point : Type}.
Variable fillRect : Context Point -> Z -> Z -> list Z -> list Z.
Variable stroke : Context Point -> list Z -> list Z.
Variable toDataURL : list Z -> string.

(** A snapshot taken on top of the one the index points at, then undone:
    the canvas is that earlier snapshot again. *)
Lemma snapshot_then_undo p (s : State Point) (c0 : list Z) :
  historyInv s → is_Some (contextRef s) →
  historyRef s !! Z.to_nat (historyIndexRef s) = Some c0 →
  let undone := handleUndo toDataURL p (notify toDataURL p (saveToHistory s)) in
  canvas undone = c0
  ∧ historyIndexRef undone = Z.min (historyIndexRef s) 48
  ∧ (onChange p = true → last (emitted undone) = Some (toDataURL c0)).
Proof.
  intros Hinv Hc Hat undone.
  pose proof Hinv as (H1 & H2 & H3 & H4 & H5). specialize (H5 Hc).
  destruct (saveToHistory_appends s Hinv Hc) as (Hlen & Hhist & Hlast & Hidx & Hcanvas).
  destruct (saveToHistory_keeps s) as [Hk1 Hk2].
  pose proof (undoStack_length s ltac:(lia)) as HL.
  assert (Hstackidx : undoStack s !! Z.to_nat (historyIndexRef s) = Some c0).
  { unfold undoStack. rewrite lookup_take_lt by lia. exact Hat. }
  assert (Hprior : historyRef (saveToHistory s)
                     !! Z.to_nat (historyIndexRef (saveToHistory s) - 1) = Some c0
                   ∧ 0 < historyIndexRef (saveToHistory s)
                   ∧ historyIndexRef (saveToHistory s) - 1 = Z.min (historyIndexRef s) 48).
  { rewrite Hidx, Hhist.
    destruct (Nat.ltb_spec (length (undoStack s)) 50).
    - rewrite length_app. simpl length.
      split; [|lia].
      rewrite lookup_app_l by lia.
      replace (Z.to_nat (Z.of_nat (length (undoStack s) + 1) - 1 - 1))
        with (Z.to_nat (historyIndexRef s)) by lia.
      exact Hstackidx.
    - assert (HL50 : length (undoStack s) = 50%nat).
      { unfold undoStack. unfold undoStack in H. rewrite length_take in *. lia. }
      rewrite tail_length, length_app. simpl length.
      split; [|lia].
      rewrite lookup_tail.
      replace (S (Z.to_nat (Z.of_nat (pred (length (undoStack s) + 1)) - 1 - 1)))
        with (Z.to_nat (historyIndexRef s)) by lia.
      rewrite lookup_app_l by lia. exact Hstackidx. }
  destruct Hprior as (Hprior & Hpos & Hmin).
  destruct (notify_history toDataURL p (saveToHistory s)) as (Nh & Ni & Nc).
  assert (Nctx : contextRef (notify toDataURL p (saveToHistory s))
                 = contextRef (saveToHistory s)).
  { unfold notify. destruct (onChange p); reflexivity. }
  unfold undone, handleUndo.
  rewrite Nctx, Hk1. destruct Hc as [ctx ->]. rewrite Ni, Nh.
  destruct (Z.leb_spec (historyIndexRef (saveToHistory s)) 0); [lia|].
  rewrite Hprior.
  match goal with |- context [notify toDataURL p (setCanvas ?x ?s)] =>
    destruct (notify_history toDataURL p (setCanvas x s)) as (_ & -> & ->) end.
  simpl. split; [reflexivity|]. split; [exact Hmin|].
  intros Hon. unfold notify at 1. rewrite Hon. simpl. apply last_snoc.
Qed.

(** X20: on a mounted surface at rest, the clear button paints the whole
    canvas in the background colour, and [handleUndo] after it puts back
    the drawing as it was before; the index is back where it was (or at 48
    when the history was full), and the parent, if it listens, is handed
    the data URL of that drawing. *)
Theorem clear_then_undo_restores (p : Props) (evs : list (Event Point)) :
  let st := run fillRect stroke toDataURL p evs (initial p) in
  isDrawing st = false → is_Some (contextRef st) →
  let cleared := handleClear fillRect toDataURL p st in
  let undone := handleUndo toDataURL p cleared in
  (∃ ctx, contextRef st = Some ctx
          ∧ canvas cleared
            = fillRect (mkContext (backgroundColor p) (strokeStyle ctx)
                                  (ctxLineWidth ctx) (path ctx))
                       (width p) (height p) (canvas st))
  ∧ canvas undone = canvas st
  ∧ historyIndexRef undone = Z.min (historyIndexRef st) 48
  ∧ (onChange p = true → last (emitted undone) = Some (toDataURL (canvas st))).
Proof.
  intros st Hd Hc cleared undone.
  assert (Hinv : historyInv st) by (apply run_inv, initial_inv).
  assert (Hrest : restInv st) by (apply run_rest; [apply initial_inv|apply initial_rest]).
  pose proof Hinv as (H1 & H2 & H3 & H4 & H5).
  specialize (Hrest Hd Hc). specialize (H5 Hc).
  destruct Hc as [ctx Hctx].
  set (ctx1 := mkContext (backgroundColor p) (strokeStyle ctx) (ctxLineWidth ctx) (path ctx)).
  set (ctx2 := mkContext (backgroundColor p) (strokeColor p) (ctxLineWidth ctx) (path ctx)).
  set (s1 := setCanvas (fillRect ctx1 (width p) (height p) (canvas st))
               (setContext (Some ctx2) st)).
  assert (Hcleared : cleared = notify toDataURL p (saveToHistory s1)).
  { unfold cleared, handleClear. rewrite Hctx. reflexivity. }
  assert (Hinv1 : historyInv s1).
  { unfold historyInv, s1; simpl.
    split; [lia|]. split; [lia|]. split; [lia|]. split; [eauto|]. intros _; lia. }
  assert (Hc1 : is_Some (contextRef s1)) by (unfold s1; simpl; eauto).
  assert (Hat : historyRef s1 !! Z.to_nat (historyIndexRef s1) = Some (canvas st)).
  { unfold s1; simpl. exact Hrest. }
  split.
  - exists ctx. split; [exact Hctx|].
    rewrite Hcleared.
    destruct (notify_history toDataURL p (saveToHistory s1)) as (_ & _ & ->).
    destruct (saveToHistory_appends s1 Hinv1 Hc1) as (_ & _ & _ & _ & ->).
    reflexivity.
  - unfold undone. rewrite Hcleared.
    exact (snapshot_then_undo p s1 (canvas st) Hinv1 Hc1 Hat).
Qed.

End ClearFacts.

(** The surface of the session after its first stroke, cleared, then
    undone. *)
Lemma clear_then_undo_restores_witness :
  let st := DrawingCanvas.run Session.paintWhite Session.paintBlack Session.encode
              Session.surface Session.firstStroke (DrawingCanvas.initial Session.surface) in
  let cleared := DrawingCanvas.handleClear Session.paintWhite Session.encode
                   Session.surface st in
  let undone := DrawingCanvas.handleUndo Session.encode Session.surface cleared in
  DrawingCanvas.canvas st = [0; 0; 0; 255]
  ∧ DrawingCanvas.canvas cleared = [255; 255; 255; 255]
  ∧ DrawingCanvas.historyIndexRef cleared = 2
  ∧ DrawingCanvas.canvas undone = DrawingCanvas.canvas st
  ∧ DrawingCanvas.historyIndexRef undone = 1
  ∧ last (DrawingCanvas.emitted undone) = Some "data:black".
Proof.
  cbv zeta.
  pose proof (clear_then_undo_restores Session.paintWhite Session.paintBlack Session.encode
                Session.surface Session.firstStroke
                eq_refl (ex_intro _ _ eq_refl)) as H.
  cbv zeta in H. destruct H as (_ & Hcanvas & Hidx & Hemit).
  split; [reflexivity|]. split; [reflexivity|]. split; [reflexivity|].
  split; [exact Hcanvas|]. split; [exact Hidx|]. exact (Hemit eq_refl).
Defined.

(** ** The flags of the answers *)

Section AnswerFlags.
Context {A : Type}.
Implicit Types (c : list (string * A)) (id : string).

Lemma NoDup_same_data id v v' c :
  NoDup (docIds c) → In (id, v) c → In (id, v') c → v = v'.
Proof.
  intros Hnd H1 H2.
  pose proof (docData_NoDup _ _ _ Hnd H1) as E1.
  pose proof (docData_NoDup _ _ _ Hnd H2) as E2. congruence.
Qed.

Lemma modifyDocs_map {B} (snapshot : list (string * B)) f : ∀ c,
  NoDup (docIds snapshot) →
  modifyDocs snapshot f c
  = List.map (λ kv : string * A,
                if bool_decide (fst kv ∈ docIds snapshot)
                then (fst kv, f (snd kv)) else kv) c.
Proof.
  induction snapshot as [|d l IH]; intros c Hnd; simpl.
  - symmetry. erewrite map_ext; [apply map_id|]. intros kv. reflexivity.
  - apply NoDup_cons in Hnd as [Hnotin Hnd].
    unfold modifyDocs in *. rewrite (IH _ Hnd). unfold modifyDoc.
    rewrite map_map. apply map_ext. intros [k v]. simpl.
    destruct (String.eqb_spec k (fst d)) as [->|Hne]; simpl.
    + rewrite bool_decide_eq_false_2 by exact Hnotin.
      rewrite bool_decide_eq_true_2 by (left). reflexivity.
    + destruct (bool_decide (k ∈ docIds l)) eqn:E.
      * apply bool_decide_eq_true in E.
        rewrite bool_decide_eq_true_2 by (right; exact E). reflexivity.
      * apply bool_decide_eq_false in E.
        rewrite bool_decide_eq_false_2; [reflexivity|].
        intros Hin. apply elem_of_cons in Hin as [Hin|Hin]; [congruence|auto].
Qed.

Lemma NoDup_whereDocs p c : NoDup (docIds c) → NoDup (docIds (whereDocs p c)).
Proof.
  induction c as [|[k v] c IH]; simpl; intros Hnd; [constructor|].
  apply NoDup_cons in Hnd as [Hnotin Hnd].
  destruct (p v); simpl; [|auto].
  apply NoDup_cons. split; [|auto].
  intros Hin. apply Hnotin. apply list_elem_of_In in Hin. apply list_elem_of_In.
  apply in_map_iff in Hin as (y & Hy & Hin). apply whereDocs_In in Hin as [Hin _].
  apply in_map_iff. eauto.
Qed.

Lemma modifyDocs_whereDocs p f c :
  NoDup (docIds c) →
  modifyDocs (whereDocs p c) f c
  = List.map (λ kv : string * A, if p (snd kv) then (fst kv, f (snd kv)) else kv) c.
Proof.
  intros Hnd. rewrite modifyDocs_map by (apply NoDup_whereDocs, Hnd).
  apply map_ext_in. intros [k v] Hin. simpl.
  destruct (p v) eqn:Hp.
  - rewrite bool_decide_eq_true_2; [reflexivity|].
    apply list_elem_of_In. apply in_map_iff. exists (k, v). split; [reflexivity|].
    apply whereDocs_In. auto.
  - rewrite bool_decide_eq_false_2; [reflexivity|].
    intros Hin'. apply list_elem_of_In in Hin'.
    apply in_map_iff in Hin' as ([k' v'] & Hk & Hin'). simpl in Hk. subst k'.
    apply whereDocs_In in Hin' as [Hin' Hp']. simpl in Hp'.
    rewrite (NoDup_same_data _ _ _ _ Hnd Hin Hin') in Hp. congruence.
Qed.
End AnswerFlags.

(** Every update of a snapshot of existing answers succeeds, and only the
    answers of the room change. *)
Lemma promiseAll_updates roomId f (snapshot : list (string * Answer.t)) : ∀ w,
  (∀ d, In d snapshot → is_Some (docData (fst d) (answers w !!! roomId))) →
  ∃ rs w',
    promiseAll (List.map (λ docSnap : string * Answer.t,
                            updateDoc (answersRef roomId) (fst docSnap) f) snapshot) w
    = (Ok rs, w')
    ∧ answers w' !!! roomId = modifyDocs snapshot f (answers w !!! roomId)
    ∧ (∀ r, r ≠ roomId → answers w' !!! r = answers w !!! r)
    ∧ rooms w' = rooms w ∧ participants w' = participants w
    ∧ bannedUsers w' = bannedUsers w ∧ questions w' = questions w
    ∧ gameResults w' = gameResults w ∧ storage w' = storage w.
Proof.
  induction snapshot as [|d l IH]; intros w Hex.
  - exists [], w. simpl. repeat split; reflexivity.
  - simpl promiseAll. unfold updateDoc at 1. store_simpl.
    destruct (Hex d (or_introl eq_refl)) as [x Hx]. rewrite Hx.
    match goal with
    | |- context [promiseAll _ ?w1] => destruct (IH w1) as (rs & w' & Hrun & Ha & Hr & Hrest)
    end.
    { intros d' Hd'. store_simpl. rewrite lookup_total_insert_eq, docData_modifyDoc.
      destruct (Hex d' (or_intror Hd')) as [y Hy]. rewrite Hy.
      destruct (String.eqb (fst d') (fst d)); simpl; eauto. }
    rewrite Hrun. exists (tt :: rs), w'. split; [reflexivity|].
    revert Ha Hr Hrest. store_simpl. rewrite lookup_total_insert_eq.
    intros Ha Hr Hrest. split; [exact Ha|]. split; [|exact Hrest].
    intros r Hne. rewrite (Hr r Hne). apply lookup_total_insert_ne. congruence.
Qed.

(** X3: where the answers of the room have distinct names,
    [revealAllAnswers] returns, sets [isRevealed] on every answer of the
    question and changes nothing else: the other fields of those answers,
    the answers of other questions and of other rooms, and every other
    collection stay; the 'reveal all' button of the host page does this
    for the current question, so that every card it then lists is
    revealed. *)
Theorem revealAllAnswers_reveals_the_question roomId questionId w :
  NoDup (docIds (answers w !!! roomId)) →
  ∃ w',
    revealAllAnswers roomId questionId w = (Ok tt, w')
    ∧ answers w' !!! roomId = revealed questionId (answers w !!! roomId)
    ∧ (∀ id a, docData id (answers w' !!! roomId) = Some a →
               Answer.questionId a = questionId → Answer.isRevealed a = true)
    ∧ (∀ r, r ≠ roomId → answers w' !!! r = answers w !!! r)
    ∧ rooms w' = rooms w ∧ participants w' = participants w
    ∧ bannedUsers w' = bannedUsers w ∧ questions w' = questions w
    ∧ gameResults w' = gameResults w ∧ storage w' = storage w
    ∧ (HostPage.currentQuestionId roomId w = Some questionId →
       HostPage.truthy (Some questionId) = true →
       HostPage.handleRevealAll roomId true w = w'
       ∧ ∀ answer, In answer (HostPage.answers roomId w') →
                   Answer.isRevealed (snd answer) = true).
Proof.
  intros Hnd. unfold revealAllAnswers. unfold bind at 1, getDocs. store_simpl.
  set (p := λ a : Answer.t, String.eqb (Answer.questionId a) questionId).
  destruct (promiseAll_updates roomId (withIsRevealed true)
              (whereDocs p (answers w !!! roomId)) w) as (rs & w' & Hrun & Ha & Hr & Hrest).
  { intros d Hd. apply whereDocs_In in Hd as [Hd _]. destruct d as [k v].
    apply (In_docData_is_Some _ _ _ Hd). }
  unfold bind, ret. rewrite Hrun. exists w'. split; [reflexivity|].
  assert (Hrev : answers w' !!! roomId = revealed questionId (answers w !!! roomId)).
  { rewrite Ha. apply (modifyDocs_whereDocs p), Hnd. }
  assert (Hall : ∀ id a, In (id, a) (answers w' !!! roomId) →
            Answer.questionId a = questionId → Answer.isRevealed a = true).
  { intros id a Hd Hq. rewrite Hrev in Hd.
    unfold revealed in Hd. apply in_map_iff in Hd as ([k v] & Hkv & _). simpl in Hkv.
    destruct (String.eqb_spec (Answer.questionId v) questionId) as [E|E].
    - injection Hkv as _ <-. reflexivity.
    - injection Hkv as _ <-. contradiction. }
  destruct Hrest as (R1 & R2 & R3 & R4 & R5 & R6).
  split; [exact Hrev|]. split; [|repeat (split; [assumption|])].
  { intros id a Hd Hq. apply (Hall id a); [apply docData_Some_In, Hd|exact Hq]. }
  intros Hcur Htruthy. split.
  - unfold HostPage.handleRevealAll. rewrite Hcur, Htruthy. simpl negb. cbv iota.
    unfold revealAllAnswers. unfold bind at 1, getDocs. store_simpl. fold p.
    unfold bind, ret. rewrite Hrun. reflexivity.
  - intros [id a] Hin. unfold HostPage.answers in Hin.
    assert (Hcur' : HostPage.currentQuestionId roomId w' = Some questionId).
    { unfold HostPage.currentQuestionId, HostPage.room in *. rewrite R1. exact Hcur. }
    rewrite Hcur' in Hin. apply whereDocs_In in Hin as [Hin Hq]. simpl in Hq.
    apply String.eqb_eq in Hq. apply (Hall id a Hin Hq).
Qed.

(** The two answers of the session, revealed at once. *)
Lemma revealAllAnswers_reveals_the_question_witness :
  ∃ w',
    revealAllAnswers "room1" "q1" Session.answered = (Ok tt, w')
    ∧ docData "a1" (answers w' !!! "room1")
      = Some (Answer.mk "q1" "u1" "Ann" Session.drawingOfAnn false true 1008)
    ∧ docData "a3" (answers w' !!! "room1")
      = Some (Answer.mk "q1" "u3" "Cy" Session.drawingOfCy false true 1009)
    ∧ rooms w' = rooms Session.answered.
Proof.
  assert (Hnd : NoDup (docIds (answers Session.answered !!! "room1"))).
  { vm_compute. apply NoDup_cons_2; [|apply NoDup_singleton].
    intros Hin. apply list_elem_of_singleton in Hin. discriminate Hin. }
  destruct (revealAllAnswers_reveals_the_question "room1" "q1" Session.answered Hnd)
    as (w' & Hrun & Hrev & _ & _ & Hrooms & _).
  exists w'. split; [exact Hrun|]. rewrite Hrev. split; [reflexivity|].
  split; [reflexivity|exact Hrooms].
Defined.

Section ToggleFacts.
Variable roomId : string.

(** One update of an answer that exists. *)
Lemma updateAnswer_run answerId f w a :
  docData answerId (answers w !!! roomId) = Some a →
  updateDoc (answersRef roomId) answerId f w
  = (Ok tt, record (Updated (Answers roomId) answerId)
              (setAnswers roomId (modifyDoc answerId f (answers w !!! roomId)) w)).
Proof. intros H. unfold updateDoc. store_simpl. rewrite H. reflexivity. Qed.

Lemma modifyDoc_modifyDoc_id {A} id (f g : A → A) (c : list (string * A)) v :
  NoDup (docIds c) → In (id, v) c → g (f v) = v →
  modifyDoc id g (modifyDoc id f c) = c.
Proof.
  intros Hnd Hin Hgf. unfold modifyDoc. rewrite map_map.
  rewrite <- (map_id c) at 2. apply map_ext_in. intros [k x] Hkx. simpl.
  destruct (String.eqb_spec k id) as [->|Hne]; simpl.
  - rewrite String.eqb_refl. simpl.
    rewrite (NoDup_same_data _ _ _ _ Hnd Hkx Hin). rewrite Hgf. reflexivity.
  - destruct (String.eqb_spec k id); [contradiction|reflexivity].
Qed.

Lemma answers_lookup_Some w c :
  answers w !!! roomId = c → c ≠ [] → answers w !! roomId = Some c.
Proof.
  intros H Hne. rewrite lookup_total_alt in H.
  destruct (answers w !! roomId) as [c'|]; simpl in H; [congruence|].
  subst c. contradiction.
Qed.

(** What one flag button does, and what a second click undoes; [flip]
    is the flag written, [f b] the update that writes [b]. *)
Lemma toggle_twice (f : bool → Answer.t → Answer.t) (flag : Answer.t → bool) w id a :
  (∀ b x, flag (f b x) = b) →
  (∀ x, f (flag x) x = x) →
  (∀ b b' x, f b' (f b x) = f b' x) →
  NoDup (docIds (answers w !!! roomId)) →
  In (id, a) (answers w !!! roomId) →
  let w1 := snd (updateDoc (answersRef roomId) id (f (negb (flag a))) w) in
  docData id (answers w1 !!! roomId) = Some (f (negb (flag a)) a)
  ∧ (∀ id', id' ≠ id →
            docData id' (answers w1 !!! roomId) = docData id' (answers w !!! roomId))
  ∧ docIds (answers w1 !!! roomId) = docIds (answers w !!! roomId)
  ∧ sameDocuments w
      (snd (updateDoc (answersRef roomId) id (f (negb (flag (f (negb (flag a)) a)))) w1)).
Proof.
  intros Hflag Hid Hff Hnd Hin w1.
  pose proof (docData_NoDup _ _ _ Hnd Hin) as Hd.
  unfold w1. rewrite (updateAnswer_run id _ w a Hd). simpl snd.
  change (answers (record ?e ?w')) with (answers w').
  rewrite answers_setAnswers.
  assert (Hd1 : docData id (modifyDoc id (f (negb (flag a))) (answers w !!! roomId))
                = Some (f (negb (flag a)) a)).
  { rewrite docData_modifyDoc, String.eqb_refl, Hd. reflexivity. }
  split; [exact Hd1|]. split; [|split; [apply docIds_modifyDoc|]].
  - intros id' Hne. rewrite docData_modifyDoc.
    destruct (String.eqb_spec id' id); [contradiction|reflexivity].
  - erewrite updateAnswer_run.
    2:{ change (answers (record ?e ?w')) with (answers w').
        rewrite answers_setAnswers. exact Hd1. }
    simpl snd. unfold sameDocuments. store_simpl.
    repeat split; try reflexivity.
    rewrite lookup_total_insert_eq, insert_insert_eq.
    rewrite Hflag, negb_involutive.
    rewrite (modifyDoc_modifyDoc_id id _ _ _ a Hnd Hin).
    + apply insert_id. apply answers_lookup_Some; [reflexivity|].
      intros E. rewrite E in Hin. destruct Hin.
    + rewrite Hff. apply Hid.
Qed.

(** X4: where the answers of the room have distinct names, the
    correct/incorrect button of a listed answer writes the negation of its
    [isCorrect] and nothing else (the other fields of the answer and all
    other answers stay, and the card stays in its place), and a second
    click leaves every document as it was at first; the reveal button does
    the same to [isRevealed] unless the room is 'questioning', where it is
    disabled and a click changes nothing. *)
Theorem answer_flag_buttons_flip_and_restore (i : nat) (answer : string * Answer.t) w :
  NoDup (docIds (answers w !!! roomId)) →
  HostPage.truthy (HostPage.currentQuestionId roomId w) = true →
  HostPage.answers roomId w !! i = Some answer →
  (let w1 := HostPage.clickToggleCorrect roomId i w in
   let flipped := withIsCorrect (negb (Answer.isCorrect (snd answer))) (snd answer) in
   docData (fst answer) (answers w1 !!! roomId) = Some flipped
   ∧ (∀ id', id' ≠ fst answer →
             docData id' (answers w1 !!! roomId) = docData id' (answers w !!! roomId))
   ∧ HostPage.answers roomId w1 !! i = Some (fst answer, flipped)
   ∧ sameDocuments w (HostPage.clickToggleCorrect roomId i w1))
  ∧ (HostPage.roomStatus roomId w ≠ Some questioning →
     let w1 := HostPage.clickToggleReveal roomId i w in
     let flipped := withIsRevealed (negb (Answer.isRevealed (snd answer))) (snd answer) in
     docData (fst answer) (answers w1 !!! roomId) = Some flipped
     ∧ (∀ id', id' ≠ fst answer →
               docData id' (answers w1 !!! roomId) = docData id' (answers w !!! roomId))
     ∧ HostPage.answers roomId w1 !! i = Some (fst answer, flipped)
     ∧ sameDocuments w (HostPage.clickToggleReveal roomId i w1))
  ∧ (HostPage.roomStatus roomId w = Some questioning →
     HostPage.clickToggleReveal roomId i w = w).
Proof.
  intros Hnd Htruthy Hi.
  destruct answer as [id a]. simpl fst. simpl snd.
  destruct (HostPage.currentQuestionId roomId w) as [qid|] eqn:Hq; [|discriminate].
  assert (Hans : HostPage.answers roomId w
                 = whereDocs (λ x, String.eqb (Answer.questionId x) qid)
                     (answers w !!! roomId)).
  { unfold HostPage.answers. rewrite Hq. reflexivity. }
  assert (Hin : In (id, a) (answers w !!! roomId)).
  { apply list_elem_of_lookup_2, list_elem_of_In in Hi. rewrite Hans in Hi.
    apply whereDocs_In in Hi as [Hi _]. exact Hi. }
  (* the page after an update of the answers: same room, same question *)
  assert (Hpage : ∀ f, (∀ x, Answer.questionId (f x) = Answer.questionId x) →
            let w1 := snd (updateDoc (answersRef roomId) id f w) in
            HostPage.currentQuestionId roomId w1 = Some qid
            ∧ HostPage.roomStatus roomId w1 = HostPage.roomStatus roomId w
            ∧ HostPage.answers roomId w1 !! i = Some (id, f a)).
  { intros f Hf w1. unfold w1.
    rewrite (updateAnswer_run id f w a (docData_NoDup _ _ _ Hnd Hin)). simpl snd.
    split; [exact Hq|]. split; [reflexivity|].
    unfold HostPage.answers.
    change (HostPage.currentQuestionId roomId (record ?e (setAnswers ?r ?c w)))
      with (HostPage.currentQuestionId roomId w).
    rewrite Hq. change (answers (record ?e ?w')) with (answers w').
    rewrite answers_setAnswers.
    rewrite whereDocs_modifyDoc by (intros x; rewrite Hf; reflexivity).
    rewrite <- Hans. unfold modifyDoc. rewrite list_lookup_fmap, Hi. simpl.
    rewrite String.eqb_refl. reflexivity. }
  split; [|split].
  - cbv zeta.
    assert (Hclick : HostPage.clickToggleCorrect roomId i w
                     = snd (updateDoc (answersRef roomId) id
                              (withIsCorrect (negb (Answer.isCorrect a))) w)).
    { unfold HostPage.clickToggleCorrect. rewrite Hq, Htruthy, Hi. reflexivity. }
    rewrite Hclick.
    destruct (Hpage (withIsCorrect (negb (Answer.isCorrect a))) ltac:(reflexivity))
      as (Hq1 & _ & Hi1).
    destruct (toggle_twice withIsCorrect Answer.isCorrect w id a
                ltac:(reflexivity) ltac:(intros []; reflexivity) ltac:(reflexivity) Hnd Hin)
      as (A & B & _ & D).
    split; [exact A|]. split; [exact B|]. split; [exact Hi1|].
    unfold HostPage.clickToggleCorrect. rewrite Hq1, Htruthy, Hi1.
    exact D.
  - intros Hst. cbv zeta.
    assert (Hen : negb (bool_decide (HostPage.roomStatus roomId w = Some questioning)) = true).
    { rewrite bool_decide_eq_false_2 by exact Hst. reflexivity. }
    assert (Hclick : HostPage.clickToggleReveal roomId i w
                     = snd (updateDoc (answersRef roomId) id
                              (withIsRevealed (negb (Answer.isRevealed a))) w)).
    { unfold HostPage.clickToggleReveal. rewrite Hq, Htruthy, Hen, Hi. reflexivity. }
    rewrite Hclick.
    destruct (Hpage (withIsRevealed (negb (Answer.isRevealed a))) ltac:(reflexivity))
      as (Hq1 & Hst1 & Hi1).
    destruct (toggle_twice withIsRevealed Answer.isRevealed w id a
                ltac:(reflexivity) ltac:(intros []; reflexivity) ltac:(reflexivity) Hnd Hin)
      as (A & B & _ & D).
    split; [exact A|]. split; [exact B|]. split; [exact Hi1|].
    unfold HostPage.clickToggleReveal. rewrite Hq1, Htruthy, Hst1, Hen, Hi1.
    exact D.
  - intros Hst. unfold HostPage.clickToggleReveal. rewrite Hst.
    rewrite bool_decide_eq_true_2 by reflexivity. rewrite andb_false_r. reflexivity.
Qed.
End ToggleFacts.

(** The host marks the first answer of the session, and marks it back. *)
Lemma answer_flag_buttons_flip_and_restore_witness :
  let w1 := HostPage.clickToggleCorrect "room1" 0 Session.answered in
  docData "a1" (answers w1 !!! "room1")
  = Some (Answer.mk "q1" "u1" "Ann" Session.drawingOfAnn true false 1008)
  ∧ sameDocuments Session.answered (HostPage.clickToggleCorrect "room1" 0 w1)
  ∧ HostPage.clickToggleReveal "room1" 0 Session.answered = Session.answered.
Proof.
  assert (Hnd : NoDup (docIds (answers Session.answered !!! "room1"))).
  { vm_compute. apply NoDup_cons_2; [|apply NoDup_singleton].
    intros Hin. apply list_elem_of_singleton in Hin. discriminate Hin. }
  pose proof (answer_flag_buttons_flip_and_restore "room1" 0%nat
                ("a1", Answer.mk "q1" "u1" "Ann" Session.drawingOfAnn false false 1008)
                Session.answered Hnd eq_refl eq_refl) as H.
  cbv zeta in H. destruct H as ((Hflip & _ & _ & Hback) & _ & Hoff).
  split; [exact Hflip|]. split; [exact Hback|]. exact (Hoff eq_refl).
Defined.

(** ** What each operation leaves of the world *)

(** ** What each operation leaves of the world *)

Lemma length_insertDoc {A} id (v : A) c : length (insertDoc id v c) = S (length c).
Proof.
  destruct (insertDoc_split id v c) as (l1 & l2 & -> & ->).
  rewrite !length_app. simpl. lia.
Qed.

Lemma length_removeDoc {A} id (c : list (string * A)) : (length (removeDoc id c) <= length c)%nat.
Proof. unfold removeDoc. apply filter_length_le. Qed.

Lemma whereDocs_removeDoc {A} p id (c : list (string * A)) :
  whereDocs p (removeDoc id c) = removeDoc id (whereDocs p c).
Proof.
  unfold whereDocs, removeDoc. induction c as [|[k v] c IH]; simpl; [reflexivity|].
  destruct (String.eqb k id) eqn:E; simpl; destruct (p v) eqn:Hp; simpl;
    rewrite ?E, ?Hp; simpl; rewrite IH; reflexivity.
Qed.

Lemma docData_removeDoc_ne {A} id id' (c : list (string * A)) :
  id' ≠ id → docData id' (removeDoc id c) = docData id' c.
Proof.
  intros Hne. induction c as [|[k v] c IH]; simpl; [reflexivity|].
  destruct (String.eqb_spec k id) as [->|Hk]; simpl.
  - destruct (String.eqb_spec id id'); [congruence|exact IH].
  - rewrite IH. reflexivity.
Qed.

(** [requestJoinRoom] changes nothing, or adds the one record. *)
Lemma requestJoinRoom_world autoId now roomId odId displayName photoURL w :
  snd (requestJoinRoom autoId now roomId odId displayName photoURL w) = w
  ∨ (Z.of_nat (length (participants w !!! roomId)) < effectiveMax roomId w
     ∧ whereDocs (isBanned odId) (bannedUsers w !!! roomId) = []
     ∧ whereDocs (isParticipant odId) (participants w !!! roomId) = []
     ∧ docData autoId (participants w !!! roomId) = None
     ∧ requestJoinRoom autoId now roomId odId displayName photoURL w
       = (Ok (autoId, Some (RoomParticipant.mk roomId odId displayName photoURL approved now)),
          record (Added (Participants roomId) autoId)
            (setParticipants roomId
               (insertDoc autoId
                  (RoomParticipant.mk roomId odId displayName photoURL approved now)
                  (participants w !!! roomId)) w))).
Proof.
  destruct (whereDocs (isBanned odId) (bannedUsers w !!! roomId)) as [|b bs] eqn:Hb.
  2:{ left. unfold requestJoinRoom, bind at 1. rewrite isUserBanned_eq, Hb. reflexivity. }
  rewrite (requestJoinRoom_not_banned _ _ _ _ _ _ _ Hb).
  destruct (whereDocs (isParticipant odId) (participants w !!! roomId)) as [|d ds] eqn:Hp;
    [|left; reflexivity].
  cbv zeta. fold (effectiveMax roomId w).
  destruct (Z.geb_spec (Z.of_nat (length (participants w !!! roomId))) (effectiveMax roomId w));
    [left; reflexivity|].
  unfold addDoc. store_simpl.
  destruct (docData autoId (participants w !!! roomId)) eqn:Hf; [left; reflexivity|].
  right. split; [lia|]. split; [reflexivity|]. split; [reflexivity|]. split; [reflexivity|].
  store_simpl. rewrite lookup_total_insert_eq.
  rewrite docData_insertDoc_eq by assumption. reflexivity.
Qed.

(** [kickParticipant] changes nothing (the name of the ban record is
    taken), or adds the ban and deletes the participant. *)
Lemma kickParticipant_world autoId now roomId participantId odId displayName photoURL w :
  snd (kickParticipant autoId now roomId participantId odId displayName photoURL w) = w
  ∨ (docData autoId (bannedUsers w !!! roomId) = None
     ∧ snd (kickParticipant autoId now roomId participantId odId displayName photoURL w)
       = record (Deleted (Participants roomId) participantId)
           (setParticipants roomId (removeDoc participantId (participants w !!! roomId))
              (record (Added (BannedUsers roomId) autoId)
                 (setBannedUsers roomId
                    (insertDoc autoId (BannedUser.mk odId displayName photoURL now)
                       (bannedUsers w !!! roomId)) w)))).
Proof.
  unfold kickParticipant. store_unfold. store_simpl.
  destruct (docData autoId (bannedUsers w !!! roomId)) eqn:Hf; [left; reflexivity|].
  right. split; reflexivity.
Qed.

(** Deleting the ban records of a snapshot touches the ban list of the
    room only. *)
Lemma forEach_deleteBans_world roomId (snapshot : list (string * BannedUser.t)) : ∀ w,
  ∃ w',
    forEach snapshot (fun docSnap => deleteDoc (bannedUsersRef roomId) (fst docSnap)) w
    = (Ok tt, w')
    ∧ (snapshot = [] → w' = w)
    ∧ bannedUsers w' !!! roomId = removeDocs snapshot (bannedUsers w !!! roomId)
    ∧ (∀ r, r ≠ roomId → bannedUsers w' !!! r = bannedUsers w !!! r)
    ∧ rooms w' = rooms w ∧ participants w' = participants w
    ∧ questions w' = questions w ∧ answers w' = answers w
    ∧ gameResults w' = gameResults w ∧ storage w' = storage w.
Proof.
  induction snapshot as [|d l IH]; intros w.
  - exists w. repeat split; reflexivity.
  - simpl forEach. unfold bind. unfold deleteDoc at 1. store_simpl.
    match goal with
    | |- context [forEach l ?f ?w1] =>
        destruct (IH w1) as (w' & -> & _ & Hb & Hbr & Hrest)
    end.
    exists w'. split; [reflexivity|]. split; [discriminate|].
    revert Hb Hbr Hrest. store_simpl. rewrite lookup_total_insert_eq.
    intros Hb Hbr Hrest. split; [exact Hb|]. split; [|exact Hrest].
    intros r Hne. rewrite (Hbr r Hne). apply lookup_total_insert_ne. congruence.
Qed.

Lemma unbanUser_world roomId odId w :
  ∃ w',
    unbanUser roomId odId w = (Ok tt, w')
    ∧ bannedUsers w' !!! roomId
      = removeDocs (whereDocs (isBanned odId) (bannedUsers w !!! roomId))
          (bannedUsers w !!! roomId)
    ∧ (∀ r, r ≠ roomId → bannedUsers w' !!! r = bannedUsers w !!! r)
    ∧ rooms w' = rooms w ∧ participants w' = participants w
    ∧ questions w' = questions w ∧ answers w' = answers w
    ∧ gameResults w' = gameResults w ∧ storage w' = storage w.
Proof.
  unfold unbanUser. unfold bind at 1, getDocs. store_simpl. fold (isBanned odId).
  destruct (forEach_deleteBans_world roomId
              (whereDocs (isBanned odId) (bannedUsers w !!! roomId)) w)
    as (w' & -> & _ & Hrest).
  exists w'. split; [reflexivity|exact Hrest].
Qed.

(** An update of a room that exists, or nothing. *)
Lemma updateRoom_world roomId f w :
  snd (updateDoc roomsRef roomId f w) = w
  ∨ (∃ r, docData roomId (rooms w) = Some r
          ∧ snd (updateDoc roomsRef roomId f w)
            = record (Updated Rooms roomId) (setRooms (modifyDoc roomId f (rooms w)) w)).
Proof.
  unfold updateDoc. store_simpl. destruct (docData roomId (rooms w)) eqn:E.
  - right. eauto.
  - left. reflexivity.
Qed.

(** [createQuestion]: the worlds it can leave. *)
Lemma createQuestion_world downloadURL uploadOk dateNow autoId now roomId text imageFile w :
  ∃ w1,
    (w1 = w
     ∨ ∃ file, imageFile = Some file ∧ uploadOk = true
         ∧ w1 = record (Uploaded ("rooms/" +:+ roomId +:+ "/questions/"
                                  +:+ pretty dateNow +:+ "_" +:+ name file))
                  (setStorage (<[("rooms/" +:+ roomId +:+ "/questions/"
                                   +:+ pretty dateNow +:+ "_" +:+ name file) := content file]>
                                 (storage w)) w))
    ∧ let w' := snd (createQuestion downloadURL uploadOk dateNow autoId now
                       roomId text imageFile w) in
      w' = w1
      ∨ ∃ q, docData autoId (questions w !!! roomId) = None
          ∧ Question.text q = text
          ∧ let w2 := record (Added (Questions roomId) autoId)
                        (setQuestions roomId (insertDoc autoId q (questions w !!! roomId)) w1) in
            w' = w2
            ∨ (is_Some (docData roomId (rooms w))
               ∧ w' = record (Updated Rooms roomId)
                        (setRooms (modifyDoc roomId
                                     (withCurrentQuestion (Some autoId) questioning)
                                     (rooms w)) w2)).
Proof.
  pose (rest := λ imageURL : option string,
          (questionRef <- addDoc (questionsRef roomId) autoId
                            (Question.mk roomId text imageURL now) ;;
           updateDoc roomsRef roomId
             (withCurrentQuestion (Some questionRef) questioning) ;;;
           questionDoc <- getDoc (questionsRef roomId) questionRef ;;
           ret (questionRef, questionDoc))).
  assert (Hrest : ∀ imageURL w1,
            rooms w1 = rooms w → questions w1 = questions w →
            let w' := snd (rest imageURL w1) in
            w' = w1
            ∨ ∃ q, docData autoId (questions w !!! roomId) = None
                ∧ Question.text q = text
                ∧ let w2 := record (Added (Questions roomId) autoId)
                              (setQuestions roomId
                                 (insertDoc autoId q (questions w !!! roomId)) w1) in
                  w' = w2
                  ∨ (is_Some (docData roomId (rooms w))
                     ∧ w' = record (Updated Rooms roomId)
                              (setRooms (modifyDoc roomId
                                           (withCurrentQuestion (Some autoId) questioning)
                                           (rooms w)) w2))).
  { intros imageURL w1 Hr Hq w'.
    assert (Hw' : w' = match docData autoId (questions w !!! roomId) with
                       | Some _ => w1
                       | None =>
                           let w2 := record (Added (Questions roomId) autoId)
                                       (setQuestions roomId
                                          (insertDoc autoId (Question.mk roomId text imageURL now)
                                             (questions w !!! roomId)) w1) in
                           match docData roomId (rooms w) with
                           | Some _ =>
                               record (Updated Rooms roomId)
                                 (setRooms (modifyDoc roomId
                                              (withCurrentQuestion (Some autoId) questioning)
                                              (rooms w)) w2)
                           | None => w2
                           end
                       end).
    { unfold w', rest. store_unfold. store_simpl. rewrite Hq.
      destruct (docData autoId (questions w !!! roomId)); [reflexivity|].
      store_simpl. rewrite Hr. destruct (docData roomId (rooms w)); reflexivity. }
    clearbody w'. subst w'.
    destruct (docData autoId (questions w !!! roomId)) eqn:Hf; [left; reflexivity|].
    right. exists (Question.mk roomId text imageURL now).
    split; [reflexivity|]. split; [reflexivity|]. cbv zeta.
    destruct (docData roomId (rooms w)) eqn:Hroom.
    - right. split; [eauto|]. reflexivity.
    - left. reflexivity. }
  destruct imageFile as [file|]; [destruct uploadOk|].
  - set (imagePath := "rooms/" +:+ roomId +:+ "/questions/"
                      +:+ pretty dateNow +:+ "_" +:+ name file).
    set (w1 := record (Uploaded imagePath)
                 (setStorage (<[imagePath := content file]> (storage w)) w)).
    assert (E : createQuestion downloadURL true dateNow autoId now roomId text (Some file) w
                = rest (Some (downloadURL imagePath)) w1).
    { unfold createQuestion, rest. fold imagePath.
      unfold bind at 1. unfold bind at 1, uploadBytes. unfold bind at 1, getDownloadURL.
      store_simpl. rewrite lookup_insert_eq. reflexivity. }
    exists w1. split; [right; exists file; auto|]. rewrite E. apply Hrest; reflexivity.
  - exists w. split; [left; reflexivity|]. left. reflexivity.
  - exists w. split; [left; reflexivity|].
    change (createQuestion downloadURL uploadOk dateNow autoId now roomId text None w)
      with (rest None w).
    apply Hrest; reflexivity.
Qed.

Lemma sameRoom_refl r : sameRoom r r.
Proof. repeat split. Qed.

Lemma sameRoom_trans r1 r2 r3 : sameRoom r1 r2 → sameRoom r2 r3 → sameRoom r1 r3.
Proof.
  intros (A1 & A2 & A3 & A4) (B1 & B2 & B3 & B4). repeat split; congruence.
Qed.

(** An operation that leaves the rooms, the questions and the results, and
    adds no participant, keeps all of it. *)
Lemma keeps_same w w' :
  rooms w' = rooms w → questions w' = questions w → gameResults w' = gameResults w →
  (∀ roomId, (length (participants w' !!! roomId) ≤ length (participants w !!! roomId))%nat) →
  keeps w w'.
Proof.
  intros Hr Hq Hg Hp. unfold keeps. rewrite Hr, Hq, Hg.
  split; [|split; [|split; [|split]]].
  - intros id r H. exists r. split; [exact H|]. split; [apply sameRoom_refl|]. auto.
  - intros id r' H1 H2. congruence.
  - auto.
  - auto.
  - intros roomId _ H. specialize (Hp roomId). lia.
Qed.

Lemma keeps_refl w : keeps w w.
Proof. apply keeps_same; auto. Qed.

Lemma keeps_updateRoom roomId f w :
  (∀ r, sameRoom r (f r)
        ∧ (Room.currentQuestionId (f r) = Room.currentQuestionId r
           ∨ Room.currentQuestionId (f r) = None)) →
  keeps w (snd (updateDoc roomsRef roomId f w)).
Proof.
  intros Hf. destruct (updateRoom_world roomId f w) as [->|(r0 & Hr0 & ->)];
    [apply keeps_refl|].
  unfold keeps. store_simpl. split; [|split; [|split; [|split]]]; auto.
  - intros id r H. rewrite docData_modifyDoc, H.
    destruct (String.eqb id roomId); simpl.
    + exists (f r). split; [reflexivity|]. destruct (Hf r) as [A [B|B]]; auto.
    + exists r. split; [reflexivity|]. split; [apply sameRoom_refl|]. auto.
  - intros id r' H1 H2. rewrite docData_modifyDoc, H2 in H1.
    destruct (String.eqb id roomId); discriminate.
Qed.

Lemma keeps_participants roomId c w e :
  (length c ≤ length (participants w !!! roomId))%nat →
  keeps w (record e (setParticipants roomId c w)).
Proof.
  intros Hlen. apply keeps_same; try reflexivity.
  intros r. store_simpl. destruct (decide (roomId = r)) as [<-|Hne].
  - rewrite lookup_total_insert_eq. exact Hlen.
  - rewrite lookup_total_insert_ne by assumption. reflexivity.
Qed.

Lemma updateAnswer_keeps roomId answerId f w :
  keeps w (snd (updateDoc (answersRef roomId) answerId f w)).
Proof.
  unfold updateDoc. store_simpl. destruct (docData answerId _); [|apply keeps_refl].
  apply keeps_same; auto.
Qed.

Section CallFacts.
Variable atob : string → option string.
Variable downloadURL : string → string.

Lemma call_keeps c w : keeps w (call atob downloadURL w c).
Proof.
  destruct c; simpl call.
  - (* createRoom *)
    unfold createRoom. store_unfold. store_simpl.
    destruct (docData autoId (rooms w)) eqn:Hf; [apply keeps_refl|]. store_simpl.
    unfold keeps. store_simpl. split; [|split; [|split; [|split]]]; auto.
    + intros id r H. exists r.
      rewrite docData_insertDoc_ne by congruence.
      split; [exact H|]. split; [apply sameRoom_refl|]. auto.
    + intros id r' H1 H2. destruct (decide (id = autoId)) as [->|Hne].
      * rewrite docData_insertDoc_eq in H1 by assumption. injection H1 as <-. reflexivity.
      * rewrite docData_insertDoc_ne in H1 by assumption. congruence.
  - apply keeps_updateRoom. intros r. split; [repeat split|]. auto.
  - apply keeps_updateRoom. intros r. split; [repeat split|]. auto.
  - apply keeps_updateRoom. intros r. split; [repeat split|]. auto.
  - (* requestJoinRoom *)
    destruct (requestJoinRoom_world autoId now roomId odId displayName photoURL w)
      as [->|(Hcap & _ & _ & Hf & ->)]; [apply keeps_refl|]. simpl snd.
    unfold keeps. store_simpl. split; [|split; [|split; [|split]]]; auto.
    + intros id r H. exists r. split; [exact H|]. split; [apply sameRoom_refl|]. auto.
    + intros id r' H1 H2. congruence.
    + intros r _ H. destruct (decide (roomId = r)) as [<-|Hne].
      * rewrite lookup_total_insert_eq, length_insertDoc. lia.
      * rewrite lookup_total_insert_ne by assumption. exact H.
  - (* kickParticipant *)
    destruct (kickParticipant_world autoId now roomId participantId odId displayName photoURL w)
      as [->|(_ & ->)]; [apply keeps_refl|].
    apply keeps_same; try reflexivity.
    intros r. store_simpl. destruct (decide (roomId = r)) as [<-|Hne].
    + rewrite lookup_total_insert_eq. apply length_removeDoc.
    + rewrite lookup_total_insert_ne by assumption. reflexivity.
  - (* unbanUser *)
    destruct (unbanUser_world roomId odId w)
      as (w' & -> & _ & _ & Hr & Hp & Hq & _ & Hg & _). simpl snd.
    apply keeps_same; auto. intros r. rewrite Hp. reflexivity.
  - (* updateParticipantStatus *)
    unfold updateParticipantStatus, updateDoc. store_simpl.
    destruct (docData participantId _); [|apply keeps_refl]. simpl snd.
    apply keeps_participants. rewrite length_modifyDoc. reflexivity.
  - (* createQuestion *)
    destruct (createQuestion_world downloadURL uploadOk dateNow autoId now roomId text
                imageFile w) as (w1 & Hw1 & Hw').
    assert (H1 : rooms w1 = rooms w ∧ questions w1 = questions w
                 ∧ gameResults w1 = gameResults w ∧ participants w1 = participants w).
    { destruct Hw1 as [->|(file & _ & _ & ->)]; repeat split. }
    destruct H1 as (R1 & Q1 & G1 & P1).
    cbv zeta in Hw'. destruct Hw' as [->|(q & Hf & _ & [->| (Hroom & ->)])].
    + apply keeps_same; auto. intros r. rewrite P1. reflexivity.
    + unfold keeps. store_simpl. rewrite R1, G1, P1.
      split; [|split; [|split; [|split]]]; auto.
      * intros id r H. exists r. split; [exact H|]. split; [apply sameRoom_refl|]. auto.
      * intros id r' H1 H2. congruence.
      * intros r k x H. destruct (decide (roomId = r)) as [<-|Hne].
        -- rewrite lookup_total_insert_eq.
           rewrite docData_insertDoc_ne by congruence. exact H.
        -- rewrite Q1. rewrite lookup_total_insert_ne by assumption. exact H.
    + unfold keeps. store_simpl. rewrite G1, P1.
      split; [|split; [|split; [|split]]]; auto.
      * intros id r H. rewrite docData_modifyDoc, H.
        destruct (String.eqb_spec id roomId) as [->|Hne]; simpl.
        -- eexists. split; [reflexivity|]. split; [repeat split|].
           right. right. exists autoId. split; [reflexivity|].
           rewrite lookup_total_insert_eq.
           rewrite docData_insertDoc_eq by assumption. eauto.
        -- exists r. split; [reflexivity|]. split; [apply sameRoom_refl|]. auto.
      * intros id r' H1 H2. rewrite docData_modifyDoc, H2 in H1.
        destruct (String.eqb id roomId); discriminate.
      * intros r k x H. destruct (decide (roomId = r)) as [<-|Hne].
        -- rewrite lookup_total_insert_eq.
           rewrite docData_insertDoc_ne by congruence. exact H.
        -- rewrite Q1. rewrite lookup_total_insert_ne by assumption. exact H.
  - (* submitAnswer *)
    destruct (whereDocs (sameAnswer questionId odId) (answers w !!! roomId))
      as [|[id0 a0] rest] eqn:Hq.
    + destruct (docData autoId (answers w !!! roomId)) as [x|] eqn:Hx.
      * rewrite (submitAnswer_collision _ _ _ _ _ _ _ w x Hq Hx). apply keeps_refl.
      * rewrite (submitAnswer_new _ _ _ _ _ _ _ w Hq Hx). apply keeps_same; auto.
    + rewrite (submitAnswer_existing _ _ _ _ _ _ _ w id0 a0 rest Hq). apply keeps_same; auto.
  - apply updateAnswer_keeps.
  - apply updateAnswer_keeps.
  - (* revealAllAnswers *)
    unfold revealAllAnswers. unfold bind at 1, getDocs. store_simpl.
    match goal with
    | |- context [promiseAll (List.map _ ?snap)] =>
        destruct (promiseAll_updates roomId (withIsRevealed true) snap w)
          as (rs & w' & Hrun & _ & _ & Hr & Hp & _ & Hq & Hg & _)
    end.
    { intros d Hd. apply whereDocs_In in Hd as [Hd _]. destruct d as [k v].
      apply (In_docData_is_Some _ _ _ Hd). }
    unfold bind, ret. rewrite Hrun. simpl snd.
    apply keeps_same; auto. intros r. rewrite Hp. reflexivity.
  - apply keeps_updateRoom. intros r. split; [repeat split|]. auto.
  - (* saveGameResult *)
    rewrite saveGameResult_run.
    destruct (promiseAll_uploads atob downloadURL uploadOk roomId question answers0 dateNow w)
      as (w1 & Hw1 & (R1 & P1 & _ & Q1 & _ & G1) & _).
    destruct (promiseAll _ w) as [[saved|e] w1'] eqn:E; simpl in Hw1; subst w1'.
    2:{ simpl snd. apply keeps_same; auto. intros r. rewrite P1. reflexivity. }
    cbv zeta. destruct (docData autoId (gameResults w1)) eqn:Hf; simpl snd.
    { apply keeps_same; auto. intros r. rewrite P1. reflexivity. }
    unfold keeps. store_simpl. rewrite R1, Q1, P1.
    split; [|split; [|split; [|split]]]; auto.
    + intros id r H. exists r. split; [exact H|]. split; [apply sameRoom_refl|]. auto.
    + intros id r' H1 H2. congruence.
    + intros id g H. rewrite docData_insertDoc_ne; [rewrite G1; exact H|].
      rewrite G1 in Hf. congruence.
Qed.
End CallFacts.

Section CallTheorems.
Variable atob : string → option string.
Variable downloadURL : string → string.

Lemma effectiveMax_sameRoom roomId w w' r r' :
  docData roomId (rooms w) = Some r → docData roomId (rooms w') = Some r' →
  sameRoom r r' → effectiveMax roomId w' = effectiveMax roomId w.
Proof.
  intros H H' (_ & _ & Hm & _). unfold effectiveMax. rewrite H, H'. simpl.
  rewrite Hm. reflexivity.
Qed.

(** Over a sequence of calls. *)
Lemma calls_keep (cs : list Call) : ∀ w : World,
  (∀ id r, docData id (rooms w) = Some r →
     ∃ r', docData id (rooms (calls atob downloadURL cs w)) = Some r' ∧ sameRoom r r')
  ∧ (∀ roomId q x, docData q (questions w !!! roomId) = Some x →
                   docData q (questions (calls atob downloadURL cs w) !!! roomId) = Some x)
  ∧ (∀ id g, docData id (gameResults w) = Some g →
             docData id (gameResults (calls atob downloadURL cs w)) = Some g).
Proof.
  induction cs as [|c cs IH]; intros w.
  - simpl. split; [|split]; auto. intros id r H. exists r. split; [exact H|apply sameRoom_refl].
  - simpl calls. destruct (IH (call atob downloadURL w c)) as (IH1 & IH2 & IH3).
    destruct (call_keeps atob downloadURL c w) as (K1 & _ & K3 & K4 & _).
    split; [|split].
    + intros id r H. destruct (K1 id r H) as (r1 & H1 & Hs1 & _).
      destruct (IH1 id r1 H1) as (r' & H' & Hs').
      exists r'. split; [exact H'|]. eapply sameRoom_trans; eassumption.
    + intros roomId q x H. apply IH2, K3, H.
    + intros id g H. apply IH3, K4, H.
Qed.

(** X5: no sequence of operations of the store removes a room or changes
    its host, its code, its capacity or the date of its creation; none
    removes or changes a question, and none removes or changes a saved game
    result. *)
Theorem rooms_questions_and_results_are_kept (cs : list Call) (w : World) :
  let w' := calls atob downloadURL cs w in
  (∀ id r, docData id (rooms w) = Some r →
     ∃ r', docData id (rooms w') = Some r'
           ∧ Room.hostId r' = Room.hostId r ∧ Room.roomCode r' = Room.roomCode r
           ∧ Room.maxParticipants r' = Room.maxParticipants r
           ∧ Room.createdAt r' = Room.createdAt r)
  ∧ (∀ roomId q x, docData q (questions w !!! roomId) = Some x →
                   docData q (questions w' !!! roomId) = Some x)
  ∧ (∀ id g, docData id (gameResults w) = Some g → docData id (gameResults w') = Some g).
Proof.
  cbv zeta. destruct (calls_keep cs w) as (H1 & H2 & H3).
  split; [|split; assumption].
  intros id r H. destruct (H1 id r H) as (r' & H' & Hs). exists r'. split; [exact H'|exact Hs].
Qed.

Lemma call_currentQuestionsExist c w :
  currentQuestionsExist w → currentQuestionsExist (call atob downloadURL w c).
Proof.
  intros Hinv roomId r' q H' Hq.
  destruct (call_keeps atob downloadURL c w) as (K1 & K2 & K3 & _).
  destruct (docData roomId (rooms w)) as [r|] eqn:Hr.
  - destruct (K1 roomId r Hr) as (r1 & H1 & _ & Hcq). rewrite H' in H1. injection H1 as <-.
    destruct Hcq as [E|[E|(q' & E & Hex)]].
    + destruct (Hinv roomId r q Hr ltac:(congruence)) as [x Hx].
      exists x. apply K3, Hx.
    + congruence.
    + rewrite Hq in E. injection E as <-. exact Hex.
  - rewrite (K2 roomId r' H' Hr) in Hq. discriminate.
Qed.

(** X6: where the current question of every room is a question of that
    room (as in the empty store), it is so after any sequence of operations
    of the store: [getQuestion] on the current question of a room never
    finds nothing. *)
Theorem current_question_is_always_a_question (cs : list Call) (w : World) :
  currentQuestionsExist w →
  currentQuestionsExist (calls atob downloadURL cs w).
Proof.
  revert w. induction cs as [|c cs IH]; intros w Hw; simpl; [exact Hw|].
  apply IH, call_currentQuestionsExist, Hw.
Qed.

(** X7: in a room that exists and whose participants are within its
    maximum (its [maxParticipants], or 15 where that is 0), no sequence of
    operations of the store brings the number of participants above the
    maximum, and the maximum itself stays. *)
Theorem participants_never_exceed_the_maximum (cs : list Call) (roomId : string) (w : World) :
  is_Some (docData roomId (rooms w)) →
  Z.of_nat (length (participants w !!! roomId)) ≤ effectiveMax roomId w →
  let w' := calls atob downloadURL cs w in
  effectiveMax roomId w' = effectiveMax roomId w
  ∧ Z.of_nat (length (participants w' !!! roomId)) ≤ effectiveMax roomId w'.
Proof.
  revert w. induction cs as [|c cs IH]; intros w Hroom Hcap; cbv zeta; simpl calls.
  - split; [reflexivity|exact Hcap].
  - destruct (call_keeps atob downloadURL c w) as (K1 & _ & _ & _ & K5).
    destruct Hroom as [r Hr].
    destruct (K1 roomId r Hr) as (r1 & H1 & Hsame & _).
    pose proof (effectiveMax_sameRoom roomId w _ r r1 Hr H1 Hsame) as Hmax.
    destruct (IH (call atob downloadURL w c)) as [A B].
    + eauto.
    + rewrite Hmax. apply K5; eauto.
    + cbv zeta in A, B. split; [congruence|exact B].
Qed.
End CallTheorems.



Lemma emptyWorld_currentQuestionsExist : currentQuestionsExist emptyWorld.
Proof. intros roomId r q H. discriminate H. Qed.

(** The session from the creation of its room: the room keeps its code and
    its host, the question stays, and the room never holds more than two. *)
Lemma rooms_questions_and_results_are_kept_witness :
  ∃ r', docData "room1" (rooms (calls Session.atob Session.downloadURL
                                 (tail Session.story) Session.created)) = Some r'
        ∧ Room.hostId r' = "host1" ∧ Room.roomCode r' = "SSSSSS"
        ∧ Room.maxParticipants r' = 2.
Proof.
  destruct (rooms_questions_and_results_are_kept Session.atob Session.downloadURL
              (tail Session.story) Session.created) as (Hrooms & _ & _).
  destruct (Hrooms "room1" (Room.mk "host1" "SSSSSS" waiting None 2 1000) eq_refl)
    as (r' & Hr' & Hhost & Hcode & Hmax & _).
  exists r'. auto.
Defined.

Lemma current_question_is_always_a_question_witness :
  currentQuestionsExist emptyWorld
  ∧ currentQuestionsExist (calls Session.atob Session.downloadURL Session.story emptyWorld).
Proof.
  split; [exact emptyWorld_currentQuestionsExist|].
  apply (current_question_is_always_a_question Session.atob Session.downloadURL
           Session.story emptyWorld emptyWorld_currentQuestionsExist).
Defined.

Lemma participants_never_exceed_the_maximum_witness :
  let w' := calls Session.atob Session.downloadURL (tail Session.story) Session.created in
  effectiveMax "room1" Session.created = 2
  ∧ effectiveMax "room1" w' = 2
  ∧ Z.of_nat (length (participants w' !!! "room1")) ≤ 2.
Proof.
  cbv zeta.
  assert (Hcap : Z.of_nat (length (participants Session.created !!! "room1"))
                 ≤ effectiveMax "room1" Session.created).
  { vm_compute. discriminate. }
  pose proof (participants_never_exceed_the_maximum Session.atob Session.downloadURL
                (tail Session.story) "room1" Session.created
                (ex_intro _ _ eq_refl) Hcap) as H.
  cbv zeta in H. destruct H as [Hmax Hle].
  split; [reflexivity|]. split; [rewrite Hmax; reflexivity|].
  rewrite Hmax in Hle. exact Hle.
Defined.

(** ** The people of a room *)

Lemma tryCatch_world body w : snd (tryCatch body w) = snd (body w).
Proof. unfold tryCatch. destruct (body w) as [[x|e] w']; reflexivity. Qed.

Lemma getMyParticipation_eq roomId odId w :
  getMyParticipation roomId odId w
  = (Ok (head (whereDocs (isParticipant odId) (participants w !!! roomId))), w).
Proof. reflexivity. Qed.


Section VisitFacts.
Variable roomId : string.

(** The kick button of a participant that is listed, once confirmed and
    given a free name for the ban record. *)
Lemma kickClick_world i confirmed autoId now w :
  let w1 := HostPage.visit roomId w (HostPage.KickClick i confirmed autoId now) in
  w1 = w
  ∨ ∃ p, HostPage.participants roomId w !! i = Some p
         ∧ confirmed = true
         ∧ docData autoId (bannedUsers w !!! roomId) = None
         ∧ bannedUsers w1 !!! roomId
           = insertDoc autoId
               (BannedUser.mk (RoomParticipant.odId (snd p))
                  (RoomParticipant.displayName (snd p))
                  (RoomParticipant.photoURL (snd p)) now)
               (bannedUsers w !!! roomId)
         ∧ participants w1 !!! roomId = removeDoc (fst p) (participants w !!! roomId)
         ∧ rooms w1 = rooms w.
Proof.
  cbv zeta. simpl HostPage.visit.
  destruct (HostPage.participants roomId w !! i) as [p|] eqn:Hp; [|left; reflexivity].
  unfold HostPage.handleKick. destruct confirmed; simpl negb; cbv iota; [|left; reflexivity].
  rewrite tryCatch_world.
  destruct (kickParticipant_world autoId now roomId (fst p) (RoomParticipant.odId (snd p))
              (RoomParticipant.displayName (snd p)) (RoomParticipant.photoURL (snd p)) w)
    as [->|(Hf & ->)]; [left; reflexivity|].
  right. exists p. split; [reflexivity|]. split; [reflexivity|]. split; [exact Hf|].
  store_simpl. rewrite !lookup_total_insert_eq. auto.
Qed.

Lemma banned_after_insert od autoId b (bans : list (string * BannedUser.t)) :
  whereDocs (isBanned od) (insertDoc autoId b bans) ≠ [] →
  BannedUser.odId b = od ∨ whereDocs (isBanned od) bans ≠ [].
Proof.
  intros H. destruct (isBanned od b) eqn:E.
  - left. unfold isBanned in E. apply String.eqb_eq in E. exact E.
  - right. rewrite whereDocs_insertDoc_false in H by exact E. exact H.
Qed.

Lemma visit_inv v w :
  oneRecordEach roomId w → bannedAreOut roomId w →
  oneRecordEach roomId (HostPage.visit roomId w v)
  ∧ bannedAreOut roomId (HostPage.visit roomId w v).
Proof.
  intros Hone Hout. destruct v.
  - (* a request to join *)
    simpl HostPage.visit.
    destruct (requestJoinRoom_world autoId now roomId odId displayName photoURL w)
      as [->|(_ & Hb & Hp & Hf & ->)]; [auto|]. simpl snd. split.
    + intros od. store_simpl. rewrite lookup_total_insert_eq, whereDocs_insertDoc_length.
      destruct (isParticipant od _) eqn:E; [|apply Hone].
      unfold isParticipant in E. simpl in E. apply String.eqb_eq in E. subst od.
      rewrite Hp. simpl. lia.
    + intros od Hbanned. revert Hbanned. store_simpl. rewrite lookup_total_insert_eq.
      intros Hbanned. rewrite whereDocs_insertDoc_false; [apply Hout, Hbanned|].
      unfold isParticipant. simpl. apply String.eqb_neq. intros ->. apply Hbanned, Hb.
  - (* the kick button *)
    destruct (kickClick_world i confirmed autoId now w)
      as [->|(p & Hp & _ & _ & Hbans & Hparts & _)]; [auto|].
    assert (Hin : In p (participants w !!! roomId)).
    { apply list_elem_of_In. eapply list_elem_of_lookup_2. exact Hp. }
    split.
    + intros od. rewrite Hparts, whereDocs_removeDoc.
      pose proof (length_removeDoc (fst p)
                    (whereDocs (isParticipant od) (participants w !!! roomId))).
      specialize (Hone od). lia.
    + intros od. rewrite Hbans, Hparts, whereDocs_removeDoc. intros Hbanned.
      apply banned_after_insert in Hbanned as [E|Hold]; [simpl in E|].
      * (* the one record of the identity is the one deleted *)
        assert (Hp' : In p (whereDocs (isParticipant od) (participants w !!! roomId))).
        { apply whereDocs_In. split; [exact Hin|]. unfold isParticipant.
          apply String.eqb_eq. exact E. }
        specialize (Hone od).
        destruct (whereDocs (isParticipant od) (participants w !!! roomId))
          as [|y [|z l]]; [destruct Hp'| |simpl in Hone; lia].
        destruct Hp' as [->|[]]. simpl. rewrite String.eqb_refl. reflexivity.
      * rewrite (Hout od Hold). reflexivity.
  - (* the unban button *)
    simpl HostPage.visit.
    destruct (HostPage.bannedUsers roomId w !! i) as [b|]; [|auto].
    unfold HostPage.handleUnban. destruct confirmed; simpl negb; cbv iota; [|auto].
    rewrite tryCatch_world.
    destruct (unbanUser_world roomId (BannedUser.odId b) w)
      as (w' & -> & Hbans & _ & _ & Hparts & _). simpl snd.
    split.
    + intros od. rewrite Hparts. apply Hone.
    + intros od Hbanned. rewrite Hparts. apply Hout.
      destruct (whereDocs (isBanned od) (bannedUsers w' !!! roomId)) as [|y l] eqn:E;
        [contradiction|].
      assert (Hy : In y (whereDocs (isBanned od) (bannedUsers w' !!! roomId))).
      { rewrite E. left; reflexivity. }
      apply whereDocs_In in Hy as [Hy Hod]. rewrite Hbans in Hy.
      apply In_removeDocs in Hy as [Hy _].
      intros Hnone.
      assert (Hy' : In y (whereDocs (isBanned od) (bannedUsers w !!! roomId))).
      { apply whereDocs_In. auto. }
      rewrite Hnone in Hy'. destruct Hy'.
Qed.

(** X8: where every identity has at most one participant record in the
    room and no banned identity has one, this stays so through requests to
    join, clicks on the kick button of a participant the host page lists
    and clicks on the unban button of a banned user it lists: an identity
    on the ban list is never a participant. *)
Theorem banned_identities_stay_out (vs : list HostPage.Visit) (w : World) :
  oneRecordEach roomId w → bannedAreOut roomId w →
  let w' := HostPage.visits roomId vs w in
  oneRecordEach roomId w'
  ∧ bannedAreOut roomId w'
  ∧ (∀ odId, isUserBanned roomId odId w' = (Ok true, w') →
             getMyParticipation roomId odId w' = (Ok None, w')).
Proof.
  intros Hone Hout.
  assert (Hinv : ∀ vs w, oneRecordEach roomId w → bannedAreOut roomId w →
            oneRecordEach roomId (HostPage.visits roomId vs w)
            ∧ bannedAreOut roomId (HostPage.visits roomId vs w)).
  { clear. induction vs as [|v vs IH]; intros w Hone Hout; simpl; [auto|].
    destruct (visit_inv v w Hone Hout) as [A B]. apply IH; assumption. }
  destruct (Hinv vs w Hone Hout) as [A B]. cbv zeta.
  split; [exact A|]. split; [exact B|].
  intros odId Hb. rewrite isUserBanned_eq in Hb. rewrite getMyParticipation_eq.
  rewrite B; [reflexivity|]. intros E. rewrite E in Hb. discriminate Hb.
Qed.

End VisitFacts.

(** The people of the session: Bob, kicked, asks in vain to come back. *)
Lemma banned_identities_stay_out_witness :
  let w' := HostPage.visits "room1" Session.people Session.created in
  docIds (participants w' !!! "room1") = ["p1"; "p3"]
  ∧ isUserBanned "room1" "u2" w' = (Ok true, w')
  ∧ getMyParticipation "room1" "u2" w' = (Ok None, w').
Proof.
  cbv zeta.
  assert (Hone : oneRecordEach "room1" Session.created).
  { intros od. vm_compute. lia. }
  assert (Hout : bannedAreOut "room1" Session.created).
  { intros od _. reflexivity. }
  pose proof (banned_identities_stay_out "room1" Session.people Session.created Hone Hout) as H.
  cbv zeta in H. destruct H as (_ & _ & Hb).
  split; [reflexivity|]. split; [reflexivity|]. apply Hb. reflexivity.
Defined.


(** ** Posing a question *)

Section QuestionFacts.
Variable downloadURL : string → string.

(** X10: [createQuestion] with an image the blob store refuses throws
    and writes nothing at all. Otherwise, the name of the new question
    being free: in a room that exists it returns the question with the text
    as given and the URL of the uploaded image (none without an image),
    [getQuestion] then returns that question, the room points to it as its
    current question and is 'questioning', and the image is stored under
    its path; in a room that does not exist it throws not-found after the
    question document was added, the rooms being as before. *)
Theorem createQuestion_outcomes uploadOk dateNow autoId now roomId text imageFile w :
  let imagePath := λ file : File,
        "rooms/" +:+ roomId +:+ "/questions/" +:+ pretty dateNow +:+ "_" +:+ name file in
  let run := createQuestion downloadURL uploadOk dateNow autoId now roomId text imageFile w in
  (∀ file, imageFile = Some file → uploadOk = false →
     run = (Throw (ErrUpload (imagePath file)), w))
  ∧ (imageFile = None ∨ uploadOk = true →
     docData autoId (questions w !!! roomId) = None →
     (∀ r, docData roomId (rooms w) = Some r →
        ∃ q w',
          run = (Ok (autoId, Some q), w')
          ∧ q = Question.mk roomId text ((λ file, downloadURL (imagePath file)) <$> imageFile) now
          ∧ getQuestion roomId autoId w' = (Ok (Some (autoId, q)), w')
          ∧ docData roomId (rooms w')
            = Some (withCurrentQuestion (Some autoId) questioning r)
          ∧ (∀ file, imageFile = Some file →
                     storage w' !! imagePath file = Some (content file)))
     ∧ (docData roomId (rooms w) = None →
        ∃ w',
          run = (Throw ErrNotFound, w')
          ∧ is_Some (docData autoId (questions w' !!! roomId))
          ∧ rooms w' = rooms w)).
Proof.
  intros imagePath run. split; [|intros Hup Hfree; split].
  - intros file -> ->. reflexivity.
  - intros r Hr. unfold run, createQuestion.
    destruct imageFile as [file|].
    + destruct Hup as [Hup| ->]; [discriminate|].
      fold (imagePath file). store_unfold. unfold getDownloadURL. store_simpl.
      rewrite lookup_insert_eq. store_simpl. rewrite Hfree. store_simpl. rewrite Hr.
      store_simpl. rewrite lookup_total_insert_eq.
      rewrite docData_insertDoc_eq by assumption.
      eexists _, _. split; [reflexivity|]. split; [reflexivity|].
      unfold getQuestion. store_unfold. store_simpl. rewrite lookup_total_insert_eq.
      rewrite docData_insertDoc_eq by assumption.
      split; [reflexivity|]. split.
      * rewrite docData_modifyDoc, String.eqb_refl, Hr. reflexivity.
      * intros file' E. injection E as <-. apply lookup_insert_eq.
    + store_unfold. store_simpl. rewrite Hfree. store_simpl. rewrite Hr.
      store_simpl. rewrite lookup_total_insert_eq.
      rewrite docData_insertDoc_eq by assumption.
      eexists _, _. split; [reflexivity|]. split; [reflexivity|].
      unfold getQuestion. store_unfold. store_simpl. rewrite lookup_total_insert_eq.
      rewrite docData_insertDoc_eq by assumption.
      split; [reflexivity|]. split.
      * rewrite docData_modifyDoc, String.eqb_refl, Hr. reflexivity.
      * intros file' E. discriminate E.
  - intros Hr. unfold run, createQuestion.
    destruct imageFile as [file|].
    + destruct Hup as [Hup| ->]; [discriminate|].
      fold (imagePath file). store_unfold. unfold getDownloadURL. store_simpl.
      rewrite lookup_insert_eq. store_simpl. rewrite Hfree. store_simpl. rewrite Hr.
      eexists. split; [reflexivity|]. store_simpl. rewrite lookup_total_insert_eq.
      rewrite docData_insertDoc_eq by assumption. split; [eauto|reflexivity].
    + store_unfold. store_simpl. rewrite Hfree. store_simpl. rewrite Hr.
      eexists. split; [reflexivity|]. store_simpl. rewrite lookup_total_insert_eq.
      rewrite docData_insertDoc_eq by assumption. split; [eauto|reflexivity].
Qed.
End QuestionFacts.

(** The question of the session, and one posed in a room that is not. *)
Lemma createQuestion_outcomes_witness :
  (∃ w',
     createQuestion Session.downloadURL true 1006 "q1" 1007 "room1" "2 + 2 = ?" None
       Session.full
     = (Ok ("q1", Some (Question.mk "room1" "2 + 2 = ?" None 1007)), w')
     ∧ getQuestion "room1" "q1" w'
       = (Ok (Some ("q1", Question.mk "room1" "2 + 2 = ?" None 1007)), w')
     ∧ docData "room1" (rooms w')
       = Some (Room.mk "host1" "SSSSSS" questioning (Some "q1") 2 1000))
  ∧ (∃ w',
       createQuestion Session.downloadURL true 1006 "q1" 1007 "room9" "2 + 2 = ?" None
         Session.full
       = (Throw ErrNotFound, w')
       ∧ is_Some (docData "q1" (questions w' !!! "room9"))).
Proof.
  split.
  - pose proof (createQuestion_outcomes Session.downloadURL true 1006 "q1" 1007 "room1"
                  "2 + 2 = ?" None Session.full) as H.
    cbv zeta in H. destruct H as (_ & H).
    destruct (H (or_introl eq_refl) eq_refl) as (Hroom & _).
    destruct (Hroom (Room.mk "host1" "SSSSSS" waiting None 2 1000) eq_refl)
      as (q & w' & Hrun & -> & Hget & Hcur & _).
    exists w'. split; [exact Hrun|]. split; [exact Hget|exact Hcur].
  - pose proof (createQuestion_outcomes Session.downloadURL true 1006 "q1" 1007 "room9"
                  "2 + 2 = ?" None Session.full) as H.
    cbv zeta in H. destruct H as (_ & H).
    destruct (H (or_introl eq_refl) eq_refl) as (_ & Hnoroom).
    destruct (Hnoroom eq_refl) as (w' & Hrun & Hq & _).
    exists w'. split; [exact Hrun|exact Hq].
Defined.

(** ** Data URLs *)


Lemma append_cons c s t : String c s +:+ t = String c (s +:+ t).
Proof. reflexivity. Qed.





Section BlobFacts.
Variable atob : string → option string.

End BlobFacts.


(** ** The history of a host *)

Section HistoryListFacts.
Import HistoryPage.
Implicit Types (x y : string * GameResult.t) (l : list (string * GameResult.t)).

Lemma millis_createdAt x : millis x = GameResult.createdAt (snd x).
Proof.
  unfold millis, orNumber. destruct (Z.eqb_spec (GameResult.createdAt (snd x)) 0); congruence.
Qed.

Lemma insertSorted_perm x l : insertSorted x l ≡ₚ x :: l.
Proof.
  induction l as [|y l IH]; simpl; [reflexivity|].
  destruct (compareFn x y <=? 0); [reflexivity|].
  rewrite IH. apply Permutation_swap.
Qed.

Lemma sort_perm l : sort l ≡ₚ l.
Proof.
  induction l as [|x l IH]; simpl; [reflexivity|].
  rewrite insertSorted_perm. rewrite IH. reflexivity.
Qed.

Lemma insertSorted_sorted x l :
  StronglySorted newerFirst l → StronglySorted newerFirst (insertSorted x l).
Proof.
  induction 1 as [|y l Hl IH Hy]; simpl.
  - constructor; constructor.
  - unfold compareFn. rewrite !millis_createdAt.
    destruct (Z.leb_spec (GameResult.createdAt (snd y) - GameResult.createdAt (snd x)) 0).
    + constructor; [constructor; assumption|].
      constructor; [unfold newerFirst; lia|].
      eapply Forall_impl; [exact Hy|]. unfold newerFirst. intros z Hz. lia.
    + constructor; [exact IH|].
      rewrite insertSorted_perm. constructor; [unfold newerFirst; lia|exact Hy].
Qed.

Lemma sort_sorted l : StronglySorted newerFirst (sort l).
Proof.
  induction l as [|x l IH]; simpl; [constructor|]. apply insertSorted_sorted, IH.
Qed.

(** The results of one instant keep the order they had. *)
Lemma insertSorted_instant t x l :
  StronglySorted newerFirst l →
  List.filter (λ y, GameResult.createdAt (snd y) =? t) (insertSorted x l)
  = List.filter (λ y, GameResult.createdAt (snd y) =? t) (x :: l).
Proof.
  induction 1 as [|y l Hl IH Hy]; [reflexivity|].
  simpl insertSorted. unfold compareFn. rewrite !millis_createdAt.
  destruct (Z.leb_spec (GameResult.createdAt (snd y) - GameResult.createdAt (snd x)) 0);
    [reflexivity|].
  simpl List.filter in *. rewrite IH.
  destruct (Z.eqb_spec (GameResult.createdAt (snd x)) t);
    destruct (Z.eqb_spec (GameResult.createdAt (snd y)) t); try reflexivity. lia.
Qed.

Lemma sort_instant t l :
  List.filter (λ y, GameResult.createdAt (snd y) =? t) (sort l)
  = List.filter (λ y, GameResult.createdAt (snd y) =? t) l.
Proof.
  induction l as [|x l IH]; [reflexivity|].
  simpl sort. rewrite insertSorted_instant by apply sort_sorted.
  simpl. rewrite IH. reflexivity.
Qed.

Lemma loadHistory_eq uid w :
  loadHistory uid w = sort (whereDocs (isHostedBy uid) (gameResults w)).
Proof. reflexivity. Qed.

(** X12: the history page lists exactly the game results whose host is
    the user, each once, ordered by the date of creation with the newest
    first; results of the same date keep the order the store returns them
    in. *)
Theorem history_is_listed_newest_first (uid : string) (w : World) :
  let history := loadHistory uid w in
  history ≡ₚ whereDocs (isHostedBy uid) (gameResults w)
  ∧ (∀ x, In x history ↔ In x (gameResults w) ∧ GameResult.hostId (snd x) = uid)
  ∧ (∀ i j x y, history !! i = Some x → history !! j = Some y → (i < j)%nat →
                GameResult.createdAt (snd y) ≤ GameResult.createdAt (snd x))
  ∧ (∀ t, List.filter (λ y, GameResult.createdAt (snd y) =? t) history
          = List.filter (λ y, GameResult.createdAt (snd y) =? t)
              (whereDocs (isHostedBy uid) (gameResults w))).
Proof.
  cbv zeta. rewrite loadHistory_eq. split; [apply sort_perm|]. split; [|split].
  - intros x. rewrite <- !list_elem_of_In. rewrite sort_perm. rewrite !list_elem_of_In.
    rewrite whereDocs_In. unfold isHostedBy. rewrite String.eqb_eq. reflexivity.
  - intros i j x y Hi Hj Hij.
    pose proof (sort_sorted (whereDocs (isHostedBy uid) (gameResults w))) as Hs.
    revert i j Hi Hj Hij.
    induction Hs as [|z l Hl IH Hz]; intros i j Hi Hj Hij; [destruct i; discriminate|].
    destruct j as [|j]; [lia|]. simpl in Hj.
    destruct i as [|i]; simpl in Hi.
    + injection Hi as <-. rewrite Forall_forall in Hz. apply Hz.
      eapply list_elem_of_lookup_2, Hj.
    + apply (IH i j Hi Hj). lia.
  - intros t. apply sort_instant.
Qed.
End HistoryListFacts.

(** The two results of the host of the session, the later one first; the
    result of the other host is not listed. *)
Lemma history_is_listed_newest_first_witness :
  List.map fst (HistoryPage.loadHistory "host1" Session.archivedAgain) = ["g2"; "g1"]
  ∧ docIds (gameResults Session.archivedAgain) = ["g1"; "g2"; "g3"]
  ∧ ∀ x, In x (HistoryPage.loadHistory "host1" Session.archivedAgain) →
         GameResult.hostId (snd x) = "host1".
Proof.
  pose proof (history_is_listed_newest_first "host1" Session.archivedAgain) as H.
  cbv zeta in H. destruct H as (_ & Hin & _).
  split; [reflexivity|]. split; [reflexivity|].
  intros x Hx. exact (proj2 (proj1 (Hin x) Hx)).
Defined.

Section HistoryRoundTrip.
Variable atob : string → option string.
Variable downloadURL : string → string.

Lemma getGameResult_eq id w :
  getGameResult id w = (Ok (pair id <$> docData id (gameResults w)), w).
Proof. reflexivity. Qed.

(** X13: when [saveGameResult] returns, the result it returns carries
    the room, the code, the host, the text and image of the question, one
    saved answer per answer in order, and the date; [getGameResult] finds
    it under the returned id, the history page of that host lists it, the
    history of every other host is as before, and so is every other
    result. *)
Theorem saved_result_is_in_the_history
    uploadOk dateNow autoId now roomId roomCode hostId question answers w id g w' :
  saveGameResult atob downloadURL uploadOk dateNow autoId now roomId roomCode hostId
    question answers w = (Ok (id, g), w') →
  ∃ result,
    id = autoId ∧ g = Some result
    ∧ result = GameResult.mk roomId roomCode hostId (Question.text (snd question))
                 (Question.imageURL (snd question))
                 (imap (λ i a, savedAnswer downloadURL roomId question (dateNow i) a) answers)
                 now
    ∧ getGameResult id w' = (Ok (Some (id, result)), w')
    ∧ In (id, result) (HistoryPage.loadHistory hostId w')
    ∧ (∀ other, other ≠ hostId →
                HistoryPage.loadHistory other w' = HistoryPage.loadHistory other w)
    ∧ (∀ id', id' ≠ id → fst (getGameResult id' w') = fst (getGameResult id' w)).
Proof.
  intros Hrun. rewrite saveGameResult_run in Hrun.
  destruct (promiseAll_uploads atob downloadURL uploadOk roomId question answers dateNow w)
    as (w1 & Hw1 & (_ & _ & _ & _ & _ & G1) & _ & _ & H1).
  cbv zeta in H1.
  destruct (promiseAll _ w) as [[saved|e] w1'] eqn:E; simpl in Hw1; subst w1';
    [|discriminate Hrun].
  cbv zeta in Hrun. simpl fst in H1.
  destruct (docData autoId (gameResults w1)) eqn:Hf; [discriminate Hrun|].
  injection Hrun as <- <- <-.
  assert (Hsaved : saved = imap (λ i a, savedAnswer downloadURL roomId question (dateNow i) a)
                             answers).
  { destruct (forallb _ _).
    - destruct H1 as (H1 & _). injection H1 as ->. reflexivity.
    - destruct H1 as ([e H1] & _). discriminate H1. }
  subst saved. eexists. split; [reflexivity|]. split; [reflexivity|]. split; [reflexivity|].
  rewrite getGameResult_eq. store_simpl.
  rewrite docData_insertDoc_eq by assumption.
  split; [reflexivity|]. split; [|split].
  - rewrite loadHistory_eq. store_simpl.
    apply list_elem_of_In. rewrite sort_perm. apply list_elem_of_In.
    apply whereDocs_In. split; [apply In_insertDoc; left; reflexivity|].
    unfold isHostedBy. simpl. apply String.eqb_refl.
  - intros other Hne. rewrite !loadHistory_eq. store_simpl.
    rewrite whereDocs_insertDoc_false, G1; [reflexivity|].
    unfold isHostedBy. simpl. apply String.eqb_neq. congruence.
  - intros id' Hne. rewrite !getGameResult_eq. store_simpl.
    rewrite docData_insertDoc_ne by assumption. rewrite G1. reflexivity.
Qed.
End HistoryRoundTrip.

(** The result of the question of the session. *)
Lemma saved_result_is_in_the_history_witness :
  ∃ result,
    getGameResult "g1" Session.archived = (Ok (Some ("g1", result)), Session.archived)
    ∧ GameResult.roomCode result = "SSSSSS"
    ∧ length (GameResult.answers result) = 2%nat
    ∧ In ("g1", result) (HistoryPage.loadHistory "host1" Session.archived)
    ∧ HistoryPage.loadHistory "host2" Session.archived = [].
Proof.
  destruct (saveGameResult Session.atob Session.downloadURL (λ _, true)
              (λ i, 2000 + Z.of_nat i) "g1" 2010 "room1" "SSSSSS" "host1"
              Session.theQuestion (answers Session.marked !!! "room1") Session.marked)
    as [[[id g]|e] w'] eqn:Hrun.
  2:{ vm_compute in Hrun. discriminate Hrun. }
  assert (Hw' : w' = Session.archived).
  { unfold Session.archived. rewrite Hrun. reflexivity. }
  destruct (saved_result_is_in_the_history Session.atob Session.downloadURL _ _ _ _ _ _ _ _ _
              _ _ _ _ Hrun) as (result & -> & _ & Hres & Hget & Hin & Hother & _).
  subst w'. exists result. split; [exact Hget|].
  split; [rewrite Hres; reflexivity|]. split; [rewrite Hres; reflexivity|].
  split; [exact Hin|]. rewrite Hother by discriminate. reflexivity.
Defined.

(** ** The home page *)

Section RoomSizeFacts.
Import HomePage.

Lemma setMaxParticipants_bounds value : 1 ≤ setMaxParticipants value ≤ 100.
Proof. unfold setMaxParticipants. lia. Qed.

Lemma maxParticipants_bounds values : 1 ≤ maxParticipants values ≤ 100.
Proof.
  unfold maxParticipants.
  assert (H : ∀ n, 1 ≤ n ≤ 100 →
            1 ≤ foldl (λ _ value, setMaxParticipants value) n values ≤ 100).
  { induction values as [|v vs IH]; intros n Hn; simpl; [exact Hn|].
    apply IH, setMaxParticipants_bounds. }
  apply H. unfold initialMaxParticipants. lia.
Qed.

Lemma pretty_N_char_digit d :
  (d < 10)%N →
  isDecimalDigit (pretty_N_char d) = true
  ∧ digitValue 10 (pretty_N_char d) = Some (Z.of_N d).
Proof.
  intros Hd.
  assert (d = 0 ∨ d = 1 ∨ d = 2 ∨ d = 3 ∨ d = 4 ∨ d = 5 ∨ d = 6 ∨ d = 7 ∨ d = 8 ∨ d = 9)%N
    as H by lia.
  destruct H as [->|[->|[->|[->|[->|[->|[->|[->|[->| ->]]]]]]]]]; split; reflexivity.
Qed.

(** The digits of [x] in front of [s] are read as [x], after what was read
    before. *)
Lemma parseDigits_pretty_go x : ∀ s acc,
  (0 < x)%N →
  ∃ n, 0 ≤ n
       ∧ parseDigits 10 (pretty_N_go x s) acc
         = parseDigits 10 s (Some (default 0 acc * 10 ^ n + Z.of_N x)).
Proof.
  induction (N.lt_wf_0 x) as [x _ IH]; intros s acc Hx.
  rewrite pretty_N_go_step by exact Hx.
  destruct (pretty_N_char_digit (x `mod` 10)%N) as [_ Hdv]; [apply N.mod_lt; lia|].
  assert (Hdm : Z.of_N x = 10 * Z.of_N (x `div` 10) + Z.of_N (x `mod` 10)).
  { rewrite <- (N2Z.inj_mul 10), <- N2Z.inj_add. f_equal. apply N.div_mod. lia. }
  destruct (N.eq_dec (x `div` 10)%N 0%N) as [E|E].
  - rewrite E, pretty_N_go_0. exists 1. split; [lia|].
    simpl parseDigits. rewrite Hdv. f_equal. f_equal.
    rewrite Hdm, E, Z.pow_1_r. simpl Z.of_N.
    ring.
  - destruct (IH (x `div` 10)%N) with (s := String (pretty_N_char (x `mod` 10)%N) s) (acc := acc)
      as (n & Hn & Hrun).
    { apply N.div_lt; lia. }
    { apply N.neq_0_lt_0; exact E. }
    exists (n + 1). split; [lia|]. rewrite Hrun.
    simpl parseDigits. rewrite Hdv. f_equal. f_equal. simpl default.
    rewrite Hdm, Z.pow_add_r, Z.pow_1_r by lia.
    ring.
Qed.

Lemma pretty_go_first x : ∀ s,
  (0 < x)%N →
  ∃ c t, pretty_N_go x s = String c t ∧ isDecimalDigit c = true
         ∧ (t = s ∨ ∃ c' t', t = String c' t' ∧ isDecimalDigit c' = true).
Proof.
  induction (N.lt_wf_0 x) as [x _ IH]; intros s Hx.
  rewrite pretty_N_go_step by exact Hx.
  destruct (pretty_N_char_digit (x `mod` 10)%N) as [Hdig _]; [apply N.mod_lt; lia|].
  destruct (N.eq_dec (x `div` 10)%N 0%N) as [E|E].
  - rewrite E, pretty_N_go_0. eexists _, _. split; [reflexivity|]. split; [exact Hdig|].
    left. reflexivity.
  - destruct (IH (x `div` 10)%N) with (s := String (pretty_N_char (x `mod` 10)%N) s)
      as (c & t & Heq & Hc & Ht).
    { apply N.div_lt; lia. }
    { apply N.neq_0_lt_0; exact E. }
    exists c, t. split; [exact Heq|]. split; [exact Hc|]. right.
    destruct Ht as [->|Ht]; [|exact Ht]. eauto.
Qed.

(** On a numeral that starts with a digit, followed by nothing or by a
    digit, [parseInt] reads the digits in radix 10. *)
Lemma parseInt_digits c t :
  isDecimalDigit c = true →
  (t = EmptyString ∨ ∃ c' t', t = String c' t' ∧ isDecimalDigit c' = true) →
  parseInt (String c t) = parseDigits 10 (String c t) None
  ∧ parseInt (String "-" (String c t))
    = match parseDigits 10 (String c t) None with
      | Some n => Some (- n)
      | None => None
      end.
Proof.
  intros Hc Ht.
  assert (Hx : ∀ c', isDecimalDigit c' = true →
                     Ascii.eqb c' "x" || Ascii.eqb c' "X" = false).
  { intros c' H'. destruct c' as [[] [] [] [] [] [] [] []]; vm_compute in H' |- *;
      first [reflexivity | discriminate H']. }
  assert (Hsome : ∀ o : option Z,
            match o with Some n => Some (1 * n) | None => None end = o).
  { intros [n|]; [|reflexivity]. f_equal; lia. }
  assert (Hneg : ∀ o : option Z,
            match o with Some n => Some (-1 * n) | None => None end
            = match o with Some n => Some (- n) | None => None end).
  { intros [n|]; [|reflexivity]. f_equal; lia. }
  destruct c as [[] [] [] [] [] [] [] []]; vm_compute in Hc; try discriminate Hc;
    (destruct Ht as [-> |(c' & t' & -> & Hc')];
     [split; vm_compute; reflexivity|]);
    pose proof (Hx c' Hc') as Hxx; apply orb_false_iff in Hxx as [Hx1 Hx2];
    cbv beta iota zeta delta -[parseDigits Ascii.eqb Z.mul Z.opp];
    rewrite ?Hx1, ?Hx2; cbv beta iota zeta;
    split; first [apply Hsome | apply Hneg].
Qed.

Lemma parseInt_pretty (k : Z) : parseInt (pretty k) = Some k.
Proof.
  assert (Hpos : ∀ p : positive,
            ∃ c t, pretty p = String c t ∧ isDecimalDigit c = true
                   ∧ (t = EmptyString ∨ ∃ c' t', t = String c' t' ∧ isDecimalDigit c' = true)
                   ∧ parseDigits 10 (String c t) None = Some (Z.pos p)).
  { intros p. unfold pretty, pretty_positive, pretty, pretty_N.
    destruct (decide (N.pos p = 0%N)) as [E|_]; [discriminate E|].
    destruct (pretty_go_first (N.pos p) "" ltac:(lia)) as (c & t & Heq & Hc & Ht).
    exists c, t. split; [exact Heq|]. split; [exact Hc|]. split; [exact Ht|].
    rewrite <- Heq.
    destruct (parseDigits_pretty_go (N.pos p) "" None ltac:(lia)) as (n & _ & ->).
    simpl. reflexivity. }
  destruct k as [|p|p].
  - reflexivity.
  - destruct (Hpos p) as (c & t & Heq & Hc & Ht & Hrun).
    change (pretty (Z.pos p)) with (pretty p). rewrite Heq.
    rewrite (proj1 (parseInt_digits c t Hc Ht)). exact Hrun.
  - destruct (Hpos p) as (c & t & Heq & Hc & Ht & Hrun).
    change (pretty (Z.neg p)) with ("-" +:+ pretty p). rewrite Heq.
    change ("-" +:+ String c t) with (String "-" (String c t)).
    rewrite (proj2 (parseInt_digits c t Hc Ht)), Hrun. reflexivity.
Qed.

Lemma setMaxParticipants_parseInt value :
  setMaxParticipants value
  = match parseInt value with
    | Some m => Z.min 100 (Z.max 1 m)
    | None => 1
    end.
Proof.
  unfold setMaxParticipants. destruct (parseInt value) as [m|]; [|reflexivity].
  unfold orNumber. destruct (Z.eqb_spec m 0); [subst; reflexivity|reflexivity].
Qed.

Lemma maxParticipants_last values value :
  maxParticipants (values ++ [value]) = setMaxParticipants value.
Proof. unfold maxParticipants. rewrite foldl_app. reflexivity. Qed.


(** X14: the size of the room kept by the home page starts at 10 and is,
    after any input, the last value of the field read by [parseInt] and
    clamped: it is always between 1 and 100; it is 1 where [parseInt]
    finds no number and where it reads 0 or less, and 100 where it reads
    100 or more. The decimal numeral of an integer k is read as k, so that
    it gives k clamped to 1..100. A room created from the page, under a
    free name, has that size as its maximum of participants: the default
    of 15 never stands in for it. *)
Theorem room_size_is_between_1_and_100 (values : list string) :
  let n := maxParticipants values in
  1 ≤ n ≤ 100
  ∧ maxParticipants [] = 10
  ∧ (∀ value, maxParticipants (values ++ [value]) = setMaxParticipants value)
  ∧ (∀ value, setMaxParticipants value
              = match parseInt value with
                | Some m => Z.min 100 (Z.max 1 m)
                | None => 1
                end)
  ∧ (∀ k : Z, parseInt (pretty k) = Some k
              ∧ setMaxParticipants (pretty k) = Z.min 100 (Z.max 1 k))
  ∧ (∀ uid autoId random now w,
       docData autoId (rooms w) = None →
       ∃ w',
         handleCreateRoom (Some uid) true n autoId random now w
         = (Push ("/room/" +:+ autoId +:+ "/host"), w')
         ∧ docData autoId (rooms w')
           = Some (Room.mk uid (generateRoomCode random) waiting None n now)
         ∧ effectiveMax autoId w' = n).
Proof.
  cbv zeta. split; [apply maxParticipants_bounds|].
  split; [reflexivity|]. split; [apply maxParticipants_last|].
  split; [apply setMaxParticipants_parseInt|].
  split.
  { intros k. split; [apply parseInt_pretty|].
    rewrite setMaxParticipants_parseInt, parseInt_pretty. reflexivity. }
  intros uid autoId random now w Hfree.
  pose proof (maxParticipants_bounds values) as Hn.
  unfold handleCreateRoom, createRoom. simpl negb. cbv iota.
  store_unfold. store_simpl. rewrite Hfree. store_simpl.
  eexists. split; [reflexivity|]. store_simpl.
  unfold effectiveMax. store_simpl.
  rewrite docData_insertDoc_eq by assumption. split; [reflexivity|].
  simpl. unfold orNumber.
  destruct (Z.eqb_spec (maxParticipants values) 0); [lia|reflexivity].
Qed.
End RoomSizeFacts.

(** The field takes "3" and then "250", and the room is made for 100;
    "abc" and "0" give 1, and so does "1e3", of which [parseInt] reads
    the 1. *)
Lemma room_size_is_between_1_and_100_witness :
  HomePage.maxParticipants ["3"; "250"] = 100
  ∧ HomePage.setMaxParticipants "abc" = 1
  ∧ HomePage.setMaxParticipants "0" = 1
  ∧ HomePage.setMaxParticipants "1e3" = 1
  ∧ HomePage.setMaxParticipants (pretty 42) = 42
  ∧ HomePage.setMaxParticipants (pretty 1000) = 100
  ∧ ∃ w',
      HomePage.handleCreateRoom (Some "host1") true (HomePage.maxParticipants ["3"; "250"])
        "room1" Session.random 1000 emptyWorld
      = (HomePage.Push "/room/room1/host", w')
      ∧ effectiveMax "room1" w' = 100.
Proof.
  pose proof (room_size_is_between_1_and_100 ["3"; "250"]) as H.
  cbv zeta in H. destruct H as (_ & _ & _ & _ & Hdec & Hcreate).
  split; [reflexivity|]. split; [reflexivity|]. split; [reflexivity|].
  split; [reflexivity|].
  split; [rewrite (proj2 (Hdec 42)); reflexivity|].
  split; [rewrite (proj2 (Hdec 1000)); reflexivity|].
  destruct (Hcreate "host1" "room1" Session.random 1000 emptyWorld eq_refl)
    as (w' & Hrun & _ & Hmax).
  exists w'. split; [exact Hrun|]. rewrite Hmax. reflexivity.
Defined.

Section PasteFacts.
Import HomePage.

Lemma string_length_list s : String.length s = length (list_ascii_of_string s).
Proof. induction s as [|c s IH]; simpl; [|rewrite IH]; reflexivity. Qed.

Lemma upperChar_alnum c : isAlnum c = true → isUpperOrDigit (upperChar c) = true.
Proof.
  destruct c as [[] [] [] [] [] [] [] []]; vm_compute; intros H;
    first [reflexivity | discriminate H].
Qed.

Lemma toUpperCase_length s : String.length (toUpperCase s) = String.length s.
Proof. induction s as [|c s IH]; simpl; [|rewrite IH]; reflexivity. Qed.

Lemma toUpperCase_alnum s :
  forallb isAlnum (list_ascii_of_string s) = true →
  forallb isUpperOrDigit (list_ascii_of_string (toUpperCase s)) = true.
Proof.
  induction s as [|c s IH]; simpl; [reflexivity|].
  intros H. apply andb_true_iff in H as [Hc Hs].
  rewrite (upperChar_alnum c Hc), (IH Hs). reflexivity.
Qed.

Lemma sixAlnum_Some s g :
  sixAlnum s = Some g →
  String.length g = 6%nat ∧ forallb isAlnum (list_ascii_of_string g) = true.
Proof.
  unfold sixAlnum. destruct (_ && _) eqn:E; [|discriminate].
  intros H. injection H as <-. apply andb_true_iff in E as [E1 E2].
  apply Nat.eqb_eq in E1. auto.
Qed.

Lemma matchCode_Some s g :
  matchCode s = Some g →
  String.length g = 6%nat ∧ forallb isAlnum (list_ascii_of_string g) = true.
Proof.
  induction s as [|c s IH]; simpl; [discriminate|].
  destruct (_ && _).
  - destruct (sixAlnum _) eqn:E.
    + intros H. injection H as <-. apply (sixAlnum_Some _ _ E).
    + exact IH.
  - exact IH.
Qed.

(** X15: whenever [handlePaste] sets the room code, the code is of
    exactly six characters, each a capital letter or a digit, and is its
    own upper case. *)
Theorem pasted_code_is_six_capitals_or_digits (pastedText code : string) :
  handlePaste pastedText = Some code →
  String.length code = 6%nat
  ∧ forallb isUpperOrDigit (list_ascii_of_string code) = true
  ∧ toUpperCase code = code.
Proof.
  assert (Hup : ∀ g, String.length g = 6%nat →
            forallb isAlnum (list_ascii_of_string g) = true →
            String.length (toUpperCase g) = 6%nat
            ∧ forallb isUpperOrDigit (list_ascii_of_string (toUpperCase g)) = true
            ∧ toUpperCase (toUpperCase g) = toUpperCase g).
  { intros g Hlen Hal. rewrite toUpperCase_length. split; [exact Hlen|].
    split; [apply toUpperCase_alnum, Hal|].
    apply toUpperCase_fixed. intros c Hc.
    pose proof (toUpperCase_alnum g Hal) as Hall. rewrite forallb_forall in Hall.
    specialize (Hall c Hc). revert Hall. clear.
    destruct c as [[] [] [] [] [] [] [] []]; vm_compute; intros H;
      first [reflexivity | discriminate H]. }
  unfold handlePaste. destruct (matchCode pastedText) as [g|] eqn:Hm.
  - intros H. injection H as <-. destruct (matchCode_Some _ _ Hm) as [Hlen Hal].
    apply Hup; assumption.
  - destruct (_ && _); [|discriminate].
    cbv zeta. destruct (negb _ && isCode _) eqn:E; [|discriminate].
    intros H. injection H as <-.
    apply andb_true_iff in E as [_ E]. unfold isCode in E.
    apply andb_true_iff in E as [E1 E2]. apply Nat.eqb_eq in E1.
    apply Hup; assumption.
Qed.

Lemma substring_all s n : (String.length s <= n)%nat → substring 0 n s = s.
Proof.
  revert n. induction s as [|c s IH]; intros n Hn; simpl.
  - destruct n; reflexivity.
  - destruct n; simpl in Hn; [lia|]. rewrite IH by lia. reflexivity.
Qed.

Lemma chars_alnum c : In c (list_ascii_of_string chars) → isAlnum c = true.
Proof.
  simpl. intros H. repeat (destruct H as [<-|H]; [reflexivity|]). destruct H.
Qed.

Lemma matchCode_link origin code :
  (∀ c, In c (list_ascii_of_string origin) → c ≠ "?"%char ∧ c ≠ "&"%char) →
  String.length code = 6%nat →
  forallb isAlnum (list_ascii_of_string code) = true →
  matchCode (origin +:+ "/?code=" +:+ code) = Some code.
Proof.
  intros Ho Hlen Hal. induction origin as [|c o IH].
  - change (EmptyString +:+ "/?code=" +:+ code)
      with (String "/" (String "?" (String "c" (String "o" (String "d" (String "e"
              (String "=" code))))))).
    cbn [matchCode]. simpl Ascii.eqb. cbn [orb andb].
    simpl substring. simpl toUpperCase. simpl String.eqb. cbn iota.
    replace (substring 0 0 code) with EmptyString by (destruct code; reflexivity).
    simpl toUpperCase. simpl String.eqb. cbn iota.
    rewrite substring_all by lia.
    unfold sixAlnum. rewrite substring_all by lia. rewrite Hlen, Hal. reflexivity.
  - rewrite append_cons. cbn [matchCode].
    destruct (Ho c) as [H1 H2]; [simpl; auto|].
    destruct (Ascii.eqb_spec c "?"); [contradiction|].
    destruct (Ascii.eqb_spec c "&"); [contradiction|]. cbn [orb andb].
    apply IH. intros c' Hc'. apply Ho. simpl. auto.
Qed.

(** X16: for a room whose code is of six characters of the alphabet of
    codes (as [createRoom] makes them) and an origin that holds no '?' and
    no '&', the invitation the host page copies is
    [<origin>/?code=<code>]; pasted into the code field of the home page
    it sets the code of the room, and [getRoomByCode] finds a room of that
    code. *)
Theorem copied_invitation_pastes_the_room_code (roomId origin : string) (w : World) r :
  docData roomId (rooms w) = Some r →
  String.length (Room.roomCode r) = 6%nat →
  codeChars (Room.roomCode r) →
  (∀ c, In c (list_ascii_of_string origin) → c ≠ "?"%char ∧ c ≠ "&"%char) →
  HostPage.handleCopyCode roomId origin w
  = Some (origin +:+ "/?code=" +:+ Room.roomCode r)
  ∧ handlePaste (origin +:+ "/?code=" +:+ Room.roomCode r) = Some (Room.roomCode r)
  ∧ ∃ found, getRoomByCode (Room.roomCode r) w = (Ok (Some found), w)
             ∧ Room.roomCode (snd found) = Room.roomCode r.
Proof.
  intros Hr Hlen Hchars Ho.
  assert (Hal : forallb isAlnum (list_ascii_of_string (Room.roomCode r)) = true).
  { apply forallb_forall. intros c Hc. apply chars_alnum, Hchars, Hc. }
  assert (Hfix : toUpperCase (Room.roomCode r) = Room.roomCode r).
  { apply toUpperCase_fixed. intros c Hc. apply upperChar_chars, Hchars, Hc. }
  split; [|split].
  - unfold HostPage.handleCopyCode, HostPage.room. rewrite Hr. simpl.
    destruct (Room.roomCode r); [discriminate Hlen|reflexivity].
  - unfold handlePaste. rewrite (matchCode_link origin _ Ho Hlen Hal), Hfix. reflexivity.
  - rewrite getRoomByCode_eq.
    destruct (whereDocs (hasRoomCode (Room.roomCode r)) (rooms w)) as [|found rest] eqn:E.
    + exfalso.
      assert (Hin : In (roomId, r) (whereDocs (hasRoomCode (Room.roomCode r)) (rooms w))).
      { apply whereDocs_In. split; [apply docData_Some_In, Hr|].
        unfold hasRoomCode. simpl. rewrite Hfix. apply String.eqb_refl. }
      rewrite E in Hin. destruct Hin.
    + exists found. split; [reflexivity|].
      assert (Hin : In found (whereDocs (hasRoomCode (Room.roomCode r)) (rooms w))).
      { rewrite E. left; reflexivity. }
      apply whereDocs_In in Hin as [_ Hp]. unfold hasRoomCode in Hp.
      apply String.eqb_eq in Hp. rewrite Hp, Hfix. reflexivity.
Qed.
End PasteFacts.

(** An invitation typed in lower case. *)
Lemma pasted_code_is_six_capitals_or_digits_witness :
  HomePage.handlePaste "https://flipper.example/?code=abc234" = Some "ABC234"
  ∧ String.length "ABC234" = 6%nat
  ∧ toUpperCase "ABC234" = "ABC234".
Proof.
  destruct (pasted_code_is_six_capitals_or_digits
              "https://flipper.example/?code=abc234" "ABC234" eq_refl) as (Hlen & _ & Hup).
  split; [reflexivity|]. split; [exact Hlen|exact Hup].
Defined.

(** The invitation to the room of the session. *)
Lemma copied_invitation_pastes_the_room_code_witness :
  HostPage.handleCopyCode "room1" "https://flipper.example" Session.created
  = Some "https://flipper.example/?code=SSSSSS"
  ∧ HomePage.handlePaste "https://flipper.example/?code=SSSSSS" = Some "SSSSSS".
Proof.
  destruct (copied_invitation_pastes_the_room_code "room1" "https://flipper.example"
              Session.created (Room.mk "host1" "SSSSSS" waiting None 2 1000)
              eq_refl eq_refl) as (Hcopy & Hpaste & _).
  - intros c Hc. simpl in Hc.
    repeat (destruct Hc as [<-|Hc];
            [split; [simpl; tauto|simpl; intros H; intuition discriminate]|]).
    destruct Hc.
  - intros c Hc. simpl in Hc.
    repeat (destruct Hc as [<-|Hc]; [split; discriminate|]). destruct Hc.
  - split; [exact Hcopy|exact Hpaste].
Defined.

(** ** Who is let into the host page *)

Section HostAdmission.
Variable atob : string → option string.
Variable downloadURL : string → string.

Lemma loadRoom_eq roomId uid w :
  HostPage.loadRoom roomId (Some uid) w
  = match docData roomId (rooms w) with
    | Some r =>
        if negb (String.eqb (Room.hostId r) uid)
        then HostPage.Refused "このルームの司会者ではありません"
        else HostPage.Hosting (roomId, r)
    | None => HostPage.Refused "ルームが見つかりません"
    end.
Proof.
  unfold HostPage.loadRoom, getRoom. store_unfold. store_simpl.
  destruct (docData roomId (rooms w)); reflexivity.
Qed.

(** X17: after [createRoom] under a free name and any sequence of
    operations of the store, the host page of the room lets in the user
    who created it, and refuses every other user as not being the host;
    without a user it redirects, and for a room that does not exist it
    reports that the room is not found. *)
Theorem host_page_opens_for_the_creator_only
    (autoId : string) (random : nat → Q) (now : Z) (hostId : string)
    (maxParticipants : option Z) (w0 : World) (cs : list Call) (uid : string) :
  docData autoId (rooms w0) = None →
  let w := calls atob downloadURL cs
             (snd (createRoom autoId random now hostId maxParticipants w0)) in
  (∃ r, HostPage.loadRoom autoId (Some hostId) w = HostPage.Hosting (autoId, r)
        ∧ docData autoId (rooms w) = Some r)
  ∧ (uid ≠ hostId →
     HostPage.loadRoom autoId (Some uid) w
     = HostPage.Refused "このルームの司会者ではありません")
  ∧ HostPage.loadRoom autoId None w = HostPage.Redirected
  ∧ (∀ other, docData other (rooms w) = None →
              HostPage.loadRoom other (Some uid) w = HostPage.Refused "ルームが見つかりません").
Proof.
  intros Hfree w.
  assert (Hmade : ∃ r0, docData autoId
                          (rooms (snd (createRoom autoId random now hostId maxParticipants w0)))
                        = Some r0 ∧ Room.hostId r0 = hostId).
  { unfold createRoom. store_unfold. store_simpl. rewrite Hfree. store_simpl.
    rewrite docData_insertDoc_eq by assumption. eauto. }
  destruct Hmade as (r0 & Hr0 & Hhost0).
  destruct (calls_keep atob downloadURL cs
              (snd (createRoom autoId random now hostId maxParticipants w0))) as (Hkeep & _).
  destruct (Hkeep autoId r0 Hr0) as (r & Hr & (Hhost & _)). fold w in Hr.
  split; [|split; [|split]].
  - exists r. split; [|exact Hr]. rewrite loadRoom_eq, Hr, Hhost, Hhost0.
    rewrite String.eqb_refl. reflexivity.
  - intros Hne. rewrite loadRoom_eq, Hr, Hhost, Hhost0.
    destruct (String.eqb_spec hostId uid); [congruence|reflexivity].
  - reflexivity.
  - intros other Hnone. rewrite loadRoom_eq, Hnone. reflexivity.
Qed.
End HostAdmission.

(** The host of the session and a participant at the door of the host page. *)
Lemma host_page_opens_for_the_creator_only_witness :
  let w := calls Session.atob Session.downloadURL Session.story emptyWorld in
  (∃ r, HostPage.loadRoom "room1" (Some "host1") w = HostPage.Hosting ("room1", r))
  ∧ HostPage.loadRoom "room1" (Some "u1") w
    = HostPage.Refused "このルームの司会者ではありません".
Proof.
  cbv zeta.
  pose proof (host_page_opens_for_the_creator_only Session.atob Session.downloadURL
                "room1" Session.random 1000 "host1" (Some 2) emptyWorld
                (tail Session.story) "u1" eq_refl) as H.
  cbv zeta in H. destruct H as ((r & Hr & _) & Hother & _).
  split; [exists r; exact Hr|]. apply Hother. discriminate.
Defined.

(** ** The profile of the user *)

Section ProfileFacts.
Import AuthContext.

Lemma step_inStep st ev : inStep st → inStep (step st ev).
Proof.
  intros Hinv. destruct ev as [now [u|]| |data|name url]; simpl.
  - unfold onAuthStateChanged. destruct (users st !! uid u) as [data|] eqn:E.
    + unfold inStep. simpl. exists data. auto.
    + unfold inStep. simpl. eexists. rewrite lookup_insert_eq. split; [reflexivity|].
      simpl. auto.
  - exact I.
  - exact I.
  - unfold updateProfile. destruct (user st) as [u|] eqn:Hu; [|exact Hinv].
    unfold inStep in *. rewrite ?Hu in Hinv.
    simpl. rewrite ?Hu. destruct (userProfile st) as [prev|]; [|exact I].
    destruct Hinv as (d & Hd & H1 & H2 & H3 & H4).
    eexists. rewrite lookup_insert_eq. split; [reflexivity|]. rewrite Hd. simpl.
    rewrite H1, H2, H3, H4. auto.
  - unfold handleSave, updateProfile.
    destruct (user st) as [u|] eqn:Hu; [|exact Hinv].
    unfold inStep in *. rewrite ?Hu in Hinv.
    simpl. rewrite ?Hu. destruct (userProfile st) as [prev|]; [|exact I].
    destruct Hinv as (d & Hd & H1 & H2 & H3 & H4).
    eexists. rewrite lookup_insert_eq. split; [reflexivity|]. rewrite Hd. simpl.
    rewrite H1, H2. auto.
Qed.

Lemma run_inStep evs : ∀ st, inStep st → inStep (run evs st).
Proof.
  induction evs as [|ev evs IH]; intros st Hst; simpl; [exact Hst|].
  apply IH, step_inStep, Hst.
Qed.

(** X19: through any sequence of sign-ins, sign-outs and profile updates,
    the profile the pages read agrees with the stored document of the user
    on uid, e-mail, name and picture. Saving the settings of a signed-in
    user writes the name and the picture into that document and into the
    state and leaves uid, e-mail and date of creation of the document and
    the documents of all other users as they are; when the user signs out
    and in again (whatever name the identity provider reports), the profile
    read is the saved document: the saved name and picture are kept. *)
Theorem saved_settings_survive_signing_in_again
    (users0 : gmap string UserProfile) (evs : list Event) (u again : User)
    (name url : string) (now : Z) :
  let st := run evs (initial users0) in
  inStep st
  ∧ (user st = Some u → uid again = uid u →
     let saved := handleSave name url st in
     let old := default noFields (users st !! uid u) in
     let back := onAuthStateChanged now (Some again) (signOut saved) in
     users saved !! uid u
     = Some (mkUserProfile (profileUid old) (profileEmail old)
               (Some (Some name)) (Some (Some url)) (createdAt old))
     ∧ (∀ other, other ≠ uid u → users saved !! other = users st !! other)
     ∧ inStep saved
     ∧ userProfile back = users saved !! uid u
     ∧ users back = users saved).
Proof.
  intros st.
  assert (Hinv : inStep st).
  { apply run_inStep. exact I. }
  split; [exact Hinv|].
  intros Hu Huid saved old back.
  assert (Hsaved : users saved !! uid u
                   = Some (mkUserProfile (profileUid old) (profileEmail old)
                             (Some (Some name)) (Some (Some url)) (createdAt old))).
  { unfold saved, handleSave, updateProfile. rewrite Hu. simpl.
    rewrite lookup_insert_eq. reflexivity. }
  split; [exact Hsaved|]. split; [|split; [|split]].
  - intros other Hne. unfold saved, handleSave, updateProfile. rewrite Hu. simpl.
    apply lookup_insert_ne. congruence.
  - apply (step_inStep st (Save name url) Hinv).
  - unfold back, onAuthStateChanged, signOut. simpl. rewrite Huid, Hsaved. reflexivity.
  - unfold back, onAuthStateChanged, signOut. simpl. rewrite Huid, Hsaved. reflexivity.
Qed.
End ProfileFacts.

(** Ann signs in for the first time, saves her settings, signs out and
    signs in again. *)
Lemma saved_settings_survive_signing_in_again_witness :
  let st := AuthContext.run [AuthContext.AuthStateChanged 100 (Some Session.ann)]
              (AuthContext.initial ∅) in
  let saved := AuthContext.handleSave "Ann" "" st in
  let back := AuthContext.onAuthStateChanged 200 (Some Session.ann)
                (AuthContext.signOut saved) in
  AuthContext.userProfile st
  = Some (AuthContext.mkUserProfile (Some "u1") (Some (Some "ann@example.org"))
            (Some (Some "Ann G.")) (Some None) None)
  ∧ AuthContext.userProfile back
    = Some (AuthContext.mkUserProfile (Some "u1") (Some (Some "ann@example.org"))
              (Some (Some "Ann")) (Some (Some "")) (Some 100)).
Proof.
  cbv zeta.
  pose proof (saved_settings_survive_signing_in_again ∅
                [AuthContext.AuthStateChanged 100 (Some Session.ann)]
                Session.ann Session.ann "Ann" "" 200) as H.
  cbv zeta in H. destruct H as (_ & H).
  destruct (H eq_refl eq_refl) as (Hsaved & _ & _ & Hback & _).
  split; [reflexivity|]. rewrite Hback, Hsaved. reflexivity.
Defined.
